(** * Penny Power Plan: the ledger store and its two codecs

    A shallow embedding of [penny.py] (classes [Transaction], [Income],
    [Expense], [SavingsGoal] and [FinanceManager]) and the properties of its
    persistence and serialization core.

    The program is glue around the Python interpreter and its standard
    library.  What the interpreter and the library do (binary floating
    point, [float()], [int()], [sum], [hash], [date.today()], the text
    produced and accepted by the [json] and [csv] modules, [Path.suffix])
    is taken through two interfaces, [PyFloat] and [Runtime]; what
    [penny.py] itself does is written out.  Every law of the interpreter a
    proof relies on appears as a hypothesis of the theorem that uses it. *)

From Stdlib Require Import ZArith String Ascii List.
From Stdlib Require Import DecimalString DecimalPos DecimalZ.
From stdpp Require Import base strings list gmap.

Set Warnings "-register-all".
Local Open Scope string_scope.

(** ** Exceptions and results *)

(** The exception classes the modelled code can raise.  [ValueError]
    carries the message of the [raise] statement when the source raises it;
    when the interpreter raises it the string names the failing operation
    (["float()"], ["int()"], ["unpack"]) and is not Python's wording. *)
Inductive exn :=
| ValueError (msg : string)
| TypeError
| KeyError (key : string)
| AttributeError
| IndexError
| OverflowError
| JSONDecodeError
| FileNotFoundError.

Inductive result (A : Type) :=
| Ok (a : A)
| Err (e : exn).
Arguments Ok {A} a.
Arguments Err {A} e.

#[global] Instance result_ret : MRet result := fun _ a => Ok a.
#[global] Instance result_bind : MBind result := fun _ _ f m =>
  match m with
  | Ok a => f a
  | Err e => Err e
  end.

#[global] Instance result_fmap : FMap result := fun _ _ f m =>
  match m with
  | Ok a => Ok (f a)
  | Err e => Err e
  end.

Definition is_ok {A} (r : result A) : bool :=
  match r with Ok _ => true | Err _ => false end.

(** ** Python [str] methods used by the source *)

Module Str.

(** [s.split(sep)] for a one-character separator. *)
Fixpoint split (sep : ascii) (s : string) : list string :=
  match s with
  | EmptyString => [EmptyString]
  | String c rest =>
      if Ascii.eqb c sep then EmptyString :: split sep rest
      else match split sep rest with
           | w :: ws => String c w :: ws
           | [] => [String c EmptyString]
           end
  end.

(** [str.isspace] on the code points below 256. *)
Definition isspace (c : ascii) : bool :=
  let n := nat_of_ascii c in
  (Nat.leb 9 n && Nat.leb n 13) || (Nat.leb 28 n && Nat.leb n 32)
  || Nat.eqb n 133 || Nat.eqb n 160.

Fixpoint lstrip (s : string) : string :=
  match s with
  | EmptyString => EmptyString
  | String c rest => if isspace c then lstrip rest else s
  end.

Fixpoint rstrip (s : string) : string :=
  match s with
  | EmptyString => EmptyString
  | String c rest =>
      match rstrip rest with
      | EmptyString => if isspace c then EmptyString else String c EmptyString
      | kept => String c kept
      end
  end.

(** [s.strip()] *)
Definition strip (s : string) : string := rstrip (lstrip s).

(** [pat in s] *)
Fixpoint contains (pat s : string) : bool :=
  String.prefix pat s
  || match s with
     | EmptyString => false
     | String _ rest => contains pat rest
     end.

(** The characters of a string, and character membership. *)
Fixpoint chars (s : string) : list ascii :=
  match s with
  | EmptyString => []
  | String c rest => c :: chars rest
  end.

Definition has_char (c : ascii) (s : string) : bool :=
  existsb (Ascii.eqb c) (chars s).

(** [s.count(c)] *)
Definition count (c : ascii) (s : string) : nat :=
  length (List.filter (Ascii.eqb c) (chars s)).

(** [str(n)] for an [int]. *)
Definition of_Z (z : Z) : string := NilZero.string_of_int (Z.to_int z).

(** Characters that are a decimal digit or the minus sign, and texts made
    of them. *)
Definition plain (c : ascii) : bool :=
  existsb (Ascii.eqb c) (chars "-0123456789").

Definition all_plain (s : string) : bool := forallb plain (chars s).

(** Texts without white space. *)
Definition no_space (s : string) : bool :=
  forallb (fun c => negb (isspace c)) (chars s).

End Str.

(** ** Floating point *)

(** Python's [float] with the operations the source applies to it. *)
Class PyFloat := {
  float : Type;
  (** the literal [0.0] *)
  float_zero : float;
  (** [x <= 0] *)
  float_le_zero : float -> bool;
  (** [bool(x)] *)
  float_bool : float -> bool;
  (** [x + y] and [x - y] *)
  float_add : float -> float -> float;
  float_sub : float -> float -> float;
  (** the conversion of an [int] operand; [None] is [OverflowError] *)
  float_of_int : Z -> option float;
  (** [str(x)], which is [repr(x)] *)
  float_str : float -> string;
  (** [float(s)]; [None] is [ValueError] *)
  float_of_str : string -> option float;
}.

(** ** Python values *)

(** [datetime.date].  The source only ever asks a date for its ISO text
    ([isoformat()], [str()]); a date object is always truthy. *)
Module datetime.
Record date := Date { year : Z; month : Z; day : Z }.

Fixpoint zeros (n : nat) : string :=
  match n with
  | O => EmptyString
  | S n' => String "0" (zeros n')
  end.

(** [s.zfill(width)] on the digits of a non-negative number *)
Definition zfill (width : nat) (s : string) : string :=
  zeros (width - String.length s) +:+ s.

(** [YYYY-MM-DD] *)
Definition isoformat (d : date) : string :=
  zfill 4 (Str.of_Z (year d)) +:+ "-" +:+ zfill 2 (Str.of_Z (month d))
  +:+ "-" +:+ zfill 2 (Str.of_Z (day d)).
End datetime.

Section Values.
Context `{PyFloat}.

(** The objects the ledger is made of: what [json.load] returns and what
    the [to_dict] methods build.  A [dict] keeps its keys in insertion
    order; all keys are strings. *)
Inductive value :=
| VNone
| VBool (b : bool)
| VInt (z : Z)
| VFloat (x : float)
| VStr (s : string)
| VList (items : list value)
| VDict (entries : list (string * value)).

(** A number: [int] or [float]. *)
Inductive num :=
| NInt (z : Z)
| NFloat (x : float).

Definition of_num (n : num) : value :=
  match n with
  | NInt z => VInt z
  | NFloat x => VFloat x
  end.

(** The numeric view of an operand of [+]; [bool] is a subclass of [int]. *)
Definition as_num (v : value) : option num :=
  match v with
  | VBool b => Some (NInt (if b then 1 else 0)%Z)
  | VInt z => Some (NInt z)
  | VFloat x => Some (NFloat x)
  | _ => None
  end.

Definition to_float (n : num) : result float :=
  match n with
  | NFloat x => Ok x
  | NInt z => match float_of_int z with
              | Some x => Ok x
              | None => Err OverflowError
              end
  end.

(** [a + b] and [a - b] on numbers. *)
Definition num_add (a b : num) : result num :=
  match a, b with
  | NInt x, NInt y => Ok (NInt (x + y))
  | _, _ => x ← to_float a; y ← to_float b; Ok (NFloat (float_add x y))
  end.

Definition num_sub (a b : num) : result num :=
  match a, b with
  | NInt x, NInt y => Ok (NInt (x - y))
  | _, _ => x ← to_float a; y ← to_float b; Ok (NFloat (float_sub x y))
  end.

(** [v + n] where [n] is a number: every other left operand is a
    [TypeError]. *)
Definition add_num (v : value) (n : num) : result value :=
  match as_num v with
  | Some a => of_num <$> num_add a n
  | None => Err TypeError
  end.

(** What the interpreter and the library contribute beyond floats. *)
Class Runtime := {
  (** the builtin [sum] on numbers, started at the [int] 0 *)
  py_sum : list num -> result num;
  (** [str()] of a [list] or a [dict] *)
  repr_container : value -> string;
  (** [hash()] of a [str] *)
  py_hash : string -> Z;
  (** [int(s)]; [None] is [ValueError] *)
  int_of_str : string -> option Z;
  (** [date.today()] *)
  today : datetime.date;
  (** [Path.suffix] *)
  suffix : string -> string;
  (** the contents of a file *)
  file : Type;
  (** [json.dump] and [json.load]; [None] is [JSONDecodeError] *)
  json_dump : value -> file;
  json_load : file -> option value;
  (** the text [csv.writer] produces for a sequence of [writerow] calls
      (cells already converted to [str]), and the rows [csv.reader]
      splits a text into; quoting, line ends and the newline translation
      of [open] all live behind these two functions *)
  csv_write : list (list string) -> file;
  csv_read : file -> list (list string);
}.

(** *** Dictionaries *)

Fixpoint dict_get {A} (k : string) (d : list (string * A)) : option A :=
  match d with
  | [] => None
  | (k', v) :: rest => if String.eqb k k' then Some v else dict_get k rest
  end.

(** [d[k] = v]: an existing key keeps its position. *)
Fixpoint dict_set {A} (k : string) (v : A) (d : list (string * A))
  : list (string * A) :=
  match d with
  | [] => [(k, v)]
  | (k', v') :: rest =>
      if String.eqb k k' then (k, v) :: rest else (k', v') :: dict_set k v rest
  end.

(** [v[k]] for a string key. *)
Definition getitem (v : value) (k : string) : result value :=
  match v with
  | VDict d => match dict_get k d with
               | Some x => Ok x
               | None => Err (KeyError k)
               end
  | _ => Err TypeError
  end.

(** [v.get(k, default)] *)
Definition get (v : value) (k : string) (default : value) : result value :=
  match v with
  | VDict d => Ok (match dict_get k d with
                   | Some x => x
                   | None => default
                   end)
  | _ => Err AttributeError
  end.

(** [v[k] = x] *)
Definition setitem (v : value) (k : string) (x : value) : result value :=
  match v with
  | VDict d => Ok (VDict (dict_set k x d))
  | _ => Err TypeError
  end.

(** [v == s] for a [str] [s]; never raises. *)
Definition eq_str (v : value) (s : string) : bool :=
  match v with
  | VStr s' => String.eqb s' s
  | _ => false
  end.

(** [for x in v]: the items drawn from [v]. *)
Definition iter (v : value) : result (list value) :=
  match v with
  | VList items => Ok items
  | VDict d => Ok (map (fun kv => VStr (fst kv)) d)
  | VStr s => Ok (map (fun c => VStr (String c EmptyString)) (Str.chars s))
  | _ => Err TypeError
  end.

(** [bool(v)] *)
Definition truthy (v : value) : bool :=
  match v with
  | VNone => false
  | VBool b => b
  | VInt z => negb (Z.eqb z 0)
  | VFloat x => float_bool x
  | VStr s => negb (String.eqb s "")
  | VList items => match items with [] => false | _ => true end
  | VDict d => match d with [] => false | _ => true end
  end.

(** [key in v] for a [str] key. *)
Definition contains_key (v : value) (key : string) : result bool :=
  match v with
  | VDict d => Ok (match dict_get key d with Some _ => true | None => false end)
  | VList items => Ok (existsb (fun x => eq_str x key) items)
  | VStr s => Ok (Str.contains key s)
  | _ => Err TypeError
  end.

Context `{Runtime}.

(** [str(v)], as an f-string placeholder formats it. *)
Definition py_str (v : value) : string :=
  match v with
  | VNone => "None"
  | VBool true => "True"
  | VBool false => "False"
  | VInt z => Str.of_Z z
  | VFloat x => float_str x
  | VStr s => s
  | VList _ | VDict _ => repr_container v
  end.

(** The text [csv.writer] puts in a cell: [None] is written as the empty
    string, a [str] as it is, anything else through [str()]. *)
Definition csv_field (v : value) : string :=
  match v with
  | VNone => ""
  | _ => py_str v
  end.

(** [float(v)] *)
Definition py_float (v : value) : result float :=
  match v with
  | VStr s => match float_of_str s with
              | Some x => Ok x
              | None => Err (ValueError "float()")
              end
  | VFloat x => Ok x
  | VInt z => to_float (NInt z)
  | VBool b => to_float (NInt (if b then 1 else 0)%Z)
  | _ => Err TypeError
  end.

(** [int(s)] for a [str] *)
Definition py_int (s : string) : result Z :=
  match int_of_str s with
  | Some z => Ok z
  | None => Err (ValueError "int()")
  end.

(** [v.split(sep)]: only a [str] has the method. *)
Definition py_split (v : value) (sep : ascii) : result (list string) :=
  match v with
  | VStr s => Ok (Str.split sep s)
  | _ => Err AttributeError
  end.

(** [pat in v] for a [str] pattern and a cell [v] of a csv row. *)
Definition py_in (pat : string) (v : value) : result bool :=
  contains_key v pat.

(** [l[i]] on a list of strings *)
Definition index (l : list string) (i : nat) : result string :=
  match l !! i with
  | Some s => Ok s
  | None => Err IndexError
  end.

End Values.

(** ** Enumerations *)

Module Frequency.
Inductive t := DAILY | WEEKLY | MONTHLY | YEARLY | ONE_TIME.
Definition value (f : t) : string :=
  match f with
  | DAILY => "daily"
  | WEEKLY => "weekly"
  | MONTHLY => "monthly"
  | YEARLY => "yearly"
  | ONE_TIME => "one-time"
  end.
End Frequency.

Module ExpenseCategory.
Inductive t := BUSINESS | PERSONAL.
Definition value (c : t) : string :=
  match c with
  | BUSINESS => "business"
  | PERSONAL => "personal"
  end.
End ExpenseCategory.

Module SavingsCategory.
Inductive t := SHORT_TERM | EMERGENCY | LONG_TERM | ELECTRONICS | OTHER.
Definition value (c : t) : string :=
  match c with
  | SHORT_TERM => "short-term"
  | EMERGENCY => "emergency"
  | LONG_TERM => "long-term"
  | ELECTRONICS => "electronics"
  | OTHER => "other"
  end.
(** [str(member)], which is what an f-string placeholder shows. *)
Definition str (c : t) : string :=
  "SavingsCategory." +:+
  match c with
  | SHORT_TERM => "SHORT_TERM"
  | EMERGENCY => "EMERGENCY"
  | LONG_TERM => "LONG_TERM"
  | ELECTRONICS => "ELECTRONICS"
  | OTHER => "OTHER"
  end.
End SavingsCategory.

(** ** Record types *)

(** [x or y] on strings: [x] when it is not empty. *)
Definition str_or (x y : string) : string :=
  if String.eqb x "" then y else x.

Module Transaction.
Section Defs.
Context `{PyFloat} `{!Runtime}.

Record t := {
  amount : float;
  description : string;
  date : datetime.date;
  id : string;
}.

(** [__init__].  The parameter [date] hides the class [date] inside the
    body, so in [date or date.today()] the second operand asks the
    parameter itself for [today]: with no date given that is
    [None.today()]. *)
Definition init (amount : float) (description : string)
    (date : option datetime.date) : result t :=
  if float_le_zero amount then Err (ValueError "Amount must be positive")
  else
    self_date ← match date with
                | Some d => Ok d
                | None => Err AttributeError
                end;
    Ok {| amount := amount;
          description := description;
          date := self_date;
          id := Str.of_Z (py_hash (datetime.isoformat self_date +:+ "-"
                                   +:+ description +:+ "-"
                                   +:+ float_str amount)) |}.

Definition to_dict (self : t) : list (string * value) :=
  [("id", VStr (id self));
   ("amount", VFloat (amount self));
   ("description", VStr (description self));
   ("date", VStr (datetime.isoformat (date self)))].
End Defs.
End Transaction.

(** [d.update(other)] *)
Definition dict_update {A} (d other : list (string * A)) : list (string * A) :=
  fold_left (fun acc kv => dict_set (fst kv) (snd kv) acc) other d.

Module Income.
Section Defs.
Context `{PyFloat} `{!Runtime}.

Record t := {
  super : Transaction.t;
  source : string;
  frequency : string;
  is_target : bool;
}.

Definition init (amount : float) (source : string)
    (frequency : Frequency.t) (description : string) (is_target : bool)
  : result t :=
  base ← Transaction.init amount
           (str_or description ("Income from " +:+ source)) None;
  Ok {| super := base;
        source := source;
        frequency := Frequency.value frequency;
        is_target := is_target |}.

Definition to_dict (self : t) : value :=
  VDict (dict_update (Transaction.to_dict (super self))
           [("type", VStr "income");
            ("source", VStr (source self));
            ("frequency", VStr (frequency self));
            ("is_target", VBool (is_target self))]).
End Defs.
End Income.

Module Expense.
Section Defs.
Context `{PyFloat} `{!Runtime}.

Record t := {
  super : Transaction.t;
  category : string;
  subcategory : string;
  is_recurring : bool;
}.

Definition init (amount : float) (category : ExpenseCategory.t)
    (subcategory : string) (description : string) (is_recurring : bool)
  : result t :=
  base ← Transaction.init amount
           (str_or description
              (ExpenseCategory.value category +:+ " expense: "
               +:+ subcategory)) None;
  Ok {| super := base;
        category := ExpenseCategory.value category;
        subcategory := subcategory;
        is_recurring := is_recurring |}.

Definition to_dict (self : t) : value :=
  VDict (dict_update (Transaction.to_dict (super self))
           [("type", VStr "expense");
            ("category", VStr (category self));
            ("subcategory", VStr (subcategory self));
            ("is_recurring", VBool (is_recurring self))]).
End Defs.
End Expense.

Module SavingsGoal.
Section Defs.
Context `{PyFloat} `{!Runtime}.

Record t := {
  name : string;
  target_amount : float;
  current_amount : float;
  category : string;
  deadline : option datetime.date;
  priority : Z;
  id : string;
  contributions : list value;
}.

Definition init (name : string) (target_amount : float)
    (category : SavingsCategory.t) (deadline : option datetime.date)
    (priority : Z) : result t :=
  if float_le_zero target_amount
  then Err (ValueError "Target amount must be positive")
  else if (priority <? 1)%Z || (priority >? 5)%Z
  then Err (ValueError "Priority must be between 1 and 5")
  else Ok {| name := name;
             target_amount := target_amount;
             current_amount := float_zero;
             category := SavingsCategory.value category;
             deadline := deadline;
             priority := priority;
             id := Str.of_Z (py_hash (name +:+ "-"
                                      +:+ float_str target_amount +:+ "-"
                                      +:+ SavingsCategory.str category));
             contributions := [] |}.

Definition to_dict (self : t) : value :=
  VDict [("id", VStr (id self));
         ("name", VStr (name self));
         ("target_amount", VFloat (target_amount self));
         ("current_amount", VFloat (current_amount self));
         ("category", VStr (category self));
         ("deadline", match deadline self with
                      | Some d => VStr (datetime.isoformat d)
                      | None => VNone
                      end);
         ("priority", VInt (priority self));
         ("contributions", VList (contributions self))].
(** [add_contribution]: the outcome, and the goal as the statements that
    ran leave it.  As in [Transaction.__init__], the parameter [date] hides
    the class, so without a date the entry to append cannot be built; by
    then [current_amount] has been updated. *)
Definition add_contribution (self : t) (amount : float)
    (date : option datetime.date) : result unit * t :=
  if float_le_zero amount
  then (Err (ValueError "Contribution amount must be positive"), self)
  else
    let credited (entries : list value) :=
      {| name := name self;
         target_amount := target_amount self;
         current_amount := float_add (current_amount self) amount;
         category := category self;
         deadline := deadline self;
         priority := priority self;
         id := id self;
         contributions := entries |} in
    match date with
    | Some d =>
        (Ok (),
         credited (contributions self
                   ++ [VDict [("amount", VFloat amount);
                              ("date", VStr (datetime.isoformat d))]])%list)
    | None => (Err AttributeError, credited (contributions self))
    end.

End Defs.
End SavingsGoal.

(** ** Generators, [sum] and comprehensions *)

Section Iteration.
Context `{PyFloat} `{!Runtime}.

(** A generator expression [(e(x) for x in items if c(x))], drawn to its
    end: the values it yields before it raises, and the exception if it
    does.  [f x] is [Ok None] when the condition filters [x] out. *)
Fixpoint generator (f : value -> result (option value)) (items : list value)
  : list value * option exn :=
  match items with
  | [] => ([], None)
  | x :: rest =>
      match f x with
      | Err e => ([], Some e)
      | Ok None => generator f rest
      | Ok (Some y) =>
          let '(ys, fault) := generator f rest in (y :: ys, fault)
      end
  end.

(** The numbers at the front of a sequence, and whether that is all of
    it. *)
Fixpoint numeric_prefix (ys : list value) : list num * bool :=
  match ys with
  | [] => ([], true)
  | y :: rest =>
      match as_num y with
      | None => ([], false)
      | Some n => let '(ns, all) := numeric_prefix rest in (n :: ns, all)
      end
  end.

(** [sum(generator)].  [sum] draws and adds one item at a time, so what
    stops it is whichever comes first: an addition that fails among the
    numbers drawn so far, an item that is not a number, or the exception
    of the generator. *)
Definition sum_generator (g : list value * option exn) : result num :=
  let '(ys, fault) := g in
  let '(ns, all) := numeric_prefix ys in
  total ← py_sum ns;
  if all then match fault with
              | Some e => Err e
              | None => Ok total
              end
  else Err TypeError.

(** [[x for x in items if c(x)]] *)
Fixpoint comprehension (c : value -> result bool) (items : list value)
  : result (list value) :=
  match items with
  | [] => Ok []
  | x :: rest =>
      keep ← c x;
      kept ← comprehension c rest;
      Ok (if keep : bool then x :: kept else kept)
  end.

(** A [for] loop that writes one csv row per item: the rows written, and
    the exception that stopped it if one did. *)
Fixpoint write_rows (row_of : value -> result (list string))
    (items : list value) : list (list string) * option exn :=
  match items with
  | [] => ([], None)
  | x :: rest =>
      match row_of x with
      | Err e => ([], Some e)
      | Ok r => let '(rs, fault) := write_rows row_of rest in (r :: rs, fault)
      end
  end.

(** Statements in sequence, each writing rows. *)
Definition then_write (a b : list (list string) * option exn)
  : list (list string) * option exn :=
  match a with
  | (ra, Some e) => (ra, Some e)
  | (ra, None) => let '(rb, fault) := b in ((ra ++ rb)%list, fault)
  end.

(** [a, b = parts] *)
Definition unpack2 {A} (parts : list A) : result (A * A) :=
  match parts with
  | [a; b] => Ok (a, b)
  | _ => Err (ValueError "unpack")
  end.

(** [a, b = map(float, parts)]: [map] is lazy, so the conversions run as
    the unpacking draws the items, and a third item is converted before
    the unpacking finds it is one too many. *)
Definition unpack2_floats (parts : list string) : result (float * float) :=
  match parts with
  | [] => Err (ValueError "unpack")
  | [p1] => _ ← py_float (VStr p1); Err (ValueError "unpack")
  | p1 :: p2 :: more =>
      a ← py_float (VStr p1);
      b ← py_float (VStr p2);
      match more with
      | [] => Ok (a, b)
      | p3 :: _ => _ ← py_float (VStr p3); Err (ValueError "unpack")
      end
  end.

End Iteration.

(** ** The ledger store *)

Module FinanceManager.
Section Defs.
Context `{PyFloat} `{!Runtime}.

(** The manager object ([data_file], [data]) together with the files it
    can see, keyed by path. *)
Record state := {
  data_file : string;
  data : value;
  disk : gmap string file;
}.

Definition set_data (st : state) (v : value) : state :=
  {| data_file := data_file st; data := v; disk := disk st |}.

(** [open(path, "w")] followed by writing [contents] and closing. *)
Definition write_file (st : state) (path : string) (contents : file)
  : state :=
  {| data_file := data_file st;
     data := data st;
     disk := <[path := contents]> (disk st) |}.

(** [open(path, "r")] *)
Definition read_file (st : state) (path : string) : result file :=
  match disk st !! path with
  | Some f => Ok f
  | None => Err FileNotFoundError
  end.

Definition load_data (st : state) : state :=
  match disk st !! data_file st with
  | Some f => match json_load f with
              | Some v => set_data st v
              | None => st
              end
  | None => st
  end.

Definition save_data (st : state) : state :=
  write_file st (data_file st) (json_dump (data st)).

(** [__init__] *)
Definition init (data_file : string) (disk : gmap string file) : state :=
  load_data {| data_file := data_file;
               data := VDict [("incomes", VList []);
                              ("expenses", VList []);
                              ("savings_goals", VList []);
                              ("version", VStr "0.0.1")];
               disk := disk |}.

(** [self.data[key].append(record)] and [save_data()]. *)
Definition append_to (key : string) (record : value) (st : state)
  : result unit * state :=
  match getitem (data st) key with
  | Err e => (Err e, st)
  | Ok (VList items) =>
      match setitem (data st) key (VList (items ++ [record])%list) with
      | Ok d => (Ok (), save_data (set_data st d))
      | Err e => (Err e, st)
      end
  | Ok _ => (Err AttributeError, st)
  end.

Definition add_income (income : Income.t) (st : state)
  : result unit * state :=
  append_to "incomes" (Income.to_dict income) st.

Definition add_expense (expense : Expense.t) (st : state)
  : result unit * state :=
  append_to "expenses" (Expense.to_dict expense) st.

Definition add_savings_goal (goal : SavingsGoal.t) (st : state)
  : result unit * state :=
  append_to "savings_goals" (SavingsGoal.to_dict goal) st.

(** The body of the [if] in [contribute_to_goal], run on the matching
    goal: the outcome and the goal as the statements executed so far
    leave it. *)
Definition contribute (goal : value) (amount : float)
  : result unit * value :=
  match getitem goal "current_amount" with
  | Err e => (Err e, goal)
  | Ok current =>
      match add_num current (NFloat amount) with
      | Err e => (Err e, goal)
      | Ok total =>
          match setitem goal "current_amount" total with
          | Err e => (Err e, goal)
          | Ok goal1 =>
              match getitem goal1 "contributions" with
              | Err e => (Err e, goal1)
              | Ok (VList entries) =>
                  let entry :=
                    VDict [("amount", VFloat amount);
                           ("date", VStr (datetime.isoformat today))] in
                  match setitem goal1 "contributions"
                          (VList (entries ++ [entry])%list) with
                  | Ok goal2 => (Ok (), goal2)
                  | Err e => (Err e, goal1)
                  end
              | Ok _ => (Err AttributeError, goal1)
              end
          end
      end
  end.

(** The [for] loop of [contribute_to_goal] over the goals: whether a
    goal matched, and the goals afterwards. *)
Fixpoint contribute_scan (goal_id : string) (amount : float)
    (goals : list value) : result bool * list value :=
  match goals with
  | [] => (Ok false, [])
  | goal :: rest =>
      match getitem goal "id" with
      | Err e => (Err e, goals)
      | Ok gid =>
          if eq_str gid goal_id then
            let '(r, goal') := contribute goal amount in
            ((fun _ => true) <$> r, goal' :: rest)
          else
            let '(r, rest') := contribute_scan goal_id amount rest in
            (r, goal :: rest')
      end
  end.

Definition contribute_to_goal (goal_id : string) (amount : float)
    (st : state) : result bool * state :=
  match getitem (data st) "savings_goals" with
  | Err e => (Err e, st)
  | Ok goals =>
      match iter goals with
      | Err e => (Err e, st)
      | Ok items =>
          let '(r, items') := contribute_scan goal_id amount items in
          (* the loop mutates the goals inside the list it iterates;
             iterating a dict or a str draws fresh strings *)
          let st' :=
            match goals, setitem (data st) "savings_goals" (VList items') with
            | VList _, Ok d => set_data st d
            | _, _ => st
            end in
          match r with
          | Ok true => (Ok true, save_data st')
          | _ => (r, st')
          end
      end
  end.

Record Summary := {
  net_balance : num;
  total_income : num;
  total_expenses : num;
  total_savings : num;
  income_targets : list value;
  expense_targets : list value;
  savings_goals : value;
}.

(** [self.data[key]], iterated. *)
Definition collection (d : value) (key : string) : result (list value) :=
  c ← getitem d key; iter c.

Definition summary_of (d : value) : result Summary :=
  incomes ← collection d "incomes";
  total_income ← sum_generator
    (generator (fun i => t ← getitem i "is_target";
                         if truthy t then Ok None
                         else Some <$> getitem i "amount") incomes);
  expenses ← collection d "expenses";
  total_expenses ← sum_generator
    (generator (fun e => Some <$> getitem e "amount") expenses);
  goals ← collection d "savings_goals";
  total_savings ← sum_generator
    (generator (fun g => Some <$> getitem g "current_amount") goals);
  incomes' ← collection d "incomes";
  income_targets ← comprehension
    (fun i => truthy <$> getitem i "is_target") incomes';
  expenses' ← collection d "expenses";
  expense_targets ← comprehension
    (fun e => truthy <$> get e "is_recurring" (VBool false)) expenses';
  net_balance ← num_sub total_income total_expenses;
  savings_goals ← getitem d "savings_goals";
  Ok {| net_balance := net_balance;
        total_income := total_income;
        total_expenses := total_expenses;
        total_savings := total_savings;
        income_targets := income_targets;
        expense_targets := expense_targets;
        savings_goals := savings_goals |}.

Definition get_summary (st : state) : result Summary * state :=
  (summary_of (data st), st).

(** *** Tabular export *)

Definition header : list string :=
  ["Type"; "Amount"; "Description"; "Date"; "Category"; "Details"].

Definition income_row (income : value) : result (list string) :=
  amount ← getitem income "amount";
  description ← getitem income "description";
  date ← getitem income "date";
  source ← getitem income "source";
  frequency ← getitem income "frequency";
  is_target ← getitem income "is_target";
  Ok ["Income";
      csv_field amount;
      csv_field description;
      csv_field date;
      csv_field source;
      "Frequency: " +:+ py_str frequency +:+ ", Target: "
        +:+ py_str is_target].

Definition expense_row (expense : value) : result (list string) :=
  amount ← getitem expense "amount";
  description ← getitem expense "description";
  date ← getitem expense "date";
  category ← getitem expense "category";
  subcategory ← getitem expense "subcategory";
  is_recurring ← get expense "is_recurring" (VBool false);
  Ok ["Expense";
      csv_field amount;
      csv_field description;
      csv_field date;
      py_str category +:+ "/" +:+ py_str subcategory;
      "Recurring: " +:+ py_str is_recurring].

Definition goal_row (goal : value) : result (list string) :=
  current ← getitem goal "current_amount";
  target ← getitem goal "target_amount";
  name ← getitem goal "name";
  deadline ← get goal "deadline" (VStr "");
  category ← getitem goal "category";
  priority ← getitem goal "priority";
  Ok ["Savings Goal";
      py_str current +:+ "/" +:+ py_str target;
      csv_field name;
      csv_field deadline;
      csv_field category;
      "Priority: " +:+ py_str priority].

(** One [for] loop of [_export_to_csv]. *)
Definition write_collection (d : value) (key : string)
    (row_of : value -> result (list string))
  : list (list string) * option exn :=
  match collection d key with
  | Err e => ([], Some e)
  | Ok items => write_rows row_of items
  end.

(** The rows [_export_to_csv] hands to the writer, in order, and the
    exception that interrupted it if one did. *)
Definition export_rows (d : value) : list (list string) * option exn :=
  then_write ([header], None)
    (then_write (write_collection d "incomes" income_row)
       (then_write (write_collection d "expenses" expense_row)
          (write_collection d "savings_goals" goal_row))).

Definition _export_to_csv (file_path : string) (st : state)
  : result unit * state :=
  let '(rows, fault) := export_rows (data st) in
  (match fault with
   | Some e => Err e
   | None => Ok ()
   end,
   write_file st file_path (csv_write rows)).

(** [export_data]; [file_path] is [None] when the caller gives none. *)
Definition export_data (format : string) (file_path : option string)
    (st : state) : result string * state :=
  if String.eqb format "json" then
    let path := default "penny_export.json" file_path in
    (Ok path, write_file st path (json_dump (data st)))
  else if String.eqb format "csv" then
    let path := default "penny_export.csv" file_path in
    let '(r, st') := _export_to_csv path st in
    ((fun _ => path) <$> r, st')
  else (Err (ValueError "Unsupported export format"), st).

(** *** Tabular import *)

(** [dict(zip(fieldnames, row))], then the fields the row is too short
    for set to [None].  Cells beyond the last field name go under the
    key [None], which the source never reads; they are left out. *)
Definition row_dict (fieldnames row : list string) : value :=
  let zipped :=
    fold_left (fun d kc => dict_set (fst kc) (VStr (snd kc)) d)
      (zip fieldnames row) [] in
  VDict (fold_left (fun d key => dict_set key VNone d)
           (drop (length row) fieldnames) zipped).

(** [csv.DictReader]: the first row names the fields, empty rows are
    skipped. *)
Definition DictReader (rows : list (list string)) : list value :=
  match rows with
  | [] => []
  | fieldnames :: rest =>
      map (row_dict fieldnames)
        (filter (fun r => r <> []) rest)
  end.

(** [row["Details"].split(",")[0].split(":")[1].strip()] *)
Definition frequency_of (row : value) : result string :=
  details ← getitem row "Details";
  parts ← py_split details ",";
  first ← index parts 0;
  second ← index (Str.split ":" first) 1;
  Ok (Str.strip second).

(** [int(row["Details"].split(":")[1].strip())] *)
Definition priority_of (row : value) : result Z :=
  details ← getitem row "Details";
  parts ← py_split details ":";
  second ← index parts 1;
  py_int (Str.strip second).

Definition import_income (row : value) : result value :=
  cell ← getitem row "Amount";
  amount ← py_float cell;
  description ← getitem row "Description";
  date ← getitem row "Date";
  source ← getitem row "Category";
  frequency ← frequency_of row;
  details ← getitem row "Details";
  is_target ← py_in "True" details;
  Ok (VDict [("amount", VFloat amount);
             ("description", description);
             ("date", date);
             ("source", source);
             ("frequency", VStr frequency);
             ("is_target", VBool is_target)]).

Definition import_expense (row : value) : result value :=
  cell ← getitem row "Category";
  parts ← py_split cell "/";
  '(category, subcategory) ← unpack2 parts;
  cell ← getitem row "Amount";
  amount ← py_float cell;
  description ← getitem row "Description";
  date ← getitem row "Date";
  details ← getitem row "Details";
  is_recurring ← py_in "True" details;
  Ok (VDict [("amount", VFloat amount);
             ("description", description);
             ("date", date);
             ("category", VStr category);
             ("subcategory", VStr subcategory);
             ("is_recurring", VBool is_recurring)]).

Definition import_goal (row : value) : result value :=
  cell ← getitem row "Amount";
  parts ← py_split cell "/";
  '(current, target) ← unpack2_floats parts;
  name ← getitem row "Description";
  category ← getitem row "Category";
  date ← getitem row "Date";
  deadline ← (if truthy date then getitem row "Date" else Ok VNone);
  priority ← priority_of row;
  Ok (VDict [("name", name);
             ("target_amount", VFloat target);
             ("current_amount", VFloat current);
             ("category", category);
             ("deadline", deadline);
             ("priority", VInt priority)]).

(** The three lists [_import_from_csv] fills. *)
Record imported := {
  incomes : list value;
  expenses : list value;
  goals : list value;
}.

(** The body of the [for] loop over the rows of the reader: a row whose
    [Type] is none of the three is passed over. *)
Definition import_row (row : value) (acc : imported) : result imported :=
  type ← getitem row "Type";
  if eq_str type "Income" then
    r ← import_income row;
    Ok {| incomes := (incomes acc ++ [r])%list;
          expenses := expenses acc;
          goals := goals acc |}
  else if eq_str type "Expense" then
    r ← import_expense row;
    Ok {| incomes := incomes acc;
          expenses := (expenses acc ++ [r])%list;
          goals := goals acc |}
  else if eq_str type "Savings Goal" then
    r ← import_goal row;
    Ok {| incomes := incomes acc;
          expenses := expenses acc;
          goals := (goals acc ++ [r])%list |}
  else Ok acc.

Fixpoint import_rows (rows : list value) (acc : imported)
  : result imported :=
  match rows with
  | [] => Ok acc
  | row :: rest => acc' ← import_row row acc; import_rows rest acc'
  end.

Definition imported_dict (acc : imported) : value :=
  VDict [("incomes", VList (incomes acc));
         ("expenses", VList (expenses acc));
         ("savings_goals", VList (goals acc))].

(** [_import_from_csv] on the rows of the file. *)
Definition import_from_rows (rows : list (list string)) : result value :=
  imported_dict <$>
    import_rows (DictReader rows)
      {| incomes := []; expenses := []; goals := [] |}.

Definition _import_from_csv (file_path : string) (st : state)
  : result value :=
  f ← read_file st file_path;
  import_from_rows (csv_read f).

(** *** Import *)

Definition required_keys : list string :=
  ["incomes"; "expenses"; "savings_goals"].

(** [all(key in imported_data for key in required_keys)] *)
Fixpoint all_keys_in (imported_data : value) (keys : list string)
  : result bool :=
  match keys with
  | [] => Ok true
  | key :: rest =>
      present ← contains_key imported_data key;
      if present : bool then all_keys_in imported_data rest else Ok false
  end.

Definition import_data (file_path : string) (st : state)
  : result unit * state :=
  let loaded :=
    if String.eqb (suffix file_path) ".json" then
      f ← read_file st file_path;
      match json_load f with
      | Some v => Ok v
      | None => Err JSONDecodeError
      end
    else if String.eqb (suffix file_path) ".csv" then
      _import_from_csv file_path st
    else Err (ValueError "Unsupported import format") in
  match loaded with
  | Err e => (Err e, st)
  | Ok imported_data =>
      match all_keys_in imported_data required_keys with
      | Err e => (Err e, st)
      | Ok false => (Err (ValueError "Invalid data format"), st)
      | Ok true => (Ok (), save_data (set_data st imported_data))
      end
  end.
End Defs.
End FinanceManager.

(** ** A runtime to compute with

    A small interpreter of the two interfaces, used to run the model on
    concrete ledgers: floats are the whole numbers, printed the way Python
    prints them (["350.0"]); a file holds either a JSON document or the rows
    of a csv text. *)

Module Whole.

(** [int(s)] on decimal literals: surrounding white space and a leading
    [+] are accepted. *)
Definition parse_Z (s : string) : option Z :=
  Z.of_int <$> NilZero.int_of_string s.

Definition to_int (s : string) : option Z :=
  match Str.strip s with
  | String c digits =>
      if Ascii.eqb c "+" then
        match digits with
        | String d _ => if Ascii.eqb d "-" then None else parse_Z digits
        | EmptyString => None
        end
      else parse_Z (String c digits)
  | EmptyString => None
  end.

Fixpoint all_zeros (s : string) : bool :=
  match s with
  | EmptyString => true
  | String c rest => Ascii.eqb c "0" && all_zeros rest
  end.

(** [float(s)] on the literals of whole numbers: ["350"], ["350.0"]. *)
Definition to_float (s : string) : option Z :=
  match Str.split "." (Str.strip s) with
  | [whole] => parse_Z whole
  | [whole; fraction] =>
      if all_zeros fraction then parse_Z whole else None
  | _ => None
  end.

Definition str (x : Z) : string := Str.of_Z x +:+ ".0".

#[export] Instance whole_float : PyFloat := {|
  float := Z;
  float_zero := 0%Z;
  float_le_zero x := (x <=? 0)%Z;
  float_bool x := negb (x =? 0)%Z;
  float_add := Z.add;
  float_sub := Z.sub;
  float_of_int z := Some z;
  float_str := str;
  float_of_str := to_float;
|}.

(** Addition from left to right. *)
Fixpoint sum_from (acc : num) (ns : list num) : result num :=
  match ns with
  | [] => Ok acc
  | n :: rest => acc' ← num_add acc n; sum_from acc' rest
  end.

(** The suffix of the last component of a path. *)
Definition extension (path : string) : string :=
  match reverse (Str.split "." (List.last (Str.split "/" path) "")) with
  | [] | [_] => ""
  | ext :: stem =>
      if forallb (String.eqb "") stem then "" else "." +:+ ext
  end.

Inductive contents :=
| Json (document : value)
| Csv (rows : list (list string)).

#[export] Instance whole_runtime : Runtime := {|
  py_sum := sum_from (NInt 0);
  repr_container _ := "[...]";
  py_hash s := Z.of_nat (String.length s);
  int_of_str := to_int;
  today := datetime.Date 2024 3 15;
  suffix := extension;
  file := contents;
  json_dump := Json;
  json_load f := match f with Json v => Some v | Csv _ => None end;
  csv_write := Csv;
  csv_read f := match f with Csv rows => rows | Json _ => [] end;
|}.

End Whole.

(** ** The operations as the specification words them

    Stated on typed records ([Income.t], [Expense.t], [SavingsGoal.t]); the
    theorems below compare them with what the code computes on the
    dictionaries of the ledger. *)

Module Spec.
Section Defs.
Context `{PyFloat} `{!Runtime}.

(** A goal after a contribution of [amount]: [current_amount] grown by
    [amount], one entry [{amount, date: today}] added at the end of
    [contributions]. *)
Definition credited (amount : float) (g : SavingsGoal.t) : SavingsGoal.t :=
  {| SavingsGoal.name := SavingsGoal.name g;
     SavingsGoal.target_amount := SavingsGoal.target_amount g;
     SavingsGoal.current_amount :=
       float_add (SavingsGoal.current_amount g) amount;
     SavingsGoal.category := SavingsGoal.category g;
     SavingsGoal.deadline := SavingsGoal.deadline g;
     SavingsGoal.priority := SavingsGoal.priority g;
     SavingsGoal.id := SavingsGoal.id g;
     SavingsGoal.contributions :=
       (SavingsGoal.contributions g
        ++ [VDict [("amount", VFloat amount);
                   ("date", VStr (datetime.isoformat today))]])%list |}.

(** The summary of a ledger holding [incomes], [expenses] and [goals]:
    [total_income] sums the amounts of the incomes that are not targets,
    [total_expenses] the amounts of all expenses, [total_savings] the
    [current_amount] of all goals; [net_balance] is [total_income] minus
    [total_expenses]; the two subsets hold the target incomes and the
    recurring expenses. *)
Definition income_amount (i : Income.t) : float :=
  Transaction.amount (Income.super i).

Definition expense_amount (e : Expense.t) : float :=
  Transaction.amount (Expense.super e).

Definition summary (incomes : list Income.t) (expenses : list Expense.t)
    (goals : list SavingsGoal.t) : result FinanceManager.Summary :=
  total_income ← py_sum
    (map (fun i => NFloat (income_amount i))
       (List.filter (fun i => negb (Income.is_target i)) incomes));
  total_expenses ← py_sum (map (fun e => NFloat (expense_amount e)) expenses);
  total_savings ← py_sum
    (map (fun g => NFloat (SavingsGoal.current_amount g)) goals);
  net_balance ← num_sub total_income total_expenses;
  Ok {| FinanceManager.net_balance := net_balance;
        FinanceManager.total_income := total_income;
        FinanceManager.total_expenses := total_expenses;
        FinanceManager.total_savings := total_savings;
        FinanceManager.income_targets :=
          map Income.to_dict (List.filter Income.is_target incomes);
        FinanceManager.expense_targets :=
          map Expense.to_dict (List.filter Expense.is_recurring expenses);
        FinanceManager.savings_goals :=
          VList (map SavingsGoal.to_dict goals) |}.

(** An expense record as [Expense.to_dict] builds it, but without the key
    [is_recurring]; and the expense it stands for when the missing flag is
    read as [False]. *)
Definition untagged (e : Expense.t) : value :=
  VDict (dict_update (Transaction.to_dict (Expense.super e))
           [("type", VStr "expense");
            ("category", VStr (Expense.category e));
            ("subcategory", VStr (Expense.subcategory e))]).


(** The rows of the tabular form, column by column as the table of the
    specification gives them. *)
Definition bool_str (b : bool) : string := if b then "True" else "False".

Definition income_row (i : Income.t) : list string :=
  ["Income";
   float_str (income_amount i);
   Transaction.description (Income.super i);
   datetime.isoformat (Transaction.date (Income.super i));
   Income.source i;
   "Frequency: " +:+ Income.frequency i +:+ ", Target: "
     +:+ bool_str (Income.is_target i)].

Definition expense_row (e : Expense.t) : list string :=
  ["Expense";
   float_str (expense_amount e);
   Transaction.description (Expense.super e);
   datetime.isoformat (Transaction.date (Expense.super e));
   Expense.category e +:+ "/" +:+ Expense.subcategory e;
   "Recurring: " +:+ bool_str (Expense.is_recurring e)].

Definition goal_row (g : SavingsGoal.t) : list string :=
  ["Savings Goal";
   float_str (SavingsGoal.current_amount g) +:+ "/"
     +:+ float_str (SavingsGoal.target_amount g);
   SavingsGoal.name g;
   match SavingsGoal.deadline g with
   | Some d => datetime.isoformat d
   | None => ""
   end;
   SavingsGoal.category g;
   "Priority: " +:+ Str.of_Z (SavingsGoal.priority g)].

Definition rows (incomes : list Income.t) (expenses : list Expense.t)
    (goals : list SavingsGoal.t) : list (list string) :=
  (FinanceManager.header
   :: map income_row incomes ++ map expense_row expenses
      ++ map goal_row goals)%list.

(** What tabular import rebuilds from the row of a record: the fields the
    row carries, and nothing else. *)
Definition reimported_income (i : Income.t) : value :=
  VDict [("amount", VFloat (income_amount i));
         ("description", VStr (Transaction.description (Income.super i)));
         ("date", VStr (datetime.isoformat
                          (Transaction.date (Income.super i))));
         ("source", VStr (Income.source i));
         ("frequency", VStr (Income.frequency i));
         ("is_target", VBool (Income.is_target i))].

Definition reimported_expense (e : Expense.t) : value :=
  VDict [("amount", VFloat (expense_amount e));
         ("description", VStr (Transaction.description (Expense.super e)));
         ("date", VStr (datetime.isoformat
                          (Transaction.date (Expense.super e))));
         ("category", VStr (Expense.category e));
         ("subcategory", VStr (Expense.subcategory e));
         ("is_recurring", VBool (Expense.is_recurring e))].

Definition reimported_goal (g : SavingsGoal.t) : value :=
  VDict [("name", VStr (SavingsGoal.name g));
         ("target_amount", VFloat (SavingsGoal.target_amount g));
         ("current_amount", VFloat (SavingsGoal.current_amount g));
         ("category", VStr (SavingsGoal.category g));
         ("deadline", match SavingsGoal.deadline g with
                      | Some d => VStr (datetime.isoformat d)
                      | None => VNone
                      end);
         ("priority", VInt (SavingsGoal.priority g))].

Definition reimported (incomes : list Income.t) (expenses : list Expense.t)
    (goals : list SavingsGoal.t) : value :=
  VDict [("incomes", VList (map reimported_income incomes));
         ("expenses", VList (map reimported_expense expenses));
         ("savings_goals", VList (map reimported_goal goals))].

(** Records whose text survives the composite cells: the frequency is one
    of the enumeration, and neither part of [category/subcategory] holds a
    [/]. *)
Definition income_ok (i : Income.t) : Prop :=
  exists f, Income.frequency i = Frequency.value f.

Definition expense_ok (e : Expense.t) : Prop :=
  Str.has_char "/" (Expense.category e) = false
  /\ Str.has_char "/" (Expense.subcategory e) = false.

(** *** Rows under the standard header *)

(** The cell a row has in column [i]: [None] when the row is too short. *)
Definition cell (i : nat) (cells : list string) : value :=
  match cells !! i with
  | Some s => VStr s
  | None => VNone
  end.

(** The dictionary the reader makes of a row under the header
    [Type,Amount,Description,Date,Category,Details]. *)
Definition standard_row (cells : list string) : value :=
  VDict [("Type", cell 0 cells);
         ("Amount", cell 1 cells);
         ("Description", cell 2 cells);
         ("Date", cell 3 cells);
         ("Category", cell 4 cells);
         ("Details", cell 5 cells)].

(** *** Malformed rows *)

Definition recognised (type : string) : bool :=
  String.eqb type "Income" || String.eqb type "Expense"
  || String.eqb type "Savings Goal".

Definition recognised_row (cells : list string) : bool :=
  match cells with
  | type :: _ => recognised type
  | [] => false
  end.

Definition numeric (s : string) : bool :=
  match float_of_str s with Some _ => true | None => false end.

(** The four ways the specification calls a row malformed: wrong column
    count, non-numeric amount, missing [/] where one is required,
    unrecognised [Type]. *)
Definition malformed (cells : list string) : bool :=
  negb (Nat.eqb (length cells) 6)
  || match cells with
     | type :: amount :: _ :: _ :: category :: _ =>
         if String.eqb type "Income" then negb (numeric amount)
         else if String.eqb type "Expense" then
           negb (numeric amount) || negb (Str.has_char "/" category)
         else if String.eqb type "Savings Goal" then
           match Str.split "/" amount with
           | [current; target] => negb (numeric current && numeric target)
           | _ => true
           end
         else true
     | _ => true
     end.

(** The malformed rows the code rejects: a row of one of the three types
    with fewer than six cells, a non-numeric amount, or no [/] where one is
    required. *)
Definition rejected (cells : list string) : bool :=
  match cells with
  | type :: rest =>
      recognised type
      && (Nat.ltb (length cells) 6
          || match rest with
             | amount :: _ :: _ :: category :: _ =>
                 if String.eqb type "Income" then negb (numeric amount)
                 else if String.eqb type "Expense" then
                   negb (numeric amount)
                   || negb (Str.has_char "/" category)
                 else
                   match Str.split "/" amount with
                   | [current; target] =>
                       negb (numeric current && numeric target)
                   | _ => true
                   end
             | _ => false
             end)
  | [] => false
  end.

(** *** The exceptions of a row that does not decode

    The classes of exception the loop of [_import_from_csv] can raise under
    the standard header: [float] and [int] of a text and the unpacking of a
    split raise [ValueError]; [float(None)] and ["True" in None] raise
    [TypeError]; [None.split] raises [AttributeError]; the subscript [[1]]
    of a split raises [IndexError]. *)
Definition value_error (e : exn) : bool :=
  match e with
  | ValueError _ => true
  | _ => false
  end.

Definition refusal (e : exn) : bool :=
  match e with
  | ValueError _ | TypeError | AttributeError => true
  | _ => false
  end.

Definition decode_error (e : exn) : bool :=
  match e with
  | ValueError _ | TypeError | AttributeError | IndexError => true
  | _ => false
  end.
End Defs.
End Spec.

(** ** A sample ledger

    The end-to-end examples of the specification, run on the whole-number
    runtime. *)

Module Sample.
Import Whole.

Definition salary : Income.t :=
  {| Income.super :=
       {| Transaction.amount := 100%Z;
          Transaction.description := "Income from Job";
          Transaction.date := datetime.Date 2024 3 1;
          Transaction.id := "4401" |};
     Income.source := "Job";
     Income.frequency := "monthly";
     Income.is_target := false |}.

Definition freelance : Income.t :=
  {| Income.super :=
       {| Transaction.amount := 50%Z;
          Transaction.description := "Income from Freelance";
          Transaction.date := datetime.Date 2024 3 2;
          Transaction.id := "4402" |};
     Income.source := "Freelance";
     Income.frequency := "one-time";
     Income.is_target := true |}.

Definition software : Expense.t :=
  {| Expense.super :=
       {| Transaction.amount := 30%Z;
          Transaction.description := "business expense: software";
          Transaction.date := datetime.Date 2024 3 3;
          Transaction.id := "4403" |};
     Expense.category := "business";
     Expense.subcategory := "software";
     Expense.is_recurring := true |}.

Definition laptop : SavingsGoal.t :=
  {| SavingsGoal.name := "Laptop";
     SavingsGoal.target_amount := 1000%Z;
     SavingsGoal.current_amount := 350%Z;
     SavingsGoal.category := "electronics";
     SavingsGoal.deadline := None;
     SavingsGoal.priority := 2%Z;
     SavingsGoal.id := "4404";
     SavingsGoal.contributions :=
       [VDict [("amount", VFloat 250%Z); ("date", VStr "2024-03-10")];
        VDict [("amount", VFloat 100%Z); ("date", VStr "2024-03-12")]] |}.

(** A contribution of 250.0. *)
Definition deposit : float := 250%Z.

Definition ledger : list (string * value) :=
  [("incomes", VList (map Income.to_dict [salary; freelance]));
   ("expenses", VList (map Expense.to_dict [software]));
   ("savings_goals", VList (map SavingsGoal.to_dict [laptop]));
   ("version", VStr "0.0.1")].

Definition manager : FinanceManager.state :=
  {| FinanceManager.data_file := "finance_data.json";
     FinanceManager.data := VDict ledger;
     FinanceManager.disk := ∅ |}.

(** A structured file without the key [savings_goals]. *)
Definition incomplete : list (string * value) :=
  [("incomes", VList []); ("expenses", VList [])].

Definition manager_with_incomplete : FinanceManager.state :=
  {| FinanceManager.data_file := "finance_data.json";
     FinanceManager.data := VDict ledger;
     FinanceManager.disk := <["incomplete.json" := Json (VDict incomplete)]> ∅ |}.

(** An income record without the key [is_target], as structured import
    would accept it. *)
Definition untargeted : list (string * value) :=
  [("id", VStr "4405"); ("amount", VFloat 75%Z);
   ("description", VStr "Income from Gift"); ("date", VStr "2024-03-04");
   ("type", VStr "income"); ("source", VStr "Gift");
   ("frequency", VStr "one-time")].

Definition ledger_untargeted : list (string * value) :=
  [("incomes", VList (map Income.to_dict [salary] ++ [VDict untargeted]));
   ("expenses", VList (map Expense.to_dict [software]));
   ("savings_goals", VList (map SavingsGoal.to_dict [laptop]));
   ("version", VStr "0.0.1")].

Definition ledger_untagged : list (string * value) :=
  [("incomes", VList (map Income.to_dict [salary; freelance]));
   ("expenses", VList (map Expense.to_dict []
                       ++ Spec.untagged software :: map Expense.to_dict []));
   ("savings_goals", VList (map SavingsGoal.to_dict [laptop]));
   ("version", VStr "0.0.1")].

(** Tabular files: one with a row of an unknown [Type] in front of a good
    row, one with a non-numeric amount. *)
Definition transfer_row : list string :=
  ["Transfer"; "10.0"; "to savings"; "2024-03-05"; "misc"; ""].

Definition salary_row : list string :=
  ["Income"; "100.0"; "Income from Job"; "2024-03-01"; "Job";
   "Frequency: monthly, Target: False"].

Definition bad_amount_row : list string :=
  ["Income"; "abc"; "Income from Job"; "2024-03-01"; "Job";
   "Frequency: monthly, Target: False"].

Definition manager_with_transfer : FinanceManager.state :=
  {| FinanceManager.data_file := "finance_data.json";
     FinanceManager.data := VDict ledger;
     FinanceManager.disk :=
       <["transfer.csv" :=
           Csv [FinanceManager.header; transfer_row; salary_row]]> ∅ |}.

End Sample.

(** ** The mutating methods side by side *)

Module Ops.
Section Defs.
Context `{PyFloat} `{!Runtime}.

(** The three [add_*] methods of a manager, each with the key of its
    collection and the record it stores. *)
Definition add_methods (income : Income.t) (expense : Expense.t)
    (goal : SavingsGoal.t)
  : list ((FinanceManager.state -> result unit * FinanceManager.state)
          * string * value) :=
  [(FinanceManager.add_income income, "incomes", Income.to_dict income);
   (FinanceManager.add_expense expense, "expenses", Expense.to_dict expense);
   (FinanceManager.add_savings_goal goal, "savings_goals",
    SavingsGoal.to_dict goal)].

(** The manager after [record] has been appended to the collection [key],
    which held [items], and the ledger saved. *)
Definition appended (key : string) (record : value)
    (st : FinanceManager.state) (d : list (string * value))
    (items : list value) : FinanceManager.state :=
  FinanceManager.save_data
    (FinanceManager.set_data st
       (VDict (dict_set key (VList (items ++ [record])%list) d))).


(** The empty ledger a manager starts from. *)
Definition fresh_ledger : value :=
  VDict [("incomes", VList []);
         ("expenses", VList []);
         ("savings_goals", VList []);
         ("version", VStr "0.0.1")].

(** The path [export_data] writes to. *)
Definition export_target (format : string) (file_path : option string)
  : string :=
  default ("penny_export." +:+ format) file_path.


(** Rows by the text of their first cell. *)
Definition typed (type : string) (cells : list string) : bool :=
  match cells with
  | t :: _ => String.eqb t type
  | [] => false
  end.

Definition count_type (type : string) (rows : list (list string)) : nat :=
  length (List.filter (typed type) rows).

(** Two summaries, or two failures, that agree on the four totals. *)
Definition same_totals (a b : result FinanceManager.Summary) : Prop :=
  match a, b with
  | Ok s, Ok s' =>
      FinanceManager.total_income s = FinanceManager.total_income s'
      /\ FinanceManager.total_expenses s = FinanceManager.total_expenses s'
      /\ FinanceManager.net_balance s = FinanceManager.net_balance s'
      /\ FinanceManager.total_savings s = FinanceManager.total_savings s'
  | Err e, Err e' => e = e'
  | _, _ => False
  end.


(** A run of [goal.add_contribution(amount)] calls, one per amount, none
    of them with a date. *)
Definition contribute_all (goal : SavingsGoal.t) (amounts : list float)
  : SavingsGoal.t :=
  fold_left (fun g amount => snd (SavingsGoal.add_contribution g amount None))
    amounts goal.


(** The cells of a row found at the given positions, in that order; an
    empty row stays empty. *)
Definition pick (positions : list nat) (cells : list string) : list string :=
  match cells with
  | [] => []
  | _ => map (fun i => default "" (cells !! i)) positions
  end.

End Defs.
End Ops.

(** ** The interactive handlers for incomes and expenses

    [add_income_interactive] and [add_expense_interactive] talk to the
    terminal: [input] writes its prompt and takes the next line typed,
    [print] writes a line. *)

Module Interactive.
Section Defs.
Context `{PyFloat} `{!Runtime}.

(** The terminal: the lines still to be typed, and the texts written so
    far. *)
Record console := {
  stdin : list string;
  stdout : list string;
}.

(** What a handler can raise: an exception of the ledger code, or the
    [EOFError] of [input] when nothing is left to read. *)
Inductive raised :=
| Exception (e : exn)
| EOFError.

Inductive answer (A : Type) :=
| Done (a : A)
| Raise (e : raised).
Arguments Done {A} a.
Arguments Raise {A} e.

(** A handler runs on the manager and the terminal. *)
Definition world : Type := FinanceManager.state * console.

Definition io (A : Type) : Type := world -> answer A * world.

Definition ret {A} (a : A) : io A := fun w => (Done a, w).

Definition bind {A B} (m : io A) (k : A -> io B) : io B :=
  fun w =>
    match m w with
    | (Done a, w') => k a w'
    | (Raise e, w') => (Raise e, w')
    end.

(** A computation of the ledger code that does not touch the state. *)
Definition lift {A} (r : result A) : io A :=
  fun w =>
    match r with
    | Ok a => (Done a, w)
    | Err e => (Raise (Exception e), w)
    end.

(** A method of the manager. *)
Definition call {A}
    (method : FinanceManager.state -> result A * FinanceManager.state)
  : io A :=
  fun w =>
    match method (fst w) with
    | (Ok a, st) => (Done a, (st, snd w))
    | (Err e, st) => (Raise (Exception e), (st, snd w))
    end.

Definition newline : string := String (ascii_of_nat 10) EmptyString.

(** [print(text)] *)
Definition print (text : string) : io unit :=
  fun w =>
    (Done (),
     (fst w,
      {| stdin := stdin (snd w);
         stdout := (stdout (snd w) ++ [text +:+ newline])%list |})).

(** [input(prompt)] *)
Definition input (prompt : string) : io string :=
  fun w =>
    let written := (stdout (snd w) ++ [prompt])%list in
    match stdin (snd w) with
    | [] => (Raise EOFError, (fst w, {| stdin := []; stdout := written |}))
    | line :: rest =>
        (Done line, (fst w, {| stdin := rest; stdout := written |}))
    end.

(** [c.lower()] on the code points below 256: the capitals A to Z, and
    the accented capitals apart from the multiplication sign. *)
Definition lower_char (c : ascii) : ascii :=
  let n := nat_of_ascii c in
  if (Nat.leb 65 n && Nat.leb n 90)
     || (Nat.leb 192 n && Nat.leb n 222 && negb (Nat.eqb n 215))
  then ascii_of_nat (n + 32)
  else c.

Fixpoint lower (s : string) : string :=
  match s with
  | EmptyString => EmptyString
  | String c rest => String (lower_char c) (lower rest)
  end.

(** [Frequency(text)] and [ExpenseCategory(text)]: the member with that
    value, or [ValueError]. *)
Definition frequency_of_value (text : string) : result Frequency.t :=
  if String.eqb text "daily" then Ok Frequency.DAILY
  else if String.eqb text "weekly" then Ok Frequency.WEEKLY
  else if String.eqb text "monthly" then Ok Frequency.MONTHLY
  else if String.eqb text "yearly" then Ok Frequency.YEARLY
  else if String.eqb text "one-time" then Ok Frequency.ONE_TIME
  else Err (ValueError "Frequency()").

Definition category_of_value (text : string) : result ExpenseCategory.t :=
  if String.eqb text "business" then Ok ExpenseCategory.BUSINESS
  else if String.eqb text "personal" then Ok ExpenseCategory.PERSONAL
  else Err (ValueError "ExpenseCategory()").

Definition add_income_interactive : io unit :=
  bind (print (newline +:+ "Add New Income")) (fun _ =>
  bind (input "Amount: ") (fun line =>
  bind (lift (py_float (VStr line))) (fun amount =>
  bind (input "Source: ") (fun source =>
  bind (print "Frequency options: daily, weekly, monthly, yearly, one-time")
    (fun _ =>
  bind (input "Frequency: ") (fun line =>
  bind (lift (frequency_of_value line)) (fun frequency =>
  bind (input "Description (optional): ") (fun description =>
  bind (input "Is this a target? (y/n): ") (fun line =>
  let is_target := String.eqb (lower line) "y" in
  bind (lift (Income.init amount source frequency description is_target))
    (fun income =>
  bind (call (FinanceManager.add_income income)) (fun _ =>
  print ("Added income: "
         +:+ Transaction.description (Income.super income))))))))))))).

Definition add_expense_interactive : io unit :=
  bind (print (newline +:+ "Add New Expense")) (fun _ =>
  bind (input "Amount: ") (fun line =>
  bind (lift (py_float (VStr line))) (fun amount =>
  bind (print "Category options: business, personal") (fun _ =>
  bind (input "Category: ") (fun line =>
  bind (lift (category_of_value line)) (fun category =>
  bind (input "Subcategory: ") (fun subcategory =>
  bind (input "Description (optional): ") (fun description =>
  bind (input "Is this recurring? (y/n): ") (fun line =>
  let is_recurring := String.eqb (lower line) "y" in
  bind (lift (Expense.init amount category subcategory description
                is_recurring))
    (fun expense =>
  bind (call (FinanceManager.add_expense expense)) (fun _ =>
  print ("Added expense: "
         +:+ Transaction.description (Expense.super expense))))))))))))).

End Defs.

Arguments Done {A} a.
Arguments Raise {A} e.

(** A handler has stopped with an exception, the manager [st] as it was. *)
Definition stopped `{PyFloat} `{!Runtime} (st : FinanceManager.state)
    (out : answer unit * world) : Prop :=
  exists e w, out = (Raise e, w) /\ fst w = st.

End Interactive.

(** ** Further sample states *)

Module Cases.
Import Whole.

(** A manager whose data file held the empty object: no collection at
    all. *)
Definition manager_without_collections : FinanceManager.state :=
  {| FinanceManager.data_file := "finance_data.json";
     FinanceManager.data := VDict [];
     FinanceManager.disk := ∅ |}.

(** A data file that does not decode. *)
Definition manager_saved_elsewhere : FinanceManager.state :=
  {| FinanceManager.data_file := "finance_data.json";
     FinanceManager.data := VDict Sample.ledger;
     FinanceManager.disk := <["notes.txt" := Csv [["remember"]]]> ∅ |}.

(** A manager whose second income record lacks [is_target]. *)
Definition manager_untargeted : FinanceManager.state :=
  {| FinanceManager.data_file := "finance_data.json";
     FinanceManager.data := VDict Sample.ledger_untargeted;
     FinanceManager.disk := ∅ |}.

(** A structured file that holds the list of the three names. *)
Definition names : list value :=
  [VStr "incomes"; VStr "expenses"; VStr "savings_goals"].

Definition manager_with_names : FinanceManager.state :=
  {| FinanceManager.data_file := "finance_data.json";
     FinanceManager.data := VDict Sample.ledger;
     FinanceManager.disk := <["names.json" := Json (VList names)]> ∅ |}.

(** An Income row whose [Details] cell holds [True] outside the flag. *)
Definition remarked_details : string :=
  "Frequency: monthly, Target: False (was True)".

Definition remarked_row : list string :=
  ["Income"; "100.0"; "Income from Job"; "2024-03-01"; "Job";
   remarked_details].

(** The sample ledger as tabular import rebuilds it. *)
Definition reimported_ledger : list (string * value) :=
  [("incomes",
    VList (map Spec.reimported_income [Sample.salary; Sample.freelance]));
   ("expenses", VList (map Spec.reimported_expense [Sample.software]));
   ("savings_goals", VList (map Spec.reimported_goal [Sample.laptop]))].

Definition manager_reimported : FinanceManager.state :=
  {| FinanceManager.data_file := "finance_data.json";
     FinanceManager.data := VDict reimported_ledger;
     FinanceManager.disk := ∅ |}.

(** A goal with an [id] and no [contributions], as structured import
    would accept it. *)
Definition goal_without_contributions : list (string * value) :=
  [("id", VStr "4406"); ("name", VStr "Bike");
   ("target_amount", VFloat 900%Z); ("current_amount", VFloat 350%Z);
   ("category", VStr "other"); ("deadline", VNone); ("priority", VInt 3)].

Definition ledger_without_contributions : list (string * value) :=
  [("incomes", VList []);
   ("expenses", VList []);
   ("savings_goals", VList [VDict goal_without_contributions]);
   ("version", VStr "0.0.1")].

Definition manager_without_contributions : FinanceManager.state :=
  {| FinanceManager.data_file := "finance_data.json";
     FinanceManager.data := VDict ledger_without_contributions;
     FinanceManager.disk := ∅ |}.

(** A manager that has just started, with no data file. *)
Definition fresh : list (string * value) :=
  [("incomes", VList []);
   ("expenses", VList []);
   ("savings_goals", VList []);
   ("version", VStr "0.0.1")].

Definition manager_fresh : FinanceManager.state :=
  {| FinanceManager.data_file := "finance_data.json";
     FinanceManager.data := VDict fresh;
     FinanceManager.disk := ∅ |}.

(** A target and a deadline for a goal. *)
Definition price : float := 1000%Z.

Definition christmas : datetime.date := datetime.Date 2024 12 25.

(** A tabular file with its columns in another order and a column more:
    the salary row of the sample. *)
Definition shuffled_header : list string :=
  ["Date"; "Type"; "Note"; "Amount"; "Description"; "Category"; "Details"].

Definition shuffled_salary_row : list string :=
  ["2024-03-01"; "Income"; "checked"; "100.0"; "Income from Job"; "Job";
   "Frequency: monthly, Target: False"].

(** An Income row whose [Details] cell has no colon. *)
Definition unlabelled_row : list string :=
  ["Income"; "100.0"; "Income from Job"; "2024-03-01"; "Job"; "no details"].


End Cases.

(** * Properties *)

(** ** Strings *)

Module StrFacts.
Import Str.

Lemma chars_app (a b : string) : chars (a +:+ b) = (chars a ++ chars b)%list.
Proof. induction a as [|c a IH]; simpl; [reflexivity | now rewrite IH]. Qed.

Lemma has_char_app (c : ascii) (a b : string) :
  has_char c (a +:+ b) = has_char c a || has_char c b.
Proof. unfold has_char. now rewrite chars_app, existsb_app. Qed.

Lemma split_not_nil (sep : ascii) (s : string) : split sep s <> [].
Proof.
  destruct s as [|c s]; simpl; [discriminate |].
  destruct (Ascii.eqb c sep); [discriminate |].
  destruct (split sep s); discriminate.
Qed.

(** Without the separator there is nothing to split. *)
Lemma split_absent (sep : ascii) (s : string) :
  has_char sep s = false -> split sep s = [s].
Proof.
  unfold has_char. induction s as [|c s IH]; simpl; [reflexivity |].
  rewrite Ascii.eqb_sym. intros Hor. apply orb_false_iff in Hor.
  destruct Hor as [Hc Hs]. rewrite Hc, (IH Hs). reflexivity.
Qed.

(** The first piece ends at the first separator. *)
Lemma split_at_first (sep : ascii) (a b : string) :
  has_char sep a = false ->
  split sep (a +:+ String sep b) = a :: split sep b.
Proof.
  unfold has_char. induction a as [|c a IH]; simpl.
  - intros _. now rewrite Ascii.eqb_refl.
  - rewrite Ascii.eqb_sym. intros Hor. apply orb_false_iff in Hor.
    destruct Hor as [Hc Ha]. rewrite Hc, (IH Ha). reflexivity.
Qed.

Lemma split_two (sep : ascii) (a b : string) :
  has_char sep a = false -> has_char sep b = false ->
  split sep (a +:+ String sep b) = [a; b].
Proof.
  intros Ha Hb. now rewrite (split_at_first _ _ _ Ha), (split_absent _ _ Hb).
Qed.

(** The number of pieces is one more than the number of separators. *)
Lemma split_length (sep : ascii) (s : string) :
  length (split sep s) = S (count sep s).
Proof.
  unfold count. induction s as [|c s IH]; simpl; [reflexivity |].
  rewrite (Ascii.eqb_sym sep c).
  destruct (Ascii.eqb c sep); simpl; [now rewrite IH |].
  destruct (split sep s) as [|w ws] eqn:E; [now apply split_not_nil in E |].
  simpl in *. exact IH.
Qed.

Lemma lstrip_no_space (s : string) : no_space s = true -> lstrip s = s.
Proof.
  destruct s as [|c s]; simpl; [reflexivity |].
  unfold no_space; simpl. intros Hand. apply andb_true_iff in Hand.
  destruct Hand as [Hc _]. now destruct (isspace c).
Qed.

Lemma rstrip_no_space (s : string) : no_space s = true -> rstrip s = s.
Proof.
  unfold no_space. induction s as [|c s IH]; simpl; [reflexivity |].
  intros Hand. apply andb_true_iff in Hand. destruct Hand as [Hc Hs].
  rewrite (IH Hs). destruct s; [| reflexivity].
  now destruct (isspace c).
Qed.

Lemma strip_no_space (s : string) : no_space s = true -> strip s = s.
Proof.
  intros Hs. unfold strip. rewrite (lstrip_no_space _ Hs).
  now apply rstrip_no_space.
Qed.

(** One leading blank in front of a text without white space. *)
Lemma strip_leading_blank (s : string) :
  no_space s = true -> strip (String " " s) = s.
Proof.
  intros Hs. unfold strip. simpl.
  rewrite (lstrip_no_space _ Hs). now apply rstrip_no_space.
Qed.

Lemma plain_no_space (s : string) : all_plain s = true -> no_space s = true.
Proof.
  unfold all_plain, no_space. induction s as [|c s IH]; simpl; [reflexivity |].
  intros Hand. apply andb_true_iff in Hand. destruct Hand as [Hc Hs].
  rewrite (IH Hs), andb_true_r.
  unfold plain in Hc. simpl in Hc.
  repeat (apply orb_true_iff in Hc; destruct Hc as [Hc | Hc];
          [apply Ascii.eqb_eq in Hc; subst c; reflexivity |]).
  discriminate.
Qed.

Lemma plain_has_char (c : ascii) (s : string) :
  plain c = false -> all_plain s = true -> has_char c s = false.
Proof.
  intros Hc. unfold all_plain, has_char.
  induction s as [|d s IH]; simpl; [reflexivity |].
  intros Hand. apply andb_true_iff in Hand. destruct Hand as [Hd Hs].
  rewrite (IH Hs), orb_false_r.
  destruct (Ascii.eqb_spec c d) as [-> |]; [congruence | reflexivity].
Qed.

Lemma uint_plain (d : Decimal.uint) :
  all_plain (NilEmpty.string_of_uint d) = true.
Proof. induction d; simpl; auto. Qed.

(** [str(n)] is made of digits and at most a sign. *)
Lemma nilzero_plain (d : Decimal.uint) :
  all_plain (NilZero.string_of_uint d) = true.
Proof.
  destruct d; [reflexivity | ..];
    match goal with
    | |- all_plain (NilZero.string_of_uint ?u) = true => exact (uint_plain u)
    end.
Qed.

Lemma of_Z_plain (z : Z) : all_plain (of_Z z) = true.
Proof.
  unfold of_Z. destruct (Z.to_int z) as [d | d].
  - apply nilzero_plain.
  - change (plain "-" && all_plain (NilZero.string_of_uint d) = true).
    now rewrite nilzero_plain.
Qed.

Lemma of_Z_not_empty (z : Z) : of_Z z <> "".
Proof.
  unfold of_Z. destruct (Z.to_int z) as [d | d]; simpl; [| discriminate].
  destruct d; discriminate.
Qed.

Lemma contains_app_r (pat a b : string) :
  contains pat b = true -> contains pat (a +:+ b) = true.
Proof.
  intros Hb. induction a as [|c a IH]; simpl; [exact Hb |].
  rewrite IH. apply orb_true_r.
Qed.

End StrFacts.

(** ** Dictionaries *)

Section DictFacts.
Context {A : Type}.
Implicit Types (d : list (string * A)) (k : string) (v : A).

Lemma dict_get_set_eq d k v : dict_get k (dict_set k v d) = Some v.
Proof.
  induction d as [|[k' v'] d IH]; simpl.
  - now rewrite String.eqb_refl.
  - destruct (String.eqb k k') eqn:E; simpl.
    + now rewrite String.eqb_refl.
    + now rewrite E.
Qed.

Lemma dict_get_set_ne d k k' v :
  k <> k' -> dict_get k' (dict_set k v d) = dict_get k' d.
Proof.
  intros Hne. induction d as [|[k0 v0] d IH]; simpl.
  - destruct (String.eqb_spec k' k); [congruence | reflexivity].
  - destruct (String.eqb_spec k k0) as [-> | Hk]; simpl.
    + destruct (String.eqb_spec k' k0); [congruence | reflexivity].
    + destruct (String.eqb_spec k' k0); [reflexivity | exact IH].
Qed.

(** Storing the value a key already has changes nothing. *)
Lemma dict_set_same d k v : dict_get k d = Some v -> dict_set k v d = d.
Proof.
  induction d as [|[k' v'] d IH]; simpl; [discriminate |].
  destruct (String.eqb_spec k k') as [-> | Hk].
  - now intros [= ->].
  - intros Hget. now rewrite (IH Hget).
Qed.

Lemma dict_set_set d k v v' :
  dict_set k v' (dict_set k v d) = dict_set k v' d.
Proof.
  induction d as [|[k0 v0] d IH]; simpl.
  - now rewrite String.eqb_refl.
  - destruct (String.eqb k k0) eqn:E; simpl.
    + now rewrite String.eqb_refl.
    + now rewrite E, IH.
Qed.
End DictFacts.

(** ** Record construction *)

Section Construction.
Context `{PyFloat} `{!Runtime}.

(** Without a date, [Transaction.__init__] stops at [date.today()]. *)
Lemma Transaction_init_no_date (amount : float) (description : string) :
  Transaction.init amount description None
  = Err (if float_le_zero amount
         then ValueError "Amount must be positive"
         else AttributeError).
Proof. unfold Transaction.init. now destruct (float_le_zero amount). Qed.

(** With a date it validates the amount and stores its arguments. *)
Lemma Transaction_init_dated (amount : float) (description : string)
    (d : datetime.date) :
  float_le_zero amount = false ->
  exists t, Transaction.init amount description (Some d) = Ok t
            /\ Transaction.amount t = amount
            /\ Transaction.description t = description
            /\ Transaction.date t = d.
Proof.
  intros Hpos. unfold Transaction.init. rewrite Hpos. simpl.
  eexists. split; [reflexivity |]. now repeat split.
Qed.

(** C8 (as the code behaves).  Constructing an [Income] or an [Expense]
    never succeeds: a non-positive amount is rejected with the validation
    error, and every other amount ends in [AttributeError], because
    neither constructor passes a date to [Transaction.__init__]. *)
Theorem Income_Expense_init_never_succeed
    (amount : float) (source subcategory description : string)
    (frequency : Frequency.t) (category : ExpenseCategory.t)
    (is_target is_recurring : bool) :
  let outcome := if float_le_zero amount
                 then ValueError "Amount must be positive"
                 else AttributeError in
  Income.init amount source frequency description is_target = Err outcome
  /\ Expense.init amount category subcategory description is_recurring
     = Err outcome.
Proof.
  unfold Income.init, Expense.init.
  rewrite !Transaction_init_no_date. split; reflexivity.
Qed.

(** [SavingsGoal.__init__] rejects a non-positive target and a priority
    outside 1..5, and otherwise stores its arguments. *)
Lemma SavingsGoal_init_spec (name : string) (target_amount : float)
    (category : SavingsCategory.t) (deadline : option datetime.date)
    (priority : Z) :
  match SavingsGoal.init name target_amount category deadline priority with
  | Err e =>
      (float_le_zero target_amount = true
       /\ e = ValueError "Target amount must be positive")
      \/ (float_le_zero target_amount = false
          /\ (priority < 1 \/ 5 < priority)%Z
          /\ e = ValueError "Priority must be between 1 and 5")
  | Ok g =>
      float_le_zero target_amount = false
      /\ (1 <= priority <= 5)%Z
      /\ SavingsGoal.name g = name
      /\ SavingsGoal.target_amount g = target_amount
      /\ SavingsGoal.current_amount g = float_zero
      /\ SavingsGoal.category g = SavingsCategory.value category
      /\ SavingsGoal.deadline g = deadline
      /\ SavingsGoal.priority g = priority
      /\ SavingsGoal.contributions g = []
  end.
Proof.
  unfold SavingsGoal.init.
  destruct (float_le_zero target_amount); [left; auto |].
  destruct (priority <? 1)%Z eqn:Hlo; simpl.
  - right. repeat split; auto. left. now apply Z.ltb_lt.
  - destruct (priority >? 5)%Z eqn:Hhi; simpl.
    + right. repeat split; auto. right. apply Z.gtb_lt in Hhi. lia.
    + apply Z.ltb_ge in Hlo. rewrite Z.gtb_ltb in Hhi.
      apply Z.ltb_ge in Hhi. repeat split; auto.
Qed.
End Construction.

(** ** Import and the structured codec *)

Section Importing.
Context `{PyFloat} `{!Runtime}.
Import FinanceManager.

Lemma set_data_same (st : state) : set_data st (data st) = st.
Proof. now destruct st. Qed.

(** The key check on a decoded mapping. *)
Lemma all_keys_in_dict (d : list (string * value)) :
  all_keys_in (VDict d) required_keys
  = Ok (forallb (fun k => bool_decide (is_Some (dict_get k d)))
          required_keys).
Proof.
  unfold required_keys. simpl.
  repeat match goal with
         | |- context [dict_get ?k d] => destruct (dict_get k d); simpl
         end; reflexivity.
Qed.

Lemma all_keys_in_missing (d : list (string * value)) (k : string) :
  In k required_keys -> dict_get k d = None ->
  all_keys_in (VDict d) required_keys = Ok false.
Proof.
  intros Hin Hnone. unfold required_keys in *. simpl in Hin.
  destruct Hin as [<- | [<- | [<- | []]]]; simpl; rewrite ?Hnone; simpl;
    repeat match goal with
           | |- context [dict_get ?k d] => destruct (dict_get k d); simpl
           end; auto; congruence.
Qed.

(** C6.  A failed import, whatever made it fail, leaves the manager and
    the files as they were; and a decoded mapping that lacks one of the
    keys [incomes], [expenses], [savings_goals] makes the import fail
    with the error "Invalid data format". *)
Theorem import_data_all_or_nothing (path : string) (st : state) :
  (forall e st', import_data path st = (Err e, st') -> st' = st)
  /\ (forall f d k,
        suffix path = ".json" ->
        disk st !! path = Some f ->
        json_load f = Some (VDict d) ->
        In k required_keys ->
        dict_get k d = None ->
        import_data path st = (Err (ValueError "Invalid data format"), st)).
Proof.
  split.
  - intros e st'. unfold import_data.
    match goal with
    | |- context [match ?l with Ok _ => _ | Err _ => _ end = _] =>
        destruct l as [v | e0]
    end; [| now intros [= _ <-]].
    destruct (all_keys_in v required_keys) as [[|] | e1]; intros Heq;
      inversion Heq; reflexivity.
  - intros f d k Hsuffix Hfile Hload Hin Hnone. unfold import_data.
    rewrite Hsuffix, String.eqb_refl. unfold read_file. rewrite Hfile.
    unfold mbind, result_bind. rewrite Hload.
    now rewrite (all_keys_in_missing d k Hin Hnone).
Qed.

(** A decoding error leaves the state alone too (an instance of the first
    half of the theorem above, spelled out). *)
Lemma import_data_decode_error (path : string) (st : state) (f : file) :
  suffix path = ".json" ->
  disk st !! path = Some f ->
  json_load f = None ->
  import_data path st = (Err JSONDecodeError, st).
Proof.
  intros Hsuffix Hfile Hload. unfold import_data.
  rewrite Hsuffix, String.eqb_refl. unfold read_file. rewrite Hfile.
  unfold mbind, result_bind. now rewrite Hload.
Qed.

End Importing.

(** ** Contributions *)

Section Contribute.
Context `{PyFloat} `{!Runtime}.
Import FinanceManager.

Lemma contribute_goal (amount : float) (g : SavingsGoal.t) :
  contribute (SavingsGoal.to_dict g) amount
  = (Ok (), SavingsGoal.to_dict (Spec.credited amount g)).
Proof. reflexivity. Qed.

Lemma goal_id_test (g : SavingsGoal.t) (goal_id : string) :
  getitem (SavingsGoal.to_dict g) "id" = Ok (VStr (SavingsGoal.id g)).
Proof. reflexivity. Qed.

(** The scan passes over goals with another id. *)
Lemma contribute_scan_miss (goal_id : string) (amount : float)
    (gs : list SavingsGoal.t) :
  (forall g, In g gs -> SavingsGoal.id g <> goal_id) ->
  contribute_scan goal_id amount (map SavingsGoal.to_dict gs)
  = (Ok false, map SavingsGoal.to_dict gs).
Proof.
  induction gs as [|g gs IH]; intros Hall; [reflexivity |].
  cbn [map contribute_scan]. rewrite (goal_id_test g goal_id).
  cbn [eq_str].
  destruct (String.eqb_spec (SavingsGoal.id g) goal_id) as [Heq | _].
  - exfalso. apply (Hall g); [now left | exact Heq].
  - rewrite IH; [reflexivity |]. intros g' Hin. apply Hall. now right.
Qed.

(** It credits the first goal with the id and stops there. *)
Lemma contribute_scan_hit (goal_id : string) (amount : float)
    (before after : list SavingsGoal.t) (g : SavingsGoal.t) :
  (forall g', In g' before -> SavingsGoal.id g' <> goal_id) ->
  SavingsGoal.id g = goal_id ->
  contribute_scan goal_id amount
    (map SavingsGoal.to_dict (before ++ g :: after))
  = (Ok true,
     map SavingsGoal.to_dict (before ++ Spec.credited amount g :: after)).
Proof.
  intros Hbefore Hid. induction before as [|b before IH].
  - cbn [app map contribute_scan]. rewrite (goal_id_test g goal_id).
    cbn [eq_str]. rewrite Hid, String.eqb_refl.
    now rewrite contribute_goal.
  - cbn [app map contribute_scan]. rewrite (goal_id_test b goal_id).
    cbn [eq_str].
    destruct (String.eqb_spec (SavingsGoal.id b) goal_id) as [Heq | _].
    + exfalso. apply (Hbefore b); [now left | exact Heq].
    + cbn [app map] in IH. rewrite IH; [reflexivity |].
      intros g' Hin. apply Hbefore. now right.
Qed.

(** C2.  On a ledger whose goals are [gs]: when the goal at position [i]
    is the first one whose id is [goal_id], [contribute_to_goal] returns
    [True], that goal's [current_amount] has grown by [amount] and its
    [contributions] have gained the one entry [{amount, date: today}],
    nothing else in the ledger has changed, and the ledger has been
    saved; when no goal has the id, it returns [False] and the manager
    and the files are unchanged. *)
Theorem contribute_to_goal_spec (goal_id : string) (amount : float)
    (st : state) (d : list (string * value)) (gs : list SavingsGoal.t) :
  data st = VDict d ->
  dict_get "savings_goals" d = Some (VList (map SavingsGoal.to_dict gs)) ->
  (forall i g,
      gs !! i = Some g ->
      SavingsGoal.id g = goal_id ->
      (forall j g', (j < i)%nat -> gs !! j = Some g' ->
                    SavingsGoal.id g' <> goal_id) ->
      contribute_to_goal goal_id amount st
      = (Ok true,
         save_data
           (set_data st
              (VDict (dict_set "savings_goals"
                        (VList (map SavingsGoal.to_dict
                                  (<[i := Spec.credited amount g]> gs)))
                        d)))))
  /\ ((forall g, In g gs -> SavingsGoal.id g <> goal_id) ->
      contribute_to_goal goal_id amount st = (Ok false, st)).
Proof.
  intros Hdata Hgoals. split.
  - intros i g Hi Hid Hfirst.
    assert (Hsplit : gs = (take i gs ++ g :: drop (S i) gs)%list)
      by (symmetry; now apply take_drop_middle).
    assert (Hins : <[i := Spec.credited amount g]> gs
                   = (take i gs ++ Spec.credited amount g
                        :: drop (S i) gs)%list).
    { apply insert_take_drop. now apply lookup_lt_Some in Hi. }
    rewrite Hins. unfold contribute_to_goal.
    rewrite Hdata. cbn [getitem]. rewrite Hgoals. cbn [iter].
    rewrite Hsplit at 1.
    rewrite (contribute_scan_hit goal_id amount _ _ g); [reflexivity | | exact Hid].
    intros g' Hin. apply list_elem_of_In, list_elem_of_lookup in Hin.
    destruct Hin as [j Hj]. apply lookup_take_Some in Hj.
    destruct Hj as [Hj Hlt]. now apply (Hfirst j g').
  - intros Hnone. unfold contribute_to_goal.
    rewrite Hdata. cbn [getitem]. rewrite Hgoals. cbn [iter].
    rewrite (contribute_scan_miss goal_id amount gs Hnone).
    cbn [setitem]. rewrite (dict_set_same d _ _ Hgoals), <- Hdata.
    now rewrite set_data_same.
Qed.
End Contribute.

(** ** The summary *)

Section SummaryFacts.
Context `{PyFloat} `{!Runtime}.
Import FinanceManager.



Lemma numeric_prefix_floats (xs : list float) :
  numeric_prefix (map VFloat xs) = (map NFloat xs, true).
Proof.
  induction xs as [|x xs IH]; [reflexivity |].
  cbn [map numeric_prefix as_num]. now rewrite IH.
Qed.

(** [sum] over a generator that yields floats and does not raise. *)
Lemma sum_generator_floats (xs : list float) :
  sum_generator (map VFloat xs, None) = py_sum (map NFloat xs).
Proof.
  unfold sum_generator. rewrite numeric_prefix_floats.
  now destruct (py_sum (map NFloat xs)).
Qed.



(** *** What the generators draw from well-formed records *)

Lemma generator_incomes (incomes : list Income.t) :
  generator (fun i => t ← getitem i "is_target";
                      if truthy t then Ok None
                      else Some <$> getitem i "amount")
    (map Income.to_dict incomes)
  = (map VFloat
       (map Spec.income_amount
          (List.filter (fun i => negb (Income.is_target i)) incomes)),
     None).
Proof.
  induction incomes as [|i incomes IH]; [reflexivity |].
  cbn [map generator List.filter].
  change (t ← getitem (Income.to_dict i) "is_target";
          if truthy t then Ok None
          else Some <$> getitem (Income.to_dict i) "amount")
    with (if Income.is_target i then Ok None
          else Ok (Some (VFloat (Spec.income_amount i)))).
  destruct (Income.is_target i); cbn [negb]; [exact IH |].
  cbn [map]. now rewrite IH.
Qed.

Lemma generator_expenses (expenses : list Expense.t) :
  generator (fun e => Some <$> getitem e "amount")
    (map Expense.to_dict expenses)
  = (map VFloat (map Spec.expense_amount expenses), None).
Proof.
  induction expenses as [|e expenses IH]; [reflexivity |].
  cbn [map generator].
  change (Some <$> getitem (Expense.to_dict e) "amount")
    with (Ok (Some (VFloat (Spec.expense_amount e)))).
  now rewrite IH.
Qed.

Lemma generator_goals (goals : list SavingsGoal.t) :
  generator (fun g => Some <$> getitem g "current_amount")
    (map SavingsGoal.to_dict goals)
  = (map VFloat (map SavingsGoal.current_amount goals), None).
Proof.
  induction goals as [|g goals IH]; [reflexivity |].
  cbn [map generator].
  change (Some <$> getitem (SavingsGoal.to_dict g) "current_amount")
    with (Ok (Some (VFloat (SavingsGoal.current_amount g)))).
  now rewrite IH.
Qed.

Lemma comprehension_income_targets (incomes : list Income.t) :
  comprehension (fun i => truthy <$> getitem i "is_target")
    (map Income.to_dict incomes)
  = Ok (map Income.to_dict (List.filter Income.is_target incomes)).
Proof.
  induction incomes as [|i incomes IH]; [reflexivity |].
  cbn [map comprehension List.filter].
  change (truthy <$> getitem (Income.to_dict i) "is_target")
    with (Ok (Income.is_target i)).
  cbn [mbind result_bind]. rewrite IH. cbn [mbind result_bind].
  now destruct (Income.is_target i).
Qed.

Lemma comprehension_expense_targets (expenses : list Expense.t) :
  comprehension (fun e => truthy <$> get e "is_recurring" (VBool false))
    (map Expense.to_dict expenses)
  = Ok (map Expense.to_dict (List.filter Expense.is_recurring expenses)).
Proof.
  induction expenses as [|e expenses IH]; [reflexivity |].
  cbn [map comprehension List.filter].
  change (truthy <$> get (Expense.to_dict e) "is_recurring" (VBool false))
    with (Ok (Expense.is_recurring e)).
  cbn [mbind result_bind]. rewrite IH. cbn [mbind result_bind].
  now destruct (Expense.is_recurring e).
Qed.

Lemma collection_list (d : list (string * value)) (key : string)
    (items : list value) :
  dict_get key d = Some (VList items) ->
  collection (VDict d) key = Ok items.
Proof. intros Hget. unfold collection. cbn. now rewrite Hget. Qed.

End SummaryFacts.

Section Summary.
Context `{PyFloat} `{!Runtime}.
Import FinanceManager.


(** C3.  On a ledger holding the incomes [incomes], the expenses
    [expenses] and the goals [goals], [get_summary] returns the summary the
    specification describes: [total_income] is the sum of the amounts of the
    incomes with [is_target] false, [total_expenses] the sum of all expense
    amounts, [net_balance] their difference, [total_savings] the sum of
    [current_amount] over all goals; and the manager is left as it was. *)
Theorem get_summary_spec (st : state) (d : list (string * value))
    (incomes : list Income.t) (expenses : list Expense.t)
    (goals : list SavingsGoal.t) :
  data st = VDict d ->
  dict_get "incomes" d = Some (VList (map Income.to_dict incomes)) ->
  dict_get "expenses" d = Some (VList (map Expense.to_dict expenses)) ->
  dict_get "savings_goals" d = Some (VList (map SavingsGoal.to_dict goals)) ->
  get_summary st = (Spec.summary incomes expenses goals, st).
Proof.
  intros Hdata Hi He Hg. unfold get_summary. f_equal.
  rewrite Hdata. unfold summary_of, Spec.summary.
  rewrite !(collection_list d _ _ Hi), !(collection_list d _ _ He),
    (collection_list d _ _ Hg).
  cbn [mbind result_bind getitem].
  rewrite generator_incomes, generator_expenses, generator_goals.
  rewrite !sum_generator_floats, !map_map.
  rewrite comprehension_income_targets, comprehension_expense_targets, Hg.
  reflexivity.
Qed.



End Summary.

(** ** Tabular export *)

Section Exporting.
Context `{PyFloat} `{!Runtime}.
Import FinanceManager.

Lemma write_rows_incomes (incomes : list Income.t) :
  write_rows income_row (map Income.to_dict incomes)
  = (map Spec.income_row incomes, None).
Proof.
  induction incomes as [|i incomes IH]; [reflexivity |].
  cbn [map write_rows].
  replace (income_row (Income.to_dict i)) with (Ok (Spec.income_row i))
    by (unfold Spec.income_row, Spec.bool_str; cbn;
        now destruct (Income.is_target i)).
  now rewrite IH.
Qed.

Lemma write_rows_expenses (expenses : list Expense.t) :
  write_rows expense_row (map Expense.to_dict expenses)
  = (map Spec.expense_row expenses, None).
Proof.
  induction expenses as [|e expenses IH]; [reflexivity |].
  cbn [map write_rows].
  replace (expense_row (Expense.to_dict e)) with (Ok (Spec.expense_row e))
    by (unfold Spec.expense_row, Spec.bool_str; cbn;
        now destruct (Expense.is_recurring e)).
  now rewrite IH.
Qed.

Lemma write_rows_goals (goals : list SavingsGoal.t) :
  write_rows goal_row (map SavingsGoal.to_dict goals)
  = (map Spec.goal_row goals, None).
Proof.
  induction goals as [|g goals IH]; [reflexivity |].
  cbn [map write_rows].
  replace (goal_row (SavingsGoal.to_dict g)) with (Ok (Spec.goal_row g))
    by (unfold Spec.goal_row; cbn; now destruct (SavingsGoal.deadline g)).
  now rewrite IH.
Qed.

Lemma export_rows_spec (d : list (string * value))
    (incomes : list Income.t) (expenses : list Expense.t)
    (goals : list SavingsGoal.t) :
  dict_get "incomes" d = Some (VList (map Income.to_dict incomes)) ->
  dict_get "expenses" d = Some (VList (map Expense.to_dict expenses)) ->
  dict_get "savings_goals" d = Some (VList (map SavingsGoal.to_dict goals)) ->
  export_rows (VDict d) = (Spec.rows incomes expenses goals, None).
Proof.
  intros Hi He Hg. unfold export_rows, write_collection.
  rewrite (collection_list d _ _ Hi), (collection_list d _ _ He),
    (collection_list d _ _ Hg).
  rewrite write_rows_incomes, write_rows_expenses, write_rows_goals.
  reflexivity.
Qed.

(** C4.  On a ledger holding [incomes], [expenses] and [goals],
    [_export_to_csv] succeeds and writes the header followed by one row of
    six cells per record, in the shapes of the specification: an Income row
    is [Income], the amount, the description, the date, the source, and
    [Frequency: f, Target: t]; an Expense row has [category/subcategory] and
    [Recurring: r]; a SavingsGoal row is [Savings Goal], [current/target],
    the name, the deadline or nothing, the category, and [Priority: p]. *)
Theorem export_to_csv_rows (path : string) (st : state)
    (d : list (string * value)) (incomes : list Income.t)
    (expenses : list Expense.t) (goals : list SavingsGoal.t) :
  data st = VDict d ->
  dict_get "incomes" d = Some (VList (map Income.to_dict incomes)) ->
  dict_get "expenses" d = Some (VList (map Expense.to_dict expenses)) ->
  dict_get "savings_goals" d = Some (VList (map SavingsGoal.to_dict goals)) ->
  _export_to_csv path st
  = (Ok (), write_file st path (csv_write (Spec.rows incomes expenses goals)))
  /\ Forall (fun row => length row = 6%nat) (Spec.rows incomes expenses goals).
Proof.
  intros Hdata Hi He Hg. split.
  - unfold _export_to_csv. rewrite Hdata.
    now rewrite (export_rows_spec d incomes expenses goals Hi He Hg).
  - unfold Spec.rows. apply Forall_cons. split; [reflexivity |].
    rewrite !Forall_app, !Forall_map. repeat split;
      apply Forall_forall; intros; reflexivity.
Qed.

End Exporting.

(** ** Tabular import *)

Section Reader.
Context `{PyFloat} `{!Runtime}.
Import FinanceManager.

Lemma row_dict_standard (cells : list string) :
  row_dict header cells = Spec.standard_row cells.
Proof.
  unfold row_dict, header, Spec.standard_row, Spec.cell.
  do 6 (destruct cells as [|? cells]; [reflexivity |]).
  cbn. now rewrite drop_nil.
Qed.

Lemma filter_non_empty (rows : list (list string)) :
  Forall (fun r => r <> []) rows ->
  filter (fun r : list string => r <> []) rows = rows.
Proof.
  induction 1 as [|r rows Hr _ IH]; [reflexivity |].
  rewrite filter_cons_True by exact Hr. now rewrite IH.
Qed.

Lemma DictReader_standard (rows : list (list string)) :
  DictReader (header :: rows)
  = map Spec.standard_row (filter (fun r : list string => r <> []) rows).
Proof.
  unfold DictReader. apply map_ext. intros r. apply row_dict_standard.
Qed.

(** Cells after the sixth do not reach the dictionary. *)
Lemma standard_row_take (cells : list string) :
  Spec.standard_row (take 6 cells) = Spec.standard_row cells.
Proof.
  unfold Spec.standard_row, Spec.cell.
  now rewrite !lookup_take_lt by lia.
Qed.

Lemma cell_cases (i : nat) (cells : list string) :
  Spec.cell i cells = VNone \/ exists s, Spec.cell i cells = VStr s.
Proof. unfold Spec.cell. destruct (cells !! i); eauto. Qed.

Lemma cell_short (i : nat) (cells : list string) :
  (length cells <= i)%nat -> Spec.cell i cells = VNone.
Proof.
  intros Hlen. unfold Spec.cell. now rewrite lookup_ge_None_2.
Qed.

Lemma import_rows_app (l1 l2 : list value) (acc : imported) :
  import_rows (l1 ++ l2)%list acc
  = (acc' ← import_rows l1 acc; import_rows l2 acc').
Proof.
  revert acc. induction l1 as [|row l1 IH]; intros acc; [reflexivity |].
  cbn [app import_rows]. destruct (import_row row acc); [| reflexivity].
  cbn [mbind result_bind]. apply IH.
Qed.

(** One row that raises stops the whole loop. *)
Lemma import_rows_raises (rows : list value) (row : value) :
  In row rows ->
  (forall acc, is_ok (import_row row acc) = false) ->
  forall acc, is_ok (import_rows rows acc) = false.
Proof.
  intros Hin Hrow. induction rows as [|r rows IH]; [destruct Hin |].
  intros acc. cbn [import_rows].
  destruct Hin as [-> | Hin].
  - specialize (Hrow acc). now destruct (import_row row acc).
  - destruct (import_row r acc); [| reflexivity]. now apply IH.
Qed.

End Reader.

Section Policy.
Context `{PyFloat} `{!Runtime}.
Import FinanceManager.

Lemma get_Type cells :
  getitem (Spec.standard_row cells) "Type" = Ok (Spec.cell 0 cells).
Proof. reflexivity. Qed.

Lemma get_Amount cells :
  getitem (Spec.standard_row cells) "Amount" = Ok (Spec.cell 1 cells).
Proof. reflexivity. Qed.

Lemma get_Description cells :
  getitem (Spec.standard_row cells) "Description" = Ok (Spec.cell 2 cells).
Proof. reflexivity. Qed.

Lemma get_Date cells :
  getitem (Spec.standard_row cells) "Date" = Ok (Spec.cell 3 cells).
Proof. reflexivity. Qed.

Lemma get_Category cells :
  getitem (Spec.standard_row cells) "Category" = Ok (Spec.cell 4 cells).
Proof. reflexivity. Qed.

Lemma get_Details cells :
  getitem (Spec.standard_row cells) "Details" = Ok (Spec.cell 5 cells).
Proof. reflexivity. Qed.

Ltac lookups :=
  rewrite ?get_Type, ?get_Amount, ?get_Description, ?get_Date,
    ?get_Category, ?get_Details;
  cbn [mbind result_bind].

Ltac step x n :=
  destruct x as [n|]; cbn [mbind result_bind]; try reflexivity.

Lemma py_float_non_numeric (s : string) :
  Spec.numeric s = false -> py_float (VStr s) = Err (ValueError "float()").
Proof.
  unfold Spec.numeric, py_float. now destruct (float_of_str s).
Qed.

Lemma unpack2_floats_raises (parts : list string) :
  match parts with
  | [current; target] =>
      negb (Spec.numeric current && Spec.numeric target)
  | _ => true
  end = true ->
  is_ok (unpack2_floats parts) = false.
Proof.
  destruct parts as [|p1 [|p2 [|p3 more]]]; cbn [unpack2_floats];
    [reflexivity | | |].
  - intros _. now destruct (py_float (VStr p1)).
  - unfold Spec.numeric, py_float.
    destruct (float_of_str p1); [| reflexivity].
    destruct (float_of_str p2); [discriminate | reflexivity].
  - intros _. destruct (py_float (VStr p1)); [| reflexivity].
    cbn [mbind result_bind].
    destruct (py_float (VStr p2)); [| reflexivity].
    cbn [mbind result_bind]. now destruct (py_float (VStr p3)).
Qed.

(** *** Rows that are too short *)

Lemma import_income_short (cells : list string) :
  (length cells < 6)%nat ->
  is_ok (import_income (Spec.standard_row cells)) = false.
Proof.
  intros Hlen. unfold import_income, frequency_of. lookups.
  rewrite (cell_short 5) by lia.
  step (py_float (Spec.cell 1 cells)) amount.
Qed.

Lemma import_expense_short (cells : list string) :
  (length cells < 6)%nat ->
  is_ok (import_expense (Spec.standard_row cells)) = false.
Proof.
  intros Hlen. unfold import_expense. lookups.
  rewrite (cell_short 5) by lia.
  step (py_split (Spec.cell 4 cells) "/") parts.
  step (unpack2 parts) both. destruct both as [category subcategory].
  step (py_float (Spec.cell 1 cells)) amount.
Qed.

Lemma import_goal_short (cells : list string) :
  (length cells < 6)%nat ->
  is_ok (import_goal (Spec.standard_row cells)) = false.
Proof.
  intros Hlen. unfold import_goal, priority_of. lookups.
  rewrite (cell_short 5) by lia.
  step (py_split (Spec.cell 1 cells) "/") parts.
  step (unpack2_floats parts) both. destruct both as [current target].
  destruct (truthy (Spec.cell 3 cells)); reflexivity.
Qed.

(** *** Rows with a bad cell *)

Lemma import_income_non_numeric (cells : list string) (amount : string) :
  Spec.cell 1 cells = VStr amount ->
  Spec.numeric amount = false ->
  is_ok (import_income (Spec.standard_row cells)) = false.
Proof.
  intros Hcell Hnum. unfold import_income. lookups.
  now rewrite Hcell, (py_float_non_numeric _ Hnum).
Qed.

Lemma import_expense_bad (cells : list string) (amount category : string) :
  Spec.cell 1 cells = VStr amount ->
  Spec.cell 4 cells = VStr category ->
  negb (Spec.numeric amount) || negb (Str.has_char "/" category) = true ->
  is_ok (import_expense (Spec.standard_row cells)) = false.
Proof.
  intros Hamount Hcategory Hbad. unfold import_expense. lookups.
  rewrite Hamount, Hcategory. cbn [py_split mbind result_bind].
  destruct (Str.has_char "/" category) eqn:Hslash.
  - rewrite orb_false_r in Hbad. apply negb_true_iff in Hbad.
    step (unpack2 (Str.split "/" category)) both. destruct both as [c s].
    now rewrite (py_float_non_numeric _ Hbad).
  - now rewrite (StrFacts.split_absent _ _ Hslash).
Qed.

Lemma import_goal_bad (cells : list string) (amount : string) :
  Spec.cell 1 cells = VStr amount ->
  match Str.split "/" amount with
  | [current; target] =>
      negb (Spec.numeric current && Spec.numeric target)
  | _ => true
  end = true ->
  is_ok (import_goal (Spec.standard_row cells)) = false.
Proof.
  intros Hamount Hbad. unfold import_goal. lookups.
  rewrite Hamount. cbn [py_split mbind result_bind].
  pose proof (unpack2_floats_raises _ Hbad) as Hraise.
  now destruct (unpack2_floats (Str.split "/" amount)).
Qed.

(** A row the code rejects raises, whatever was read before it. *)
Lemma import_row_rejected (cells : list string) :
  Spec.rejected cells = true ->
  forall acc, is_ok (import_row (Spec.standard_row cells) acc) = false.
Proof.
  destruct cells as [|type rest]; [discriminate |].
  cbn [Spec.rejected]. intros Hrej acc.
  apply andb_true_iff in Hrej. destruct Hrej as [Hrec Hbad].
  unfold import_row. rewrite get_Type. cbn [mbind result_bind].
  change (Spec.cell 0 (type :: rest)) with (VStr type). cbn [eq_str].
  unfold Spec.recognised in Hrec.
  destruct (String.eqb_spec type "Income") as [-> | _].
  { assert (Hraise :
      is_ok (import_income (Spec.standard_row ("Income" :: rest))) = false).
    { apply orb_true_iff in Hbad. destruct Hbad as [Hshort | Hcond].
      - apply import_income_short. now apply Nat.ltb_lt.
      - destruct rest as [|amount [|c2 [|c3 [|category rest']]]];
          try discriminate.
        apply (import_income_non_numeric _ amount); [reflexivity |].
        now apply negb_true_iff. }
    now destruct (import_income _). }
  destruct (String.eqb_spec type "Expense") as [-> | _].
  { assert (Hraise :
      is_ok (import_expense (Spec.standard_row ("Expense" :: rest))) = false).
    { apply orb_true_iff in Hbad. destruct Hbad as [Hshort | Hcond].
      - apply import_expense_short. now apply Nat.ltb_lt.
      - destruct rest as [|amount [|c2 [|c3 [|category rest']]]];
          try discriminate.
        now apply (import_expense_bad _ amount category). }
    now destruct (import_expense _). }
  destruct (String.eqb_spec type "Savings Goal") as [-> | _];
    [| discriminate].
  assert (Hraise :
    is_ok (import_goal (Spec.standard_row ("Savings Goal" :: rest))) = false).
  { apply orb_true_iff in Hbad. destruct Hbad as [Hshort | Hcond].
    - apply import_goal_short. now apply Nat.ltb_lt.
    - destruct rest as [|amount [|c2 [|c3 [|category rest']]]];
        try discriminate.
      now apply (import_goal_bad _ amount). }
  now destruct (import_goal _).
Qed.

(** A row whose [Type] is none of the three is passed over. *)
Lemma import_row_unrecognised (cells : list string) (acc : imported) :
  cells <> [] ->
  Spec.recognised_row cells = false ->
  import_row (Spec.standard_row cells) acc = Ok acc.
Proof.
  destruct cells as [|type rest]; [congruence |].
  intros _ Hrec. cbn [Spec.recognised_row] in Hrec.
  unfold Spec.recognised in Hrec.
  apply orb_false_iff in Hrec. destruct Hrec as [Hrec Hgoal].
  apply orb_false_iff in Hrec. destruct Hrec as [Hincome Hexpense].
  unfold import_row. rewrite get_Type. cbn [mbind result_bind].
  change (Spec.cell 0 (type :: rest)) with (VStr type). cbn [eq_str].
  now rewrite Hincome, Hexpense, Hgoal.
Qed.

Lemma import_rows_skip (rows : list (list string)) (acc : imported) :
  import_rows
    (map Spec.standard_row (filter (fun r : list string => r <> []) rows)) acc
  = import_rows
      (map Spec.standard_row
         (filter (fun r : list string => r <> [])
            (List.filter Spec.recognised_row rows))) acc.
Proof.
  revert acc. induction rows as [|cells rows IH]; intros acc; [reflexivity |].
  cbn [List.filter].
  destruct (decide (cells = [])) as [-> | Hcells].
  - cbn [Spec.recognised_row]. rewrite filter_cons_False by tauto. apply IH.
  - rewrite filter_cons_True by exact Hcells. cbn [map import_rows].
    destruct (Spec.recognised_row cells) eqn:Hrec.
    + rewrite filter_cons_True by exact Hcells. cbn [map import_rows].
      destruct (import_row _ acc); [| reflexivity].
      cbn [mbind result_bind]. apply IH.
    + rewrite (import_row_unrecognised cells acc Hcells Hrec).
      cbn [mbind result_bind]. apply IH.
Qed.

Lemma filter_take_non_empty (rows : list (list string)) :
  map Spec.standard_row
    (filter (fun r : list string => r <> []) (map (take 6) rows))
  = map Spec.standard_row (filter (fun r : list string => r <> []) rows).
Proof.
  induction rows as [|cells rows IH]; [reflexivity |].
  cbn [map]. destruct cells as [|c cells].
  - cbn [take]. rewrite !filter_cons_False by tauto. exact IH.
  - rewrite !filter_cons_True by discriminate. cbn [map].
    now rewrite standard_row_take, IH.
Qed.

(** *** Which exception

    Each importer, with the exception it raises on a row it does not
    decode, read off the order of its statements. *)

Lemma py_float_str_error (s : string) (e : exn) :
  py_float (VStr s) = Err e -> Spec.numeric s = false /\ Spec.value_error e = true.
Proof.
  unfold py_float, Spec.numeric. destruct (float_of_str s); [discriminate |].
  now intros [= <-].
Qed.

Lemma index_error (l : list string) (i : nat) (e : exn) :
  index l i = Err e -> e = IndexError.
Proof. unfold index. destruct (l !! i); [discriminate | now intros [= <-]]. Qed.

Lemma unpack2_error {A} (parts : list A) (e : exn) :
  unpack2 parts = Err e -> Spec.value_error e = true.
Proof.
  destruct parts as [|a [|b [|c more]]]; cbn [unpack2];
    discriminate || now intros [= <-].
Qed.

Lemma unpack2_floats_error (parts : list string) (e : exn) :
  unpack2_floats parts = Err e -> Spec.value_error e = true.
Proof.
  destruct parts as [|p1 [|p2 [|p3 more]]]; cbn [unpack2_floats].
  - now intros [= <-].
  - destruct (py_float (VStr p1)) eqn:H1; cbn [mbind result_bind].
    + now intros [= <-].
    + intros [= <-]. now apply (py_float_str_error p1).
  - destruct (py_float (VStr p1)) eqn:H1; cbn [mbind result_bind];
      [| intros [= <-]; now apply (py_float_str_error p1)].
    destruct (py_float (VStr p2)) eqn:H2; cbn [mbind result_bind];
      [discriminate | intros [= <-]; now apply (py_float_str_error p2)].
  - destruct (py_float (VStr p1)) eqn:H1; cbn [mbind result_bind];
      [| intros [= <-]; now apply (py_float_str_error p1)].
    destruct (py_float (VStr p2)) eqn:H2; cbn [mbind result_bind];
      [| intros [= <-]; now apply (py_float_str_error p2)].
    destruct (py_float (VStr p3)) eqn:H3; cbn [mbind result_bind];
      [now intros [= <-] | intros [= <-]; now apply (py_float_str_error p3)].
Qed.

Lemma frequency_of_error (cells : list string) :
  match cells !! 5%nat with
  | Some _ =>
      forall e, frequency_of (Spec.standard_row cells) = Err e ->
                e = IndexError
  | None => frequency_of (Spec.standard_row cells) = Err AttributeError
  end.
Proof.
  unfold frequency_of. lookups. unfold Spec.cell.
  destruct (cells !! 5%nat) as [details|]; cbn [py_split mbind result_bind];
    [| reflexivity].
  intros e.
  destruct (index (Str.split "," details) 0) as [first|] eqn:H1;
    cbn [mbind result_bind];
    [| intros [= <-]; exact (index_error _ _ _ H1)].
  destruct (index (Str.split ":" first) 1) as [second|] eqn:H2;
    cbn [mbind result_bind];
    [discriminate | intros [= <-]; exact (index_error _ _ _ H2)].
Qed.

Lemma priority_of_error (cells : list string) :
  match cells !! 5%nat with
  | Some _ =>
      forall e, priority_of (Spec.standard_row cells) = Err e ->
                e = IndexError \/ Spec.value_error e = true
  | None => priority_of (Spec.standard_row cells) = Err AttributeError
  end.
Proof.
  unfold priority_of. lookups. unfold Spec.cell.
  destruct (cells !! 5%nat) as [details|]; cbn [py_split mbind result_bind];
    [| reflexivity].
  intros e.
  destruct (index (Str.split ":" details) 1) as [second|] eqn:H1;
    cbn [mbind result_bind];
    [| intros [= <-]; left; exact (index_error _ _ _ H1)].
  unfold py_int. destruct (int_of_str _); [discriminate |].
  intros [= <-]. now right.
Qed.

Lemma numeric_float (s : string) (x : float) :
  py_float (VStr s) = Ok x -> Spec.numeric s = true.
Proof.
  unfold Spec.numeric, py_float. now destruct (float_of_str s).
Qed.

(** The exception of an Income row that does not decode. *)
Lemma import_income_error (cells : list string) (e : exn) :
  import_income (Spec.standard_row cells) = Err e ->
  match cells !! 1%nat with
  | None => e = TypeError
  | Some amount =>
      if Spec.numeric amount then
        match cells !! 5%nat with
        | Some _ => e = IndexError
        | None => e = AttributeError
        end
      else Spec.value_error e = true
  end.
Proof.
  unfold import_income. lookups.
  pose proof (frequency_of_error cells) as Hfrequency.
  unfold Spec.cell.
  destruct (cells !! 1%nat) as [amount|];
    [| cbn [py_float mbind result_bind]; now intros [= <-]].
  destruct (py_float (VStr amount)) as [x|e0] eqn:Hamount;
    cbn [mbind result_bind].
  - rewrite (numeric_float _ _ Hamount).
    destruct (cells !! 5%nat) as [details|].
    + destruct (frequency_of (Spec.standard_row cells)) as [f|e1];
        cbn [py_in contains_key mbind result_bind];
        [discriminate | intros [= <-]; exact (Hfrequency _ eq_refl)].
    + rewrite Hfrequency. cbn [mbind result_bind]. now intros [= <-].
  - intros [= <-]. destruct (py_float_str_error _ _ Hamount) as [-> He].
    exact He.
Qed.

(** The exception of an Expense row that does not decode. *)
Lemma import_expense_error (cells : list string) (e : exn) :
  import_expense (Spec.standard_row cells) = Err e ->
  match cells !! 4%nat with
  | None => e = AttributeError
  | Some _ =>
      match cells !! 5%nat with
      | Some _ => Spec.value_error e = true
      | None => Spec.value_error e = true \/ e = TypeError
      end
  end.
Proof.
  unfold import_expense. lookups. unfold Spec.cell.
  destruct (cells !! 4%nat) as [category|] eqn:Hcategory;
    cbn [py_split mbind result_bind]; [| now intros [= <-]].
  assert (Hamount : exists amount, cells !! 1%nat = Some amount).
  { apply lookup_lt_is_Some_2. apply lookup_lt_Some in Hcategory. lia. }
  destruct Hamount as [amount ->].
  destruct (unpack2 (Str.split "/" category)) as [[c s]|e0] eqn:Hparts;
    cbn [mbind result_bind].
  2: { intros [= <-]. pose proof (unpack2_error _ _ Hparts) as Hvalue.
       destruct (cells !! 5%nat); [exact Hvalue | now left]. }
  destruct (py_float (VStr amount)) as [x|e0] eqn:Hfloat;
    cbn [mbind result_bind].
  2: { intros [= <-].
       pose proof (proj2 (py_float_str_error _ _ Hfloat)) as Hvalue.
       destruct (cells !! 5%nat); [exact Hvalue | now left]. }
  destruct (cells !! 5%nat) as [details|];
    cbn [py_in contains_key mbind result_bind]; [discriminate |].
  intros [= <-]. now right.
Qed.

(** The exception of a Savings Goal row that does not decode. *)
Lemma import_goal_error (cells : list string) (e : exn) :
  import_goal (Spec.standard_row cells) = Err e ->
  match cells !! 1%nat with
  | None => e = AttributeError
  | Some amount =>
      if is_ok (unpack2_floats (Str.split "/" amount)) then
        match cells !! 5%nat with
        | Some _ => e = IndexError \/ Spec.value_error e = true
        | None => e = AttributeError
        end
      else Spec.value_error e = true
  end.
Proof.
  unfold import_goal. lookups.
  pose proof (priority_of_error cells) as Hpriority.
  unfold Spec.cell.
  destruct (cells !! 1%nat) as [amount|];
    cbn [py_split mbind result_bind]; [| now intros [= <-]].
  destruct (unpack2_floats (Str.split "/" amount)) as [[current target]|e0]
    eqn:Hparts; cbn [mbind result_bind is_ok];
    [| intros [= <-]; exact (unpack2_floats_error _ _ Hparts)].
  destruct (truthy _); cbn [mbind result_bind].
  all: destruct (cells !! 5%nat) as [details|];
    [ destruct (priority_of (Spec.standard_row cells)) as [p|e1];
        cbn [mbind result_bind];
        [discriminate | intros [= <-]; exact (Hpriority _ eq_refl)]
    | rewrite Hpriority; cbn [mbind result_bind]; now intros [= <-] ].
Qed.

Ltac classes Hc e :=
  repeat match type of Hc with
         | context [if ?b then _ else _] => destruct b eqn:?
         | _ \/ _ => destruct Hc as [Hc | Hc]
         end;
  first [subst e | destruct e; try discriminate Hc].

Ltac verdict Hrej :=
  split; [reflexivity |]; intros Hrej;
  first
    [ split; [reflexivity | cbn [length]; first [reflexivity | lia]]
    | exfalso;
      cbn [Spec.rejected Spec.recognised String.eqb Ascii.eqb Bool.eqb
             orb andb length Nat.ltb Nat.leb] in Hrej ].

(** The exception of the loop body: always one of the four classes; for a
    row the code rejects, one of three, and [ValueError] when the row has
    its six cells. *)
Lemma import_row_error (cells : list string) (acc : imported) (e : exn) :
  import_row (Spec.standard_row cells) acc = Err e ->
  Spec.decode_error e = true
  /\ (Spec.rejected cells = true ->
      Spec.refusal e = true
      /\ ((6 <= length cells)%nat -> Spec.value_error e = true)).
Proof.
  unfold import_row. rewrite get_Type. cbn [mbind result_bind].
  destruct cells as [|type rest].
  { cbn. discriminate. }
  change (Spec.cell 0 (type :: rest)) with (VStr type). cbn [eq_str].
  destruct (String.eqb_spec type "Income") as [-> | _].
  { destruct (import_income _) as [r|e0] eqn:Herr; cbn [mbind result_bind];
      [discriminate |].
    intros [= <-]. pose proof (import_income_error _ _ Herr) as Hc.
    clear Herr.
    destruct rest as [|amount [|c2 [|c3 [|category [|details more]]]]];
      cbn [lookup list_lookup] in Hc; classes Hc e0; verdict Hrej.
    rewrite Heqb in Hrej. discriminate Hrej. }
  destruct (String.eqb_spec type "Expense") as [-> | _].
  { destruct (import_expense _) as [r|e0] eqn:Herr; cbn [mbind result_bind];
      [discriminate |].
    intros [= <-]. pose proof (import_expense_error _ _ Herr) as Hc.
    clear Herr.
    destruct rest as [|amount [|c2 [|c3 [|category [|details more]]]]];
      cbn [lookup list_lookup] in Hc; classes Hc e0; verdict Hrej. }
  destruct (String.eqb_spec type "Savings Goal") as [-> | _];
    [| discriminate].
  destruct (import_goal _) as [r|e0] eqn:Herr; cbn [mbind result_bind];
    [discriminate |].
  intros [= <-]. pose proof (import_goal_error _ _ Herr) as Hc.
  clear Herr.
  destruct rest as [|amount [|c2 [|c3 [|category [|details more]]]]];
    cbn [lookup list_lookup] in Hc; classes Hc e0; verdict Hrej.
  rewrite (unpack2_floats_raises _ Hrej) in Heqb. discriminate Heqb.
Qed.

Lemma import_rows_error (rows : list (list string)) (acc : imported)
    (e : exn) :
  import_rows (map Spec.standard_row rows) acc = Err e ->
  Spec.decode_error e = true.
Proof.
  revert acc. induction rows as [|cells rows IH]; intros acc; [discriminate |].
  cbn [map import_rows].
  destruct (import_row (Spec.standard_row cells) acc) as [acc1|e0] eqn:Hrow;
    cbn [mbind result_bind]; [apply IH |].
  intros [= <-]. exact (proj1 (import_row_error _ _ _ Hrow)).
Qed.

Lemma import_from_rows_first (before after : list (list string))
    (cells : list string) (e : exn) :
  Spec.rejected cells = true ->
  is_ok (import_from_rows (header :: before)) = true ->
  import_from_rows (header :: before ++ cells :: after) = Err e ->
  Spec.refusal e = true /\ ((6 <= length cells)%nat -> Spec.value_error e = true).
Proof.
  intros Hrej. unfold import_from_rows. rewrite !DictReader_standard.
  rewrite filter_app, map_app, import_rows_app.
  destruct (import_rows
              (map Spec.standard_row
                 (filter (fun r : list string => r <> []) before)) _)
    as [acc1|]; cbn [fmap result_fmap is_ok mbind result_bind];
    [intros _ | discriminate].
  rewrite filter_cons_True by (intros ->; discriminate Hrej).
  cbn [map import_rows].
  destruct (import_row (Spec.standard_row cells) acc1) as [acc2|e0] eqn:Hrow.
  - pose proof (import_row_rejected cells Hrej acc1) as Hfail.
    rewrite Hrow in Hfail. discriminate Hfail.
  - cbn [mbind result_bind fmap result_fmap]. intros [= <-].
    exact (proj2 (import_row_error _ _ _ Hrow) Hrej).
Qed.

(** C5 (as the code behaves).  Under the standard header, a row of one of
    the three types that has fewer than six cells, a non-numeric amount, or
    no [/] where one is required makes the whole import fail, and the
    manager and the files stay as they were.  The exception is the one of
    the first row that does not decode: a [ValueError], [TypeError],
    [AttributeError] or [IndexError].  When the rows in front of such a row
    decode, the exception is that of the row: a [ValueError], [TypeError]
    or [AttributeError], and a [ValueError] when the row has its six
    cells.  A row of any other [Type] is passed over, and cells after the
    sixth are ignored: neither fails the import. *)
Theorem import_from_csv_failure_policy (rows : list (list string)) :
  (forall cells,
      In cells rows -> Spec.rejected cells = true ->
      exists e,
        import_from_rows (header :: rows) = Err e
        /\ Spec.decode_error e = true
        /\ forall path st f,
             suffix path = ".csv" ->
             disk st !! path = Some f ->
             csv_read f = header :: rows ->
             import_data path st = (Err e, st))
  /\ (forall before cells after,
        rows = (before ++ cells :: after)%list ->
        Spec.rejected cells = true ->
        is_ok (import_from_rows (header :: before)) = true ->
        exists e,
          import_from_rows (header :: rows) = Err e
          /\ Spec.refusal e = true
          /\ ((6 <= length cells)%nat -> Spec.value_error e = true))
  /\ import_from_rows (header :: rows)
     = import_from_rows (header :: List.filter Spec.recognised_row rows)
  /\ import_from_rows (header :: rows)
     = import_from_rows (header :: map (take 6) rows).
Proof.
  assert (Hfails : forall cells,
            In cells rows -> Spec.rejected cells = true ->
            exists e, import_from_rows (header :: rows) = Err e
                      /\ Spec.decode_error e = true).
  { intros cells Hin Hrej. unfold import_from_rows.
    rewrite DictReader_standard.
    match goal with
    | |- exists e, _ <$> import_rows ?rs ?acc = _ /\ _ =>
        pose proof (import_rows_raises rs (Spec.standard_row cells)) as Hr;
        destruct (import_rows rs acc) as [done|e] eqn:Hloop
    end.
    - exfalso.
      assert (Hnot : is_ok (import_rows
                (map Spec.standard_row
                   (filter (fun r : list string => r <> []) rows))
                {| incomes := []; expenses := []; goals := [] |}) = false).
      { apply Hr.
        - apply in_map. apply list_elem_of_In, list_elem_of_filter.
          split; [| now apply list_elem_of_In].
          intros ->. discriminate.
        - now apply import_row_rejected. }
      rewrite Hloop in Hnot. discriminate.
    - exists e. split; [reflexivity |].
      exact (import_rows_error _ _ _ Hloop). }
  split; [| split; [| split]].
  - intros cells Hin Hrej.
    destruct (Hfails cells Hin Hrej) as (e & Hrows & Hclass).
    exists e. split; [exact Hrows | split; [exact Hclass |]].
    intros path st f Hsuffix Hfile Hread. unfold import_data.
    rewrite Hsuffix. cbn [String.eqb Ascii.eqb Bool.eqb].
    unfold _import_from_csv, read_file. rewrite Hfile.
    cbn [mbind result_bind]. rewrite Hread. now rewrite Hrows.
  - intros before cells after -> Hrej Hbefore.
    destruct (Hfails cells) as (e & Hrows & _);
      [apply in_or_app; right; now left | exact Hrej |].
    exists e. split; [exact Hrows |].
    exact (import_from_rows_first before after cells e Hrej Hbefore Hrows).
  - unfold import_from_rows. rewrite !DictReader_standard.
    now rewrite import_rows_skip.
  - unfold import_from_rows. rewrite !DictReader_standard.
    now rewrite filter_take_non_empty.
Qed.

End Policy.

Section CategoryCell.
Context `{PyFloat} `{!Runtime}.
Import FinanceManager.

(** The unpacking of the [Category] cell of an Expense row succeeds exactly
    when the cell holds one [/]; with none, or with more than one, it
    raises. *)
Lemma category_unpack_iff (category : string) :
  is_ok (unpack2 (Str.split "/" category))
  = Nat.eqb (Str.count "/" category) 1.
Proof.
  pose proof (StrFacts.split_length "/" category) as Hlen.
  destruct (Str.split "/" category) as [|a [|b [|c more]]];
    cbn [length] in Hlen; [discriminate | ..];
    injection Hlen as Hcount; rewrite <- Hcount; reflexivity.
Qed.

Lemma import_expense_unpack (cells : list string) (category : string) :
  Spec.cell 4 cells = VStr category ->
  Str.count "/" category <> 1%nat ->
  import_expense (Spec.standard_row cells) = Err (ValueError "unpack").
Proof.
  intros Hcell Hcount. unfold import_expense.
  rewrite get_Category. cbn [mbind result_bind]. rewrite Hcell.
  cbn [py_split mbind result_bind].
  pose proof (category_unpack_iff category) as Hiff.
  apply Nat.eqb_neq in Hcount. rewrite Hcount in Hiff.
  destruct (Str.split "/" category) as [|a [|b [|c more]]];
    try reflexivity; discriminate.
Qed.

(** C9 (as the code behaves).  An Expense row whose [Category] cell holds
    two [/], here [business/dev/tools], does not decode: the import of the
    file fails at the unpacking of the split cell, whatever the other cells
    hold. *)
Theorem import_expense_two_slashes
    (amount description date details : string) :
  import_from_rows
    [header;
     ["Expense"; amount; description; date; "business/dev/tools"; details]]
  = Err (ValueError "unpack").
Proof.
  unfold import_from_rows. rewrite DictReader_standard.
  rewrite filter_cons_True by discriminate. rewrite filter_nil.
  cbn [map import_rows]. unfold import_row. rewrite get_Type.
  cbn [mbind result_bind]. cbn [Spec.cell lookup list_lookup eq_str].
  cbn [String.eqb Ascii.eqb Bool.eqb].
  rewrite (import_expense_unpack _ "business/dev/tools");
    [reflexivity | reflexivity | discriminate].
Qed.

End CategoryCell.

(** ** Tabular round trip *)

Ltac row_lookups :=
  rewrite ?get_Type, ?get_Amount, ?get_Description, ?get_Date,
    ?get_Category, ?get_Details;
  cbn [mbind result_bind].

Lemma isoformat_not_empty (d : datetime.date) : datetime.isoformat d <> "".
Proof.
  unfold datetime.isoformat.
  destruct (datetime.zfill 4 (Str.of_Z (datetime.year d))); discriminate.
Qed.

Section Roundtrip.
Context `{PyFloat} `{!Runtime}.
Import FinanceManager.

(** What the proofs ask of the interpreter: [float()] reads back what
    [str()] writes for a float, that text holds no [/], and [int()] reads
    back the decimal text of an [int]. *)
Hypothesis float_roundtrip : forall x, float_of_str (float_str x) = Some x.
Hypothesis float_str_no_slash :
  forall x, Str.has_char "/" (float_str x) = false.
Hypothesis int_roundtrip : forall z, int_of_str (Str.of_Z z) = Some z.

Lemma py_float_str (x : float) : py_float (VStr (float_str x)) = Ok x.
Proof. unfold py_float. now rewrite float_roundtrip. Qed.

Lemma import_income_row (i : Income.t) :
  Spec.income_ok i ->
  import_income (Spec.standard_row (Spec.income_row i))
  = Ok (Spec.reimported_income i).
Proof.
  intros [f Hf]. unfold import_income, frequency_of. row_lookups.
  unfold Spec.income_row, Spec.reimported_income.
  cbn [Spec.cell lookup list_lookup]. rewrite py_float_str.
  cbn [mbind result_bind]. rewrite Hf.
  destruct f, (Income.is_target i); reflexivity.
Qed.

Lemma import_expense_row (e : Expense.t) :
  Spec.expense_ok e ->
  import_expense (Spec.standard_row (Spec.expense_row e))
  = Ok (Spec.reimported_expense e).
Proof.
  intros [Hcategory Hsubcategory]. unfold import_expense. row_lookups.
  unfold Spec.expense_row, Spec.reimported_expense.
  cbn [Spec.cell lookup list_lookup py_split mbind result_bind].
  change (Expense.category e +:+ "/" +:+ Expense.subcategory e)
    with (Expense.category e +:+ String "/" (Expense.subcategory e)).
  rewrite (StrFacts.split_two _ _ _ Hcategory Hsubcategory).
  cbn [unpack2 mbind result_bind]. rewrite py_float_str.
  cbn [mbind result_bind].
  destruct (Expense.is_recurring e); reflexivity.
Qed.

Lemma priority_of_row (cells : list string) (p : Z) :
  Spec.cell 5 cells = VStr ("Priority: " +:+ Str.of_Z p) ->
  priority_of (Spec.standard_row cells) = Ok p.
Proof.
  intros Hcell. unfold priority_of. row_lookups. rewrite Hcell.
  cbn [py_split mbind result_bind].
  change ("Priority: " +:+ Str.of_Z p)
    with ("Priority" +:+ String ":" (String " " (Str.of_Z p))).
  rewrite StrFacts.split_two; [| reflexivity |].
  - cbn [index lookup list_lookup mbind result_bind].
    rewrite StrFacts.strip_leading_blank
      by apply StrFacts.plain_no_space, StrFacts.of_Z_plain.
    unfold py_int. now rewrite int_roundtrip.
  - change (Str.has_char ":" (String " " (Str.of_Z p)))
      with (Str.has_char ":" (Str.of_Z p)).
    apply StrFacts.plain_has_char; [reflexivity | apply StrFacts.of_Z_plain].
Qed.

Lemma import_goal_row (g : SavingsGoal.t) :
  import_goal (Spec.standard_row (Spec.goal_row g))
  = Ok (Spec.reimported_goal g).
Proof.
  unfold import_goal.
  rewrite (priority_of_row _ (SavingsGoal.priority g)) by reflexivity.
  row_lookups. unfold Spec.goal_row, Spec.reimported_goal.
  cbn [Spec.cell lookup list_lookup py_split mbind result_bind].
  change (float_str (SavingsGoal.current_amount g) +:+ "/"
          +:+ float_str (SavingsGoal.target_amount g))
    with (float_str (SavingsGoal.current_amount g)
          +:+ String "/" (float_str (SavingsGoal.target_amount g))).
  rewrite StrFacts.split_two by apply float_str_no_slash.
  cbn [unpack2_floats]. rewrite !py_float_str. cbn [mbind result_bind].
  destruct (SavingsGoal.deadline g) as [d|]; [| reflexivity].
  cbn [truthy]. pose proof (isoformat_not_empty d) as Hiso.
  apply String.eqb_neq in Hiso. now rewrite Hiso.
Qed.

Lemma import_rows_incomes (incomes : list Income.t) (acc : imported) :
  Forall Spec.income_ok incomes ->
  import_rows (map Spec.standard_row (map Spec.income_row incomes)) acc
  = Ok {| FinanceManager.incomes :=
            (FinanceManager.incomes acc
             ++ map Spec.reimported_income incomes)%list;
          FinanceManager.expenses := FinanceManager.expenses acc;
          FinanceManager.goals := FinanceManager.goals acc |}.
Proof.
  intros Hok. revert acc.
  induction Hok as [|i incomes Hi _ IH]; intros acc.
  - cbn [map import_rows]. rewrite app_nil_r. now destruct acc.
  - cbn [map import_rows]. unfold import_row at 1. row_lookups.
    change (Spec.cell 0 (Spec.income_row i)) with (VStr "Income").
    cbn [eq_str String.eqb Ascii.eqb Bool.eqb].
    rewrite (import_income_row i Hi). cbn [mbind result_bind].
    rewrite IH. cbn [FinanceManager.incomes FinanceManager.expenses
      FinanceManager.goals]. now rewrite <- app_assoc.
Qed.

Lemma import_rows_expenses (expenses : list Expense.t) (acc : imported) :
  Forall Spec.expense_ok expenses ->
  import_rows (map Spec.standard_row (map Spec.expense_row expenses)) acc
  = Ok {| FinanceManager.incomes := FinanceManager.incomes acc;
          FinanceManager.expenses :=
            (FinanceManager.expenses acc
             ++ map Spec.reimported_expense expenses)%list;
          FinanceManager.goals := FinanceManager.goals acc |}.
Proof.
  intros Hok. revert acc.
  induction Hok as [|e expenses He _ IH]; intros acc.
  - cbn [map import_rows]. rewrite app_nil_r. now destruct acc.
  - cbn [map import_rows]. unfold import_row at 1. row_lookups.
    change (Spec.cell 0 (Spec.expense_row e)) with (VStr "Expense").
    cbn [eq_str String.eqb Ascii.eqb Bool.eqb].
    rewrite (import_expense_row e He). cbn [mbind result_bind].
    rewrite IH. cbn [FinanceManager.incomes FinanceManager.expenses
      FinanceManager.goals]. now rewrite <- app_assoc.
Qed.

Lemma import_rows_goals (goals : list SavingsGoal.t) (acc : imported) :
  import_rows (map Spec.standard_row (map Spec.goal_row goals)) acc
  = Ok {| FinanceManager.incomes := FinanceManager.incomes acc;
          FinanceManager.expenses := FinanceManager.expenses acc;
          FinanceManager.goals :=
            (FinanceManager.goals acc
             ++ map Spec.reimported_goal goals)%list |}.
Proof.
  revert acc. induction goals as [|g goals IH]; intros acc.
  - cbn [map import_rows]. rewrite app_nil_r. now destruct acc.
  - cbn [map import_rows]. unfold import_row at 1. row_lookups.
    change (Spec.cell 0 (Spec.goal_row g)) with (VStr "Savings Goal").
    cbn [eq_str String.eqb Ascii.eqb Bool.eqb].
    rewrite (import_goal_row g). cbn [mbind result_bind].
    rewrite IH. cbn [FinanceManager.incomes FinanceManager.expenses
      FinanceManager.goals]. now rewrite <- app_assoc.
Qed.

End Roundtrip.

Section TabularRoundtrip.
Context `{PyFloat} `{!Runtime}.
Import FinanceManager.

Lemma rows_non_empty (incomes : list Income.t) (expenses : list Expense.t)
    (goals : list SavingsGoal.t) :
  Forall (fun r : list string => r <> [])
    (map Spec.income_row incomes ++ map Spec.expense_row expenses
     ++ map Spec.goal_row goals)%list.
Proof.
  rewrite !Forall_app, !Forall_map.
  repeat split; apply Forall_forall; intros; discriminate.
Qed.

(** The fields tabular import rebuilds are those of the original record;
    the keys [id] and [contributions] are not among them. *)
Lemma reimported_fields (i : Income.t) (e : Expense.t) (g : SavingsGoal.t) :
  Forall (fun k => getitem (Spec.reimported_income i) k
                   = getitem (Income.to_dict i) k)
    ["amount"; "description"; "date"; "source"; "frequency"; "is_target"]
  /\ Forall (fun k => getitem (Spec.reimported_expense e) k
                      = getitem (Expense.to_dict e) k)
       ["amount"; "description"; "date"; "category"; "subcategory";
        "is_recurring"]
  /\ Forall (fun k => getitem (Spec.reimported_goal g) k
                      = getitem (SavingsGoal.to_dict g) k)
       ["name"; "target_amount"; "current_amount"; "category"; "deadline";
        "priority"]
  /\ getitem (Spec.reimported_income i) "id" = Err (KeyError "id")
  /\ getitem (Spec.reimported_expense e) "id" = Err (KeyError "id")
  /\ getitem (Spec.reimported_goal g) "id" = Err (KeyError "id")
  /\ getitem (Spec.reimported_goal g) "contributions"
     = Err (KeyError "contributions").
Proof.
  repeat split; repeat (apply Forall_cons; split; [reflexivity |]);
    apply Forall_nil; exact I.
Qed.

Lemma import_from_rows_spec (incomes : list Income.t)
    (expenses : list Expense.t) (goals : list SavingsGoal.t) :
  (forall x, float_of_str (float_str x) = Some x) ->
  (forall x, Str.has_char "/" (float_str x) = false) ->
  (forall z, int_of_str (Str.of_Z z) = Some z) ->
  Forall Spec.income_ok incomes ->
  Forall Spec.expense_ok expenses ->
  import_from_rows (Spec.rows incomes expenses goals)
  = Ok (Spec.reimported incomes expenses goals).
Proof.
  intros Hfloat Hslash Hint Hincomes Hexpenses.
  unfold import_from_rows, Spec.rows. rewrite DictReader_standard.
  rewrite (filter_non_empty _ (rows_non_empty incomes expenses goals)).
  rewrite !map_app, import_rows_app.
  rewrite (import_rows_incomes Hfloat _ _ Hincomes).
  cbn [mbind result_bind]. rewrite import_rows_app.
  rewrite (import_rows_expenses Hfloat _ _ Hexpenses).
  cbn [mbind result_bind].
  rewrite (import_rows_goals Hfloat Hslash Hint).
  reflexivity.
Qed.

(** C1 (as the code behaves).  Exporting a ledger to the tabular form and
    importing the file again succeeds and leaves a ledger in which every
    Income keeps amount, description, date, source, frequency and
    is_target, every Expense keeps amount, description, date, category,
    subcategory and is_recurring, and every SavingsGoal keeps name,
    target_amount, current_amount, category, deadline and priority, in the
    original order; the re-imported records hold these fields only, so they
    have no [id] and the goals no [contributions].  This is for records
    whose frequency is one of the enumeration and whose category and
    subcategory hold no [/], on a csv layer that returns the rows it was
    given. *)
Theorem tabular_roundtrip (path : string) (st : state)
    (d : list (string * value)) (incomes : list Income.t)
    (expenses : list Expense.t) (goals : list SavingsGoal.t) :
  (forall x, float_of_str (float_str x) = Some x) ->
  (forall x, Str.has_char "/" (float_str x) = false) ->
  (forall z, int_of_str (Str.of_Z z) = Some z) ->
  csv_read (csv_write (Spec.rows incomes expenses goals))
  = Spec.rows incomes expenses goals ->
  suffix path = ".csv" ->
  data st = VDict d ->
  dict_get "incomes" d = Some (VList (map Income.to_dict incomes)) ->
  dict_get "expenses" d = Some (VList (map Expense.to_dict expenses)) ->
  dict_get "savings_goals" d = Some (VList (map SavingsGoal.to_dict goals)) ->
  Forall Spec.income_ok incomes ->
  Forall Spec.expense_ok expenses ->
  exists st1 st2,
    export_data "csv" (Some path) st = (Ok path, st1)
    /\ import_data path st1 = (Ok (), st2)
    /\ data st2 = Spec.reimported incomes expenses goals.
Proof.
  intros Hfloat Hslash Hint Hcsv Hsuffix Hdata Hi He Hg Hincomes Hexpenses.
  exists (write_file st path
            (csv_write (Spec.rows incomes expenses goals))).
  eexists. split; [| split].
  - unfold export_data.
    change (String.eqb "csv" "json") with false.
    change (String.eqb "csv" "csv") with true.
    change (default "penny_export.csv" (Some path)) with path.
    cbv beta iota zeta. unfold _export_to_csv. rewrite Hdata.
    now rewrite (export_rows_spec d incomes expenses goals Hi He Hg).
  - unfold import_data. rewrite Hsuffix.
    change (String.eqb ".csv" ".json") with false.
    change (String.eqb ".csv" ".csv") with true.
    cbv beta iota zeta.
    unfold _import_from_csv, read_file, write_file. cbn [disk].
    rewrite lookup_insert_eq. cbn [mbind result_bind].
    rewrite Hcsv.
    rewrite (import_from_rows_spec incomes expenses goals
               Hfloat Hslash Hint Hincomes Hexpenses).
    reflexivity.
  - reflexivity.
Qed.

End TabularRoundtrip.

(** ** The whole-number runtime satisfies the laws *)

Module WholeFacts.
Import Str StrFacts.

Lemma no_space_app (a b : string) :
  no_space (a +:+ b) = no_space a && no_space b.
Proof. unfold no_space. now rewrite chars_app, forallb_app. Qed.

Lemma to_int_not_nil (z : Z) :
  Z.to_int z <> Decimal.Pos Decimal.Nil
  /\ Z.to_int z <> Decimal.Neg Decimal.Nil.
Proof.
  destruct z as [|p|p]; cbn [Z.to_int]; split; try discriminate;
    intros [= Hnil]; now apply DecimalPos.Unsigned.to_uint_nonnil in Hnil.
Qed.

Lemma parse_Z_of_Z (z : Z) : Whole.parse_Z (of_Z z) = Some z.
Proof.
  unfold Whole.parse_Z, of_Z.
  destruct (to_int_not_nil z) as [Hpos Hneg].
  rewrite (NilZero.isi _ Hpos Hneg). cbn [fmap option_fmap option_map].
  now rewrite DecimalZ.of_to.
Qed.

Lemma float_roundtrip (x : Z) : Whole.to_float (Whole.str x) = Some x.
Proof.
  unfold Whole.to_float, Whole.str.
  rewrite strip_no_space.
  - change (of_Z x +:+ ".0") with (of_Z x +:+ String "." "0").
    rewrite split_two; [| | reflexivity].
    + cbn [Whole.all_zeros Ascii.eqb Bool.eqb andb]. apply parse_Z_of_Z.
    + apply plain_has_char; [reflexivity | apply of_Z_plain].
  - rewrite no_space_app, (plain_no_space _ (of_Z_plain x)). reflexivity.
Qed.

Lemma float_str_no_slash (x : Z) : has_char "/" (Whole.str x) = false.
Proof.
  unfold Whole.str. rewrite has_char_app.
  rewrite (plain_has_char "/" _ eq_refl (of_Z_plain x)). reflexivity.
Qed.

Lemma int_roundtrip (z : Z) : Whole.to_int (of_Z z) = Some z.
Proof.
  unfold Whole.to_int.
  rewrite (strip_no_space _ (plain_no_space _ (of_Z_plain z))).
  pose proof (of_Z_plain z) as Hplain. pose proof (parse_Z_of_Z z) as Hparse.
  destruct (of_Z z) as [|c digits]; [discriminate |].
  unfold all_plain in Hplain. cbn [chars forallb] in Hplain.
  apply andb_true_iff in Hplain. destruct Hplain as [Hc _].
  destruct (Ascii.eqb_spec c "+") as [-> | _]; [discriminate | exact Hparse].
Qed.

End WholeFacts.

(** ** The theorems at the sample ledger *)

Section Instances.
Import Whole.
Import FinanceManager.


Lemma sample_incomes_ok : Forall Spec.income_ok [Sample.salary; Sample.freelance].
Proof.
  apply Forall_cons. split; [now exists Frequency.MONTHLY |].
  apply Forall_cons. split; [now exists Frequency.ONE_TIME |].
  apply Forall_nil. exact I.
Qed.

Lemma sample_expenses_ok : Forall Spec.expense_ok [Sample.software].
Proof.
  apply Forall_cons. split; [split; reflexivity |].
  apply Forall_nil. exact I.
Qed.

(** A contribution of 250 to the laptop goal, and one to an unknown id. *)
Lemma contribute_to_goal_witness :
  contribute_to_goal "4404" Sample.deposit Sample.manager
  = (Ok true,
     save_data
       (set_data Sample.manager
          (VDict (dict_set "savings_goals"
                    (VList (map SavingsGoal.to_dict
                              (<[0%nat := Spec.credited Sample.deposit Sample.laptop]>
                                 [Sample.laptop])))
                    Sample.ledger))))
  /\ contribute_to_goal "0000" Sample.deposit Sample.manager = (Ok false, Sample.manager).
Proof.
  split.
  - apply (proj1 (contribute_to_goal_spec "4404" Sample.deposit Sample.manager
                    Sample.ledger [Sample.laptop] eq_refl eq_refl)
             0%nat Sample.laptop);
      [reflexivity | reflexivity | intros j g' Hj; lia].
  - apply (proj2 (contribute_to_goal_spec "0000" Sample.deposit Sample.manager
                    Sample.ledger [Sample.laptop] eq_refl eq_refl)).
    intros g [<- | []]. discriminate.
Defined.

(** The summary of the sample ledger: the target income of 50 is left out
    of [total_income]. *)
Lemma get_summary_witness :
  get_summary Sample.manager
  = (Spec.summary [Sample.salary; Sample.freelance] [Sample.software]
       [Sample.laptop],
     Sample.manager).
Proof.
  apply (get_summary_spec Sample.manager Sample.ledger
           [Sample.salary; Sample.freelance] [Sample.software]
           [Sample.laptop]); reflexivity.
Defined.

Example sample_totals :
  exists s,
    fst (get_summary Sample.manager) = Ok s
    /\ total_income s = NFloat 100%Z
    /\ total_expenses s = NFloat 30%Z
    /\ net_balance s = NFloat 70%Z
    /\ total_savings s = NFloat 350%Z.
Proof. eexists. split; [reflexivity |]. repeat split. Qed.

(** The rows of the sample ledger. *)
Lemma export_to_csv_rows_witness :
  _export_to_csv "penny_export.csv" Sample.manager
  = (Ok (),
     write_file Sample.manager "penny_export.csv"
       (csv_write (Spec.rows [Sample.salary; Sample.freelance]
                     [Sample.software] [Sample.laptop])))
  /\ Forall (fun row => length row = 6%nat)
       (Spec.rows [Sample.salary; Sample.freelance] [Sample.software]
          [Sample.laptop]).
Proof.
  apply (export_to_csv_rows "penny_export.csv" Sample.manager Sample.ledger);
    reflexivity.
Defined.

Example sample_rows :
  Spec.rows [Sample.salary; Sample.freelance] [Sample.software]
    [Sample.laptop]
  = [header;
     ["Income"; "100.0"; "Income from Job"; "2024-03-01"; "Job";
      "Frequency: monthly, Target: False"];
     ["Income"; "50.0"; "Income from Freelance"; "2024-03-02"; "Freelance";
      "Frequency: one-time, Target: True"];
     ["Expense"; "30.0"; "business expense: software"; "2024-03-03";
      "business/software"; "Recurring: True"];
     ["Savings Goal"; "350.0/1000.0"; "Laptop"; ""; "electronics";
      "Priority: 2"]].
Proof. reflexivity. Qed.

(** A structured file without [savings_goals] is refused and nothing
    changes. *)
Lemma import_data_all_or_nothing_witness :
  import_data "incomplete.json" Sample.manager_with_incomplete
  = (Err (ValueError "Invalid data format"), Sample.manager_with_incomplete).
Proof.
  apply (proj2 (import_data_all_or_nothing "incomplete.json"
                  Sample.manager_with_incomplete)
           (Json (VDict Sample.incomplete)) Sample.incomplete
           "savings_goals");
    [reflexivity | apply lookup_insert_eq | reflexivity
     | right; right; left; reflexivity | reflexivity].
Defined.


(** The sample ledger through the tabular form and back. *)
Lemma tabular_roundtrip_witness :
  exists st1 st2,
    export_data "csv" (Some "penny_export.csv") Sample.manager
    = (Ok "penny_export.csv", st1)
    /\ import_data "penny_export.csv" st1 = (Ok (), st2)
    /\ data st2
       = Spec.reimported [Sample.salary; Sample.freelance] [Sample.software]
           [Sample.laptop].
Proof.
  apply (tabular_roundtrip "penny_export.csv" Sample.manager Sample.ledger
           [Sample.salary; Sample.freelance] [Sample.software]
           [Sample.laptop]
           WholeFacts.float_roundtrip WholeFacts.float_str_no_slash
           WholeFacts.int_roundtrip);
    [reflexivity | reflexivity | reflexivity | reflexivity | reflexivity
     | reflexivity | exact sample_incomes_ok | exact sample_expenses_ok].
Defined.


Example sample_untagged_totals :
  exists s,
    summary_of (VDict Sample.ledger_untagged) = Ok s
    /\ total_expenses s = NFloat 30%Z
    /\ expense_targets s = [].
Proof. eexists. split; [reflexivity |]. split; reflexivity. Qed.

(** A file with a non-numeric amount behind a good row is refused as a
    whole, with the [ValueError] of the bad row; the manager that reads it
    stays as it was. *)
Lemma import_from_csv_failure_policy_witness :
  exists e,
    import_from_rows [header; Sample.salary_row; Sample.bad_amount_row]
    = Err e
    /\ Spec.value_error e = true.
Proof.
  assert (Hrej : Spec.rejected Sample.bad_amount_row = true)
    by reflexivity.
  assert (Hbefore :
    is_ok (import_from_rows [header; Sample.salary_row]) = true)
    by reflexivity.
  destruct (proj1 (proj2 (import_from_csv_failure_policy
                            [Sample.salary_row; Sample.bad_amount_row]))
              [Sample.salary_row] Sample.bad_amount_row []
              eq_refl Hrej Hbefore) as (e & Hrows & _ & Hvalue).
  exists e. split; [exact Hrows | apply Hvalue; cbn; lia].
Defined.

(** The exception is that of the first row that does not decode: an
    Income row whose [Details] has no colon, in front of the row with the
    bad amount, stops the import with an [IndexError]. *)
Example sample_first_failure :
  import_from_rows [header; Sample.salary_row; Sample.bad_amount_row]
  = Err (ValueError "float()")
  /\ import_from_rows [header; Cases.unlabelled_row; Sample.bad_amount_row]
     = Err IndexError.
Proof. split; reflexivity. Qed.

(** C5, the claim as stated, fails: a file holding a row of the unknown
    type [Transfer] (malformed in the words of the specification) is
    imported without error, the row is passed over, and the Income row
    after it enters the ledger. *)
Lemma unrecognised_type_is_not_refused :
  Spec.malformed Sample.transfer_row = true
  /\ fst (import_data "transfer.csv" Sample.manager_with_transfer) = Ok ()
  /\ data (snd (import_data "transfer.csv" Sample.manager_with_transfer))
     = VDict [("incomes",
               VList [VDict [("amount", VFloat 100%Z);
                             ("description", VStr "Income from Job");
                             ("date", VStr "2024-03-01");
                             ("source", VStr "Job");
                             ("frequency", VStr "monthly");
                             ("is_target", VBool false)]]);
              ("expenses", VList []);
              ("savings_goals", VList [])].
Proof. repeat split. Qed.

(** C1, the claim as stated, fails: after the sample ledger has gone
    through the tabular form, the laptop goal has no [contributions] at all
    (not an empty sequence), and neither it nor the records have an [id]. *)
Lemma reimported_goal_has_no_contributions :
  let exported := snd (export_data "csv" None Sample.manager) in
  let imported := snd (import_data "penny_export.csv" exported) in
  fst (import_data "penny_export.csv" exported) = Ok ()
  /\ exists income target goal,
       getitem (data imported) "incomes" = Ok (VList [income; target])
       /\ getitem (data imported) "savings_goals" = Ok (VList [goal])
       /\ getitem goal "contributions" = Err (KeyError "contributions")
       /\ getitem goal "id" = Err (KeyError "id")
       /\ getitem income "id" = Err (KeyError "id").
Proof.
  cbv zeta. split; [reflexivity |].
  eexists. eexists. eexists. repeat split; reflexivity.
Qed.

(** The constructors at the inputs of the specification's examples. *)
Example sample_constructions :
  Income.init 100%Z "Job" Frequency.MONTHLY "" false = Err AttributeError
  /\ Expense.init 30%Z ExpenseCategory.BUSINESS "software" "" true
     = Err AttributeError
  /\ Income.init 0%Z "Job" Frequency.MONTHLY "" false
     = Err (ValueError "Amount must be positive")
  /\ is_ok (SavingsGoal.init "Laptop" 1000%Z SavingsCategory.ELECTRONICS
              None 2) = true
  /\ SavingsGoal.init "Laptop" 1000%Z SavingsCategory.ELECTRONICS None 6
     = Err (ValueError "Priority must be between 1 and 5").
Proof. repeat split. Qed.

(** The export of an expense whose subcategory holds a [/] cannot be
    imported again. *)
Example sample_subcategory_with_slash :
  Spec.expense_row
    {| Expense.super := Expense.super Sample.software;
       Expense.category := "business";
       Expense.subcategory := "dev/tools";
       Expense.is_recurring := false |}
  = ["Expense"; "30.0"; "business expense: software"; "2024-03-03";
     "business/dev/tools"; "Recurring: False"]
  /\ import_from_rows
       [header;
        ["Expense"; "30.0"; "business expense: software"; "2024-03-03";
         "business/dev/tools"; "Recurring: False"]]
     = Err (ValueError "unpack").
Proof. split; reflexivity. Qed.

End Instances.

(** * Further properties of the ledger store *)

(** ** Appending records *)

Section Appending.
Context `{PyFloat} `{!Runtime}.
Import FinanceManager.

Lemma append_to_list (key : string) (record : value) (st : state)
    (d : list (string * value)) (items : list value) :
  data st = VDict d ->
  dict_get key d = Some (VList items) ->
  append_to key record st
  = (Ok (),
     save_data
       (set_data st (VDict (dict_set key (VList (items ++ [record])%list) d)))).
Proof.
  intros Hdata Hget. unfold append_to. rewrite Hdata. cbn [getitem setitem].
  now rewrite Hget.
Qed.

End Appending.

Section AddMethods.
Context `{PyFloat} `{!Runtime}.
Import FinanceManager.

(** X1.  On a ledger that holds the collection as a list, each of
    [add_income], [add_expense] and [add_savings_goal] succeeds; afterwards
    the collection is the old one with the record added at its end, every
    other key of the ledger holds what it held, the data file holds the new
    ledger, and no other file has changed. *)
Theorem add_appends_and_saves (st : state) (d : list (string * value))
    (income : Income.t) (expense : Expense.t) (goal : SavingsGoal.t) :
  data st = VDict d ->
  Forall
    (fun '(method, key, record) =>
       forall items,
         dict_get key d = Some (VList items) ->
         let st' := Ops.appended key record st d items in
         method st = (Ok (), st')
         /\ getitem (data st') key = Ok (VList (items ++ [record])%list)
         /\ (forall k, k <> key ->
                       getitem (data st') k = getitem (data st) k)
         /\ disk st' !! data_file st = Some (json_dump (data st'))
         /\ (forall path, path <> data_file st ->
                          disk st' !! path = disk st !! path))
    (Ops.add_methods income expense goal).
Proof.
  intros Hdata. unfold Ops.add_methods.
  repeat (apply Forall_cons; split); [| | | apply Forall_nil; exact I];
    intros items Hget; cbv zeta; (split; [| split; [| split; [| split]]]).
  all: try (unfold add_income, add_expense, add_savings_goal;
            now apply append_to_list).
  all: unfold Ops.appended, save_data, write_file, set_data; cbn [data disk
         data_file getitem].
  all: try (now rewrite dict_get_set_eq).
  all: try (intros k Hk; rewrite Hdata; cbn [getitem];
            now rewrite dict_get_set_ne by congruence).
  all: try (now rewrite lookup_insert_eq).
  all: intros path Hpath; now rewrite lookup_insert_ne by congruence.
Qed.

(** X2.  On a ledger that does not hold the collection, the [add_*]
    methods raise and change nothing, neither in memory nor on disk:
    [KeyError] when the ledger is a mapping without the key, [TypeError]
    when the ledger is not a mapping but a list, [AttributeError] when the
    key holds something that is not a list. *)
Theorem add_without_collection_fails (st : state)
    (income : Income.t) (expense : Expense.t) (goal : SavingsGoal.t) :
  Forall
    (fun '(method, key, record) =>
       (forall d, data st = VDict d -> dict_get key d = None ->
                  method st = (Err (KeyError key), st))
       /\ (forall l, data st = VList l -> method st = (Err TypeError, st))
       /\ (forall d v, data st = VDict d -> dict_get key d = Some v ->
                       (forall items, v <> VList items) ->
                       method st = (Err AttributeError, st)))
    (Ops.add_methods income expense goal).
Proof.
  unfold Ops.add_methods.
  repeat (apply Forall_cons; split); [| | | apply Forall_nil; exact I];
    (split; [| split]).
  all: unfold add_income, add_expense, add_savings_goal, append_to.
  all: try (intros d Hdata Hnone; rewrite Hdata; cbn [getitem];
            now rewrite Hnone).
  all: try (intros l Hdata; now rewrite Hdata).
  all: intros d v Hdata Hget Hnot; rewrite Hdata; cbn [getitem];
       rewrite Hget; destruct v; try reflexivity; now destruct (Hnot items).
Qed.

End AddMethods.

(** ** Starting up and exporting *)

Section Persistence.
Context `{PyFloat} `{!Runtime}.
Import FinanceManager.

(** X3.  With no data file, or with one that [json.load] rejects, a
    manager starts from the empty ledger and leaves the files as they are
    (a corrupt file is not overwritten until the next save); with a data
    file that decodes it takes the document as it is, whatever it holds.
    In particular, what [save_data] wrote is what the next start reads:
    the ledger survives a restart, as long as [json.load] reads back what
    [json.dump] wrote. *)
Theorem restart_restores_saved_ledger (path : string)
    (files : gmap string file) :
  (files !! path = None ->
   init path files
   = {| data_file := path; data := Ops.fresh_ledger; disk := files |})
  /\ (forall f, files !! path = Some f -> json_load f = None ->
                init path files
                = {| data_file := path; data := Ops.fresh_ledger;
                     disk := files |})
  /\ (forall f v, files !! path = Some f -> json_load f = Some v ->
                  init path files
                  = {| data_file := path; data := v; disk := files |})
  /\ (forall st, data_file st = path ->
                 json_load (json_dump (data st)) = Some (data st) ->
                 init path (disk (save_data st)) = save_data st).
Proof.
  unfold init, load_data. cbn [disk data_file].
  split; [| split; [| split]].
  - now intros ->.
  - intros f -> Hload. now rewrite Hload.
  - intros f v -> Hload. now rewrite Hload.
  - intros st Hpath Hcodec. subst path. unfold save_data, write_file.
    cbn [disk]. rewrite lookup_insert_eq, Hcodec. unfold set_data.
    reflexivity.
Qed.

(** X4.  [export_data] never touches the ledger in memory nor the path of
    the data file, and the only file it can change is its target, whether
    it succeeds or fails; with a format other than [json] and [csv] it
    raises and changes nothing at all. *)
Theorem export_leaves_ledger_alone (format : string)
    (file_path : option string) (st : state) :
  let st' := snd (export_data format file_path st) in
  data st' = data st
  /\ data_file st' = data_file st
  /\ (forall path, path <> Ops.export_target format file_path ->
                   disk st' !! path = disk st !! path)
  /\ (format <> "json" -> format <> "csv" ->
      export_data format file_path st
      = (Err (ValueError "Unsupported export format"), st)).
Proof.
  cbv zeta. unfold export_data.
  destruct (String.eqb_spec format "json") as [-> | Hjson].
  - cbn [snd]. unfold write_file. cbn [data data_file disk].
    change (Ops.export_target "json" file_path)
      with (default "penny_export.json" file_path).
    split; [reflexivity | split; [reflexivity | split]].
    + intros path Hpath. now rewrite lookup_insert_ne by congruence.
    + congruence.
  - destruct (String.eqb_spec format "csv") as [-> | Hcsv].
    + unfold _export_to_csv.
      destruct (export_rows (data st)) as [rows fault].
      cbn [snd]. unfold write_file. cbn [data data_file disk].
      change (Ops.export_target "csv" file_path)
        with (default "penny_export.csv" file_path).
      split; [reflexivity | split; [reflexivity | split]].
      * intros path Hpath. now rewrite lookup_insert_ne by congruence.
      * congruence.
    + cbn [snd]. repeat split; reflexivity.
Qed.

End Persistence.

(** ** Export that stops half way, import that accepts too much *)

Section Boundaries.
Context `{PyFloat} `{!Runtime}.
Import FinanceManager.

Lemma write_rows_app (row_of : value -> result (list string))
    (l1 l2 : list value) :
  write_rows row_of (l1 ++ l2)%list
  = match write_rows row_of l1 with
    | (rs, Some e) => (rs, Some e)
    | (rs, None) =>
        let '(rs', fault) := write_rows row_of l2 in ((rs ++ rs')%list, fault)
    end.
Proof.
  induction l1 as [|x l1 IH]; cbn [app write_rows].
  - now destruct (write_rows row_of l2).
  - destruct (row_of x) as [r|e]; [| reflexivity].
    rewrite IH. destruct (write_rows row_of l1) as [rs [e|]]; [reflexivity |].
    now destruct (write_rows row_of l2).
Qed.

(** X5.  When an income record cannot be turned into a row (it lacks a
    key, say), [_export_to_csv] raises, but only after it has replaced the
    target file: the file then holds the header and the rows of the
    records in front of the faulty one, and nothing of what follows. *)
Theorem csv_export_failure_truncates (path : string) (st : state)
    (d : list (string * value)) (good : list Income.t) (bad : value)
    (rest : list value) (e : exn) :
  data st = VDict d ->
  dict_get "incomes" d
  = Some (VList (map Income.to_dict good ++ bad :: rest)%list) ->
  income_row bad = Err e ->
  _export_to_csv path st
  = (Err e,
     write_file st path (csv_write (header :: map Spec.income_row good))).
Proof.
  intros Hdata Hincomes Hbad. unfold _export_to_csv, export_rows.
  rewrite Hdata. unfold write_collection at 1.
  rewrite (collection_list d _ _ Hincomes).
  rewrite write_rows_app, write_rows_incomes.
  cbn [write_rows]. rewrite Hbad. rewrite app_nil_r.
  reflexivity.
Qed.

Lemma all_keys_in_list (items : list value) :
  (forall k, In k required_keys -> In (VStr k) items) ->
  all_keys_in (VList items) required_keys = Ok true.
Proof.
  intros Hall.
  assert (Hmem : forall k, In k required_keys ->
                           existsb (fun x => eq_str x k) items = true).
  { intros k Hk. apply existsb_exists. exists (VStr k).
    split; [now apply Hall | apply String.eqb_refl]. }
  unfold required_keys in *. cbn [all_keys_in contains_key].
  rewrite !Hmem by (cbn; tauto). reflexivity.
Qed.

Lemma import_json_accepted (path : string) (st : state) (f : file)
    (v : value) :
  suffix path = ".json" ->
  disk st !! path = Some f ->
  json_load f = Some v ->
  all_keys_in v required_keys = Ok true ->
  import_data path st = (Ok (), save_data (set_data st v)).
Proof.
  intros Hsuffix Hfile Hload Hkeys. unfold import_data.
  rewrite Hsuffix, String.eqb_refl. unfold read_file. rewrite Hfile.
  unfold mbind, result_bind. now rewrite Hload, Hkeys.
Qed.

(** X6.  Structured import checks the three names and nothing else.  A
    mapping that has the three keys is taken as the ledger whatever the
    keys hold.  So is a list that merely contains the three names, because
    the check is [key in imported_data]; with such a ledger every later
    operation raises [TypeError]. *)
Theorem import_accepts_unusable_ledgers (path : string) (st : state)
    (f : file) :
  suffix path = ".json" ->
  disk st !! path = Some f ->
  (forall d,
      json_load f = Some (VDict d) ->
      (forall k, In k required_keys -> is_Some (dict_get k d)) ->
      import_data path st = (Ok (), save_data (set_data st (VDict d))))
  /\ (forall items,
        json_load f = Some (VList items) ->
        (forall k, In k required_keys -> In (VStr k) items) ->
        let st' := save_data (set_data st (VList items)) in
        import_data path st = (Ok (), st')
        /\ get_summary st' = (Err TypeError, st')
        /\ (forall goal_id amount,
               contribute_to_goal goal_id amount st' = (Err TypeError, st'))
        /\ (forall income, add_income income st' = (Err TypeError, st'))
        /\ (forall expense, add_expense expense st' = (Err TypeError, st'))
        /\ (forall goal, add_savings_goal goal st' = (Err TypeError, st'))).
Proof.
  intros Hsuffix Hfile. split.
  - intros d Hload Hkeys.
    apply (import_json_accepted path st f _ Hsuffix Hfile Hload).
    rewrite all_keys_in_dict. f_equal. apply forallb_forall.
    intros k Hk. apply bool_decide_eq_true. now apply Hkeys.
  - intros items Hload Hnames. cbv zeta.
    split; [| repeat split].
    apply (import_json_accepted path st f _ Hsuffix Hfile Hload).
    now apply all_keys_in_list.
Qed.

End Boundaries.

(** ** What tabular import makes of a row *)

Section Decoding.
Context `{PyFloat} `{!Runtime}.
Import FinanceManager.

(** X7.  The two flags are read off the [Details] cell by a substring
    test: whenever an Income row decodes, its [is_target] is true exactly
    when ["True"] occurs somewhere in the cell, and likewise [is_recurring]
    for an Expense row; what else the cell holds does not matter. *)
Theorem csv_flags_are_substring_tests (cells : list string)
    (details : string) :
  Spec.cell 5 cells = VStr details ->
  (forall r, import_income (Spec.standard_row cells) = Ok r ->
             getitem r "is_target"
             = Ok (VBool (Str.contains "True" details)))
  /\ (forall r, import_expense (Spec.standard_row cells) = Ok r ->
                getitem r "is_recurring"
                = Ok (VBool (Str.contains "True" details))).
Proof.
  intros Hdetails. split; intros r.
  - unfold import_income, frequency_of. row_lookups. rewrite Hdetails.
    destruct (py_float (Spec.cell 1 cells)) as [amount|];
      cbn [mbind result_bind py_split]; [| discriminate].
    destruct (index (Str.split "," details) 0) as [first|];
      cbn [mbind result_bind]; [| discriminate].
    destruct (index (Str.split ":" first) 1) as [second|];
      cbn [mbind result_bind py_in contains_key]; [| discriminate].
    now intros [= <-].
  - unfold import_expense. row_lookups. rewrite Hdetails.
    destruct (py_split (Spec.cell 4 cells) "/") as [parts|];
      cbn [mbind result_bind]; [| discriminate].
    destruct (unpack2 parts) as [[category subcategory]|];
      cbn [mbind result_bind]; [| discriminate].
    destruct (py_float (Spec.cell 1 cells)) as [amount|];
      cbn [mbind result_bind py_in contains_key]; [| discriminate].
    now intros [= <-].
Qed.

(** A goal built by [import_goal] has the six fields of the row and no
    other key. *)
Lemma import_goal_keys (row goal : value) :
  import_goal row = Ok goal ->
  exists name target current category deadline priority,
    goal = VDict [("name", name);
                  ("target_amount", VFloat target);
                  ("current_amount", VFloat current);
                  ("category", category);
                  ("deadline", deadline);
                  ("priority", VInt priority)].
Proof.
  unfold import_goal.
  destruct (getitem row "Amount") as [cell|]; cbn [mbind result_bind];
    [| discriminate].
  destruct (py_split cell "/") as [parts|]; cbn [mbind result_bind];
    [| discriminate].
  destruct (unpack2_floats parts) as [[current target]|];
    cbn [mbind result_bind]; [| discriminate].
  destruct (getitem row "Description") as [name|]; cbn [mbind result_bind];
    [| discriminate].
  destruct (getitem row "Category") as [category|]; cbn [mbind result_bind];
    [| discriminate].
  destruct (getitem row "Date") as [date|]; cbn [mbind result_bind];
    [| discriminate].
  destruct (if truthy date then Ok date else Ok VNone) as [deadline|];
    cbn [mbind result_bind]; [| discriminate].
  destruct (priority_of row) as [priority|]; cbn [mbind result_bind];
    [| discriminate].
  intros [= <-]. now eexists _, _, _, _, _, _.
Qed.

(** X8.  A goal that came in through tabular import has no [id], and
    [contribute_to_goal] asks every goal it passes for its [id]: with such
    a goal at the head of the list, every contribution, to any id, raises
    [KeyError] and changes nothing. *)
Theorem contribute_after_tabular_import (row goal : value)
    (rest : list value) (st : state) (d : list (string * value))
    (goal_id : string) (amount : float) :
  import_goal row = Ok goal ->
  data st = VDict d ->
  dict_get "savings_goals" d = Some (VList (goal :: rest)) ->
  contribute_to_goal goal_id amount st = (Err (KeyError "id"), st).
Proof.
  intros Himport Hdata Hgoals.
  destruct (import_goal_keys row goal Himport)
    as (name & target & current & category & deadline & priority & ->).
  unfold contribute_to_goal. rewrite Hdata. cbn [getitem]. rewrite Hgoals.
  cbn [iter contribute_scan getitem dict_get String.eqb Ascii.eqb Bool.eqb
         setitem].
  rewrite (dict_set_same d _ _ Hgoals), <- Hdata.
  now rewrite set_data_same.
Qed.

(** X9.  The statements of [contribute_to_goal] run in order and nothing
    is undone.  When the matching goal has a [current_amount] but no
    [contributions] key, the call raises [KeyError] after it has already
    added the amount to [current_amount]: the ledger in memory has
    changed, and it has not been saved. *)
Theorem contribute_without_contributions_key (st : state)
    (d goal : list (string * value)) (rest : list value)
    (goal_id : string) (current amount : float) :
  data st = VDict d ->
  dict_get "savings_goals" d = Some (VList (VDict goal :: rest)) ->
  dict_get "id" goal = Some (VStr goal_id) ->
  dict_get "current_amount" goal = Some (VFloat current) ->
  dict_get "contributions" goal = None ->
  let credited :=
    VDict (dict_set "current_amount" (VFloat (float_add current amount))
             goal) in
  contribute_to_goal goal_id amount st
  = (Err (KeyError "contributions"),
     set_data st
       (VDict (dict_set "savings_goals" (VList (credited :: rest)) d)))
  /\ disk (snd (contribute_to_goal goal_id amount st)) = disk st.
Proof.
  intros Hdata Hgoals Hid Hcurrent Hnone. cbv zeta.
  assert (Hcall :
    contribute_to_goal goal_id amount st
    = (Err (KeyError "contributions"),
       set_data st
         (VDict (dict_set "savings_goals"
                   (VList (VDict (dict_set "current_amount"
                                    (VFloat (float_add current amount)) goal)
                           :: rest)) d)))).
  { unfold contribute_to_goal. rewrite Hdata. cbn [getitem]. rewrite Hgoals.
    cbn [iter contribute_scan getitem]. rewrite Hid.
    cbn [eq_str]. rewrite String.eqb_refl.
    unfold contribute. cbn [getitem]. rewrite Hcurrent.
    cbn [add_num as_num num_add to_float mbind result_bind fmap result_fmap
           of_num setitem getitem].
    rewrite dict_get_set_ne by discriminate. rewrite Hnone.
    reflexivity. }
  rewrite Hcall. split; reflexivity.
Qed.

End Decoding.

(** ** The ledger that tabular import builds *)

Section Imported.
Context `{PyFloat} `{!Runtime}.
Import FinanceManager.

Lemma import_row_grows (cells : list string) (acc acc' : imported) :
  cells <> [] ->
  import_row (Spec.standard_row cells) acc = Ok acc' ->
  length (incomes acc')
  = (length (incomes acc)
     + (if Ops.typed "Income" cells then 1 else 0))%nat
  /\ length (expenses acc')
     = (length (expenses acc)
        + (if Ops.typed "Expense" cells then 1 else 0))%nat
  /\ length (goals acc')
     = (length (goals acc)
        + (if Ops.typed "Savings Goal" cells then 1 else 0))%nat.
Proof.
  destruct cells as [|type rest]; [congruence |]. intros _.
  unfold import_row. rewrite get_Type. cbn [mbind result_bind].
  change (Spec.cell 0 (type :: rest)) with (VStr type).
  cbn [eq_str Ops.typed].
  destruct (String.eqb_spec type "Income") as [-> | _].
  { destruct (import_income _); cbn [mbind result_bind]; [| discriminate].
    intros [= <-]. cbn. rewrite length_app. cbn. lia. }
  destruct (String.eqb_spec type "Expense") as [-> | _].
  { destruct (import_expense _); cbn [mbind result_bind]; [| discriminate].
    intros [= <-]. cbn. rewrite length_app. cbn. lia. }
  destruct (String.eqb_spec type "Savings Goal") as [-> | _].
  { destruct (import_goal _); cbn [mbind result_bind]; [| discriminate].
    intros [= <-]. cbn. rewrite length_app. cbn. lia. }
  intros [= <-]. lia.
Qed.

Lemma import_rows_grow (rows : list (list string)) (acc acc' : imported) :
  import_rows
    (map Spec.standard_row (filter (fun r : list string => r <> []) rows)) acc
  = Ok acc' ->
  length (incomes acc')
  = (length (incomes acc) + Ops.count_type "Income" rows)%nat
  /\ length (expenses acc')
     = (length (expenses acc) + Ops.count_type "Expense" rows)%nat
  /\ length (goals acc')
     = (length (goals acc) + Ops.count_type "Savings Goal" rows)%nat.
Proof.
  unfold Ops.count_type. revert acc.
  induction rows as [|cells rows IH]; intros acc.
  - cbn. intros [= <-]. lia.
  - destruct (decide (cells = [])) as [-> | Hcells].
    + rewrite filter_cons_False by tauto. cbn [List.filter Ops.typed].
      apply IH.
    + rewrite filter_cons_True by exact Hcells. cbn [map import_rows].
      destruct (import_row _ acc) as [acc1|] eqn:Hrow;
        cbn [mbind result_bind]; [| discriminate].
      intros Hrest.
      destruct (import_row_grows cells acc acc1 Hcells Hrow)
        as (Hi & He & Hg).
      destruct (IH acc1 Hrest) as (Hi' & He' & Hg').
      cbn [List.filter].
      destruct (Ops.typed "Income" cells), (Ops.typed "Expense" cells),
        (Ops.typed "Savings Goal" cells); cbn [length]; lia.
Qed.

(** X10.  Whatever file tabular import accepts, the ledger it builds has
    exactly the three collections and no [version]; every row of type
    [Income] has given one income, every [Expense] row one expense, every
    [Savings Goal] row one goal, and the other rows nothing.  The result
    always passes the key check of [import_data].  A file with no row at
    all, or with the header only, gives three empty collections. *)
Theorem tabular_import_shape (rows : list (list string)) :
  (forall v,
      import_from_rows (header :: rows) = Ok v ->
      exists incomes expenses goals,
        v = VDict [("incomes", VList incomes); ("expenses", VList expenses);
                   ("savings_goals", VList goals)]
        /\ length incomes = Ops.count_type "Income" rows
        /\ length expenses = Ops.count_type "Expense" rows
        /\ length goals = Ops.count_type "Savings Goal" rows
        /\ all_keys_in v required_keys = Ok true
        /\ getitem v "version" = Err (KeyError "version"))
  /\ import_from_rows [] = import_from_rows [header]
  /\ import_from_rows [header]
     = Ok (VDict [("incomes", VList []); ("expenses", VList []);
                  ("savings_goals", VList [])]).
Proof.
  split; [| split; reflexivity].
  intros v. unfold import_from_rows. rewrite DictReader_standard.
  destruct (import_rows _ _) as [acc|] eqn:Hloop; [| discriminate].
  cbn [fmap result_fmap]. intros [= <-].
  destruct (import_rows_grow rows _ acc Hloop) as (Hi & He & Hg).
  exists (incomes acc), (expenses acc), (goals acc).
  cbn [incomes expenses goals length] in Hi, He, Hg.
  repeat split; assumption || reflexivity.
Qed.

(** *** Records that have been through the tabular form *)

Lemma generator_reimported_incomes (incomes : list Income.t) :
  generator (fun i => t ← getitem i "is_target";
                      if truthy t then Ok None
                      else Some <$> getitem i "amount")
    (map Spec.reimported_income incomes)
  = (map VFloat
       (map Spec.income_amount
          (List.filter (fun i => negb (Income.is_target i)) incomes)),
     None).
Proof.
  induction incomes as [|i incomes IH]; [reflexivity |].
  cbn [map generator List.filter].
  change (t ← getitem (Spec.reimported_income i) "is_target";
          if truthy t then Ok None
          else Some <$> getitem (Spec.reimported_income i) "amount")
    with (if Income.is_target i then Ok None
          else Ok (Some (VFloat (Spec.income_amount i)))).
  destruct (Income.is_target i); cbn [negb]; [exact IH |].
  cbn [map]. now rewrite IH.
Qed.

Lemma generator_reimported_expenses (expenses : list Expense.t) :
  generator (fun e => Some <$> getitem e "amount")
    (map Spec.reimported_expense expenses)
  = (map VFloat (map Spec.expense_amount expenses), None).
Proof.
  induction expenses as [|e expenses IH]; [reflexivity |].
  cbn [map generator].
  change (Some <$> getitem (Spec.reimported_expense e) "amount")
    with (Ok (Some (VFloat (Spec.expense_amount e)))).
  now rewrite IH.
Qed.

Lemma generator_reimported_goals (goals : list SavingsGoal.t) :
  generator (fun g => Some <$> getitem g "current_amount")
    (map Spec.reimported_goal goals)
  = (map VFloat (map SavingsGoal.current_amount goals), None).
Proof.
  induction goals as [|g goals IH]; [reflexivity |].
  cbn [map generator].
  change (Some <$> getitem (Spec.reimported_goal g) "current_amount")
    with (Ok (Some (VFloat (SavingsGoal.current_amount g)))).
  now rewrite IH.
Qed.

Lemma comprehension_reimported_incomes (incomes : list Income.t) :
  comprehension (fun i => truthy <$> getitem i "is_target")
    (map Spec.reimported_income incomes)
  = Ok (map Spec.reimported_income (List.filter Income.is_target incomes)).
Proof.
  induction incomes as [|i incomes IH]; [reflexivity |].
  cbn [map comprehension List.filter].
  change (truthy <$> getitem (Spec.reimported_income i) "is_target")
    with (Ok (Income.is_target i)).
  cbn [mbind result_bind]. rewrite IH. cbn [mbind result_bind].
  now destruct (Income.is_target i).
Qed.

Lemma comprehension_reimported_expenses (expenses : list Expense.t) :
  comprehension (fun e => truthy <$> get e "is_recurring" (VBool false))
    (map Spec.reimported_expense expenses)
  = Ok (map Spec.reimported_expense
          (List.filter Expense.is_recurring expenses)).
Proof.
  induction expenses as [|e expenses IH]; [reflexivity |].
  cbn [map comprehension List.filter].
  change (truthy <$> get (Spec.reimported_expense e) "is_recurring"
                       (VBool false))
    with (Ok (Expense.is_recurring e)).
  cbn [mbind result_bind]. rewrite IH. cbn [mbind result_bind].
  now destruct (Expense.is_recurring e).
Qed.

(** X11.  The summary does not see the loss of the tabular round trip: on
    the ledger rebuilt from the rows of [incomes], [expenses] and [goals],
    [get_summary] returns the same four totals as on the original ledger
    (or fails with the same exception of [sum]), although the records in it
    have lost their ids. *)
Theorem summary_survives_tabular_form (incomes : list Income.t)
    (expenses : list Expense.t) (goals : list SavingsGoal.t) :
  Ops.same_totals
    (Spec.summary incomes expenses goals)
    (summary_of (Spec.reimported incomes expenses goals)).
Proof.
  unfold summary_of, Spec.summary, Spec.reimported, Ops.same_totals.
  unfold collection.
  cbn [getitem dict_get String.eqb Ascii.eqb Bool.eqb iter mbind
         result_bind].
  rewrite generator_reimported_incomes, generator_reimported_expenses,
    generator_reimported_goals.
  rewrite !sum_generator_floats, !map_map.
  rewrite comprehension_reimported_incomes,
    comprehension_reimported_expenses.
  destruct (py_sum
              (map (fun i => NFloat (Spec.income_amount i))
                 (List.filter (fun i => negb (Income.is_target i)) incomes)))
    as [ti|]; cbn [mbind result_bind]; [| reflexivity].
  destruct (py_sum (map (fun e => NFloat (Spec.expense_amount e)) expenses))
    as [te|]; cbn [mbind result_bind]; [| reflexivity].
  destruct (py_sum
              (map (fun g => NFloat (SavingsGoal.current_amount g)) goals))
    as [ts|]; cbn [mbind result_bind]; [| reflexivity].
  destruct (num_sub ti te); cbn [mbind result_bind]; [| reflexivity].
  repeat split.
Qed.

Lemma write_rows_reimported_incomes (incomes : list Income.t) :
  write_rows income_row (map Spec.reimported_income incomes)
  = (map Spec.income_row incomes, None).
Proof.
  induction incomes as [|i incomes IH]; [reflexivity |].
  cbn [map write_rows].
  replace (income_row (Spec.reimported_income i))
    with (Ok (Spec.income_row i))
    by (unfold Spec.income_row, Spec.bool_str; cbn;
        now destruct (Income.is_target i)).
  now rewrite IH.
Qed.

Lemma write_rows_reimported_expenses (expenses : list Expense.t) :
  write_rows expense_row (map Spec.reimported_expense expenses)
  = (map Spec.expense_row expenses, None).
Proof.
  induction expenses as [|e expenses IH]; [reflexivity |].
  cbn [map write_rows].
  replace (expense_row (Spec.reimported_expense e))
    with (Ok (Spec.expense_row e))
    by (unfold Spec.expense_row, Spec.bool_str; cbn;
        now destruct (Expense.is_recurring e)).
  now rewrite IH.
Qed.

Lemma write_rows_reimported_goals (goals : list SavingsGoal.t) :
  write_rows goal_row (map Spec.reimported_goal goals)
  = (map Spec.goal_row goals, None).
Proof.
  induction goals as [|g goals IH]; [reflexivity |].
  cbn [map write_rows].
  replace (goal_row (Spec.reimported_goal g)) with (Ok (Spec.goal_row g))
    by (unfold Spec.goal_row; cbn; now destruct (SavingsGoal.deadline g)).
  now rewrite IH.
Qed.

(** X12.  What the tabular form loses, it loses once: the ledger rebuilt
    from the rows of [incomes], [expenses] and [goals] exports to exactly
    the rows the original ledger exported to. *)
Theorem second_export_equals_first (path : string) (st : state)
    (incomes : list Income.t) (expenses : list Expense.t)
    (goals : list SavingsGoal.t) :
  data st = Spec.reimported incomes expenses goals ->
  _export_to_csv path st
  = (Ok (), write_file st path (csv_write (Spec.rows incomes expenses goals))).
Proof.
  intros Hdata. unfold _export_to_csv, export_rows, write_collection.
  rewrite Hdata. unfold Spec.reimported, collection.
  cbn [getitem dict_get String.eqb Ascii.eqb Bool.eqb iter mbind
         result_bind].
  rewrite write_rows_reimported_incomes, write_rows_reimported_expenses,
    write_rows_reimported_goals.
  reflexivity.
Qed.

End Imported.

(** ** Goals: colliding ids, contributions on the object *)

Section Goals.
Context `{PyFloat} `{!Runtime}.
Import FinanceManager.

Lemma SavingsGoal_init_id (name : string) (target : float)
    (category : SavingsCategory.t) (deadline : option datetime.date)
    (priority : Z) (g : SavingsGoal.t) :
  SavingsGoal.init name target category deadline priority = Ok g ->
  SavingsGoal.id g
  = Str.of_Z (py_hash (name +:+ "-" +:+ float_str target +:+ "-"
                       +:+ SavingsCategory.str category)).
Proof.
  unfold SavingsGoal.init.
  destruct (float_le_zero target); [discriminate |].
  destruct ((priority <? 1)%Z || (priority >? 5)%Z); [discriminate |].
  now intros [= <-].
Qed.

(** X13.  The id of a goal is made of its name, target and category only.
    Two goals built in one run that agree on these get the same id,
    whatever their deadline and priority; once both are in the ledger, a
    contribution under that id is credited to the one added first, and the
    other cannot be reached. *)
Theorem goals_with_one_id_credit_the_first (name : string) (target : float)
    (category : SavingsCategory.t) (deadline1 deadline2 : option datetime.date)
    (priority1 priority2 : Z) (g1 g2 : SavingsGoal.t) (st : state)
    (d : list (string * value)) (gs : list SavingsGoal.t) (amount : float) :
  SavingsGoal.init name target category deadline1 priority1 = Ok g1 ->
  SavingsGoal.init name target category deadline2 priority2 = Ok g2 ->
  data st = VDict d ->
  dict_get "savings_goals" d = Some (VList (map SavingsGoal.to_dict gs)) ->
  (forall g, In g gs -> SavingsGoal.id g <> SavingsGoal.id g2) ->
  let st1 := snd (add_savings_goal g1 st) in
  let st2 := snd (add_savings_goal g2 st1) in
  SavingsGoal.id g1 = SavingsGoal.id g2
  /\ exists st3,
       contribute_to_goal (SavingsGoal.id g2) amount st2 = (Ok true, st3)
       /\ getitem (data st3) "savings_goals"
          = Ok (VList (map SavingsGoal.to_dict
                         (gs ++ [Spec.credited amount g1; g2])%list)).
Proof.
  intros Hinit1 Hinit2 Hdata Hgoals Hfresh. cbv zeta.
  assert (Hid : SavingsGoal.id g1 = SavingsGoal.id g2).
  { rewrite (SavingsGoal_init_id _ _ _ _ _ _ Hinit1).
    now rewrite (SavingsGoal_init_id _ _ _ _ _ _ Hinit2). }
  split; [exact Hid |].
  unfold add_savings_goal.
  rewrite (append_to_list _ _ st d _ Hdata Hgoals). cbn [snd].
  erewrite append_to_list;
    [| reflexivity | apply dict_get_set_eq].
  cbn [snd]. rewrite dict_set_set.
  eexists. split.
  - unfold contribute_to_goal.
    cbn [data save_data write_file set_data getitem].
    rewrite dict_get_set_eq. cbn [iter].
    replace ((map SavingsGoal.to_dict gs ++ [SavingsGoal.to_dict g1])
             ++ [SavingsGoal.to_dict g2])%list
      with (map SavingsGoal.to_dict (gs ++ g1 :: [g2])%list)
      by (rewrite map_app, <- app_assoc; reflexivity).
    rewrite (contribute_scan_hit (SavingsGoal.id g2) amount gs [g2] g1 Hfresh
               Hid).
    cbn [setitem]. reflexivity.
  - cbn [data save_data write_file set_data getitem].
    now rewrite dict_get_set_eq.
Qed.

Lemma add_contribution_no_date (g : SavingsGoal.t) (amount : float) :
  let g' := snd (SavingsGoal.add_contribution g amount None) in
  is_ok (fst (SavingsGoal.add_contribution g amount None)) = false
  /\ SavingsGoal.contributions g' = SavingsGoal.contributions g
  /\ SavingsGoal.current_amount g'
     = if float_le_zero amount then SavingsGoal.current_amount g
       else float_add (SavingsGoal.current_amount g) amount.
Proof.
  cbv zeta. unfold SavingsGoal.add_contribution.
  destruct (float_le_zero amount); repeat split.
Qed.

(** X14.  [SavingsGoal.add_contribution] called without a date never
    succeeds and never records an entry, but it has added every positive
    amount to [current_amount] before it raises: after any run of such
    calls the contributions are those the goal started with, while
    [current_amount] has grown by the positive amounts, in order. *)
Theorem add_contribution_without_date (g : SavingsGoal.t)
    (amounts : list float) :
  Forall (fun amount =>
            forall g0,
              is_ok (fst (SavingsGoal.add_contribution g0 amount None))
              = false)
    amounts
  /\ SavingsGoal.contributions (Ops.contribute_all g amounts)
     = SavingsGoal.contributions g
  /\ SavingsGoal.current_amount (Ops.contribute_all g amounts)
     = fold_left float_add
         (List.filter (fun amount => negb (float_le_zero amount)) amounts)
         (SavingsGoal.current_amount g).
Proof.
  split.
  - apply Forall_forall. intros amount _ g0.
    apply (add_contribution_no_date g0 amount).
  - unfold Ops.contribute_all. revert g.
    induction amounts as [|amount amounts IH]; intros g; [split; reflexivity |].
    cbn [fold_left List.filter].
    destruct (add_contribution_no_date g amount) as (_ & Hentries & Hcurrent).
    destruct (IH (snd (SavingsGoal.add_contribution g amount None)))
      as [IHentries IHcurrent].
    rewrite IHentries, IHcurrent, Hentries, Hcurrent.
    destruct (float_le_zero amount); split; reflexivity.
Qed.

End Goals.

(** ** The interactive handlers *)

Section Handlers.
Context `{PyFloat} `{!Runtime}.
Import FinanceManager.

Lemma Income_init_raises (amount : float) (source description : string)
    (frequency : Frequency.t) (is_target : bool) :
  exists e,
    Income.init amount source frequency description is_target = Err e.
Proof.
  unfold Income.init. rewrite Transaction_init_no_date. eauto.
Qed.

Lemma Expense_init_raises (amount : float) (subcategory description : string)
    (category : ExpenseCategory.t) (is_recurring : bool) :
  exists e,
    Expense.init amount category subcategory description is_recurring = Err e.
Proof.
  unfold Expense.init. rewrite Transaction_init_no_date. eauto.
Qed.

Ltac handler_step :=
  match goal with
  | |- Interactive.stopped _ (match ?x with _ => _ end) =>
      destruct x; cbn [fst snd]
  | |- Interactive.stopped _ (_, _) =>
      eexists _, _; split; [reflexivity | reflexivity]
  end.

(** X15.  The interactive income and expense handlers can never add a
    record.  Whatever is typed, each of them stops with an exception (a
    value that does not parse, the end of the input, or the failure of the
    constructor) before it reaches the manager: the ledger and the files
    are as they were. *)
Theorem interactive_handlers_never_add (st : state)
    (terminal : Interactive.console) :
  Interactive.stopped st (Interactive.add_income_interactive (st, terminal))
  /\ Interactive.stopped st
       (Interactive.add_expense_interactive (st, terminal)).
Proof.
  destruct terminal as [lines written]. split.
  - unfold Interactive.add_income_interactive, Interactive.bind,
      Interactive.print, Interactive.input, Interactive.lift,
      Interactive.call.
    cbn [fst snd Interactive.stdin Interactive.stdout].
    destruct lines as [|amount lines]; [handler_step |].
    destruct (py_float (VStr amount)) as [x|]; [| handler_step].
    cbn [fst snd Interactive.stdin Interactive.stdout].
    destruct lines as [|source lines]; [handler_step |].
    cbn [fst snd Interactive.stdin Interactive.stdout].
    destruct lines as [|frequency lines]; [handler_step |].
    destruct (Interactive.frequency_of_value frequency) as [f|];
      [| handler_step].
    cbn [fst snd Interactive.stdin Interactive.stdout].
    destruct lines as [|description lines]; [handler_step |].
    cbn [fst snd Interactive.stdin Interactive.stdout].
    destruct lines as [|target lines]; [handler_step |].
    destruct (Income_init_raises x source description f
                (String.eqb (Interactive.lower target) "y")) as [e ->].
    handler_step.
  - unfold Interactive.add_expense_interactive, Interactive.bind,
      Interactive.print, Interactive.input, Interactive.lift,
      Interactive.call.
    cbn [fst snd Interactive.stdin Interactive.stdout].
    destruct lines as [|amount lines]; [handler_step |].
    destruct (py_float (VStr amount)) as [x|]; [| handler_step].
    cbn [fst snd Interactive.stdin Interactive.stdout].
    destruct lines as [|category lines]; [handler_step |].
    destruct (Interactive.category_of_value category) as [c|];
      [| handler_step].
    cbn [fst snd Interactive.stdin Interactive.stdout].
    destruct lines as [|subcategory lines]; [handler_step |].
    cbn [fst snd Interactive.stdin Interactive.stdout].
    destruct lines as [|description lines]; [handler_step |].
    cbn [fst snd Interactive.stdin Interactive.stdout].
    destruct lines as [|recurring lines]; [handler_step |].
    destruct (Expense_init_raises x subcategory description c
                (String.eqb (Interactive.lower recurring) "y")) as [e ->].
    handler_step.
Qed.

End Handlers.

(** ** Columns are found by name *)

Section Columns.
Context `{PyFloat} `{!Runtime}.
Import FinanceManager.

Lemma zipped_get_other (h cells : list string) (acc : list (string * value))
    (k : string) :
  ~ In k h ->
  dict_get k
    (fold_left (fun d kc => dict_set (fst kc) (VStr (snd kc)) d)
       (zip h cells) acc)
  = dict_get k acc.
Proof.
  revert cells acc. induction h as [|k0 h IH]; intros cells acc Hnot;
    [reflexivity |].
  destruct cells as [|c0 cells]; [reflexivity |].
  cbn [zip zip_with fold_left fst snd].
  rewrite IH by (intros Hin; apply Hnot; now right).
  apply dict_get_set_ne. intros ->. apply Hnot. now left.
Qed.

Lemma zipped_get (h cells : list string) (acc : list (string * value))
    (i : nat) (k s : string) :
  NoDup h -> h !! i = Some k -> cells !! i = Some s ->
  dict_get k
    (fold_left (fun d kc => dict_set (fst kc) (VStr (snd kc)) d)
       (zip h cells) acc)
  = Some (VStr s).
Proof.
  revert cells acc i. induction h as [|k0 h IH]; intros cells acc i Hnodup;
    [discriminate |].
  apply NoDup_cons in Hnodup. destruct Hnodup as [Hfresh Hnodup].
  destruct cells as [|c0 cells]; [discriminate |].
  cbn [zip zip_with fold_left fst snd].
  destruct i as [|i]; cbn [lookup list_lookup].
  - intros [= <-] [= <-].
    rewrite zipped_get_other
      by (intros Hin; apply Hfresh; now apply list_elem_of_In).
    apply dict_get_set_eq.
  - intros Hk Hs. now apply (IH cells _ i).
Qed.

(** Under a header without repeated names, a row that is long enough has,
    under each name, the cell at the position of the name. *)
Lemma row_dict_named (h cells : list string) (i : nat) (k s : string) :
  NoDup h -> (length h <= length cells)%nat ->
  h !! i = Some k -> cells !! i = Some s ->
  getitem (row_dict h cells) k = Ok (VStr s).
Proof.
  intros Hnodup Hlen Hk Hs. unfold row_dict.
  rewrite drop_ge by exact Hlen. cbn [fold_left getitem].
  now rewrite (zipped_get h cells [] i k s Hnodup Hk Hs).
Qed.

(** The loop body reads a row through the six names only. *)
Lemma import_row_ext (r r' : value) (acc : imported) :
  Forall (fun k => getitem r k = getitem r' k) header ->
  import_row r acc = import_row r' acc.
Proof.
  unfold header. intros Hall.
  repeat (apply Forall_cons in Hall; destruct Hall as [? Hall]).
  unfold import_row, import_income, frequency_of, import_expense,
    import_goal, priority_of.
  repeat match goal with
         | Heq : getitem r _ = getitem r' _ |- _ => rewrite !Heq; clear Heq
         end.
  reflexivity.
Qed.

(** X16.  Tabular import finds its cells by the names of the header, not
    by position: under any header without repeated names that has the six
    columns somewhere, among whatever other columns, a file whose rows are
    as long as the header decodes exactly as the file in the standard
    layout that holds, row by row, the cells standing under the six
    names. *)
Theorem import_reads_cells_by_name (fieldnames : list string)
    (type amount description date category details : nat)
    (rows : list (list string)) :
  NoDup fieldnames ->
  fieldnames !! type = Some "Type" ->
  fieldnames !! amount = Some "Amount" ->
  fieldnames !! description = Some "Description" ->
  fieldnames !! date = Some "Date" ->
  fieldnames !! category = Some "Category" ->
  fieldnames !! details = Some "Details" ->
  Forall (fun cells => cells = []
                       \/ (length fieldnames <= length cells)%nat) rows ->
  import_from_rows (fieldnames :: rows)
  = import_from_rows
      (header
       :: map (Ops.pick [type; amount; description; date; category; details])
            rows).
Proof.
  intros Hnodup HT HA HD HDt HC HDe Hrows.
  unfold import_from_rows. f_equal.
  rewrite DictReader_standard. unfold DictReader.
  generalize ({| incomes := []; expenses := []; goals := [] |}).
  induction Hrows as [|cells rows Hcells _ IH]; intros acc; [reflexivity |].
  cbn [map]. destruct Hcells as [-> | Hlen].
  - cbn [Ops.pick]. rewrite !filter_cons_False by tauto. apply IH.
  - destruct cells as [|c cells].
    + cbn [Ops.pick]. rewrite !filter_cons_False by tauto. apply IH.
    + assert (Hpick :
        Ops.pick [type; amount; description; date; category; details]
          (c :: cells) <> []) by discriminate.
      rewrite (filter_cons_True _ (c :: cells)) by discriminate.
      rewrite (filter_cons_True _ (Ops.pick _ (c :: cells))) by exact Hpick.
      cbn [map import_rows]. clear Hpick.
      set (row := c :: cells) in *.
      assert (Hsame :
        import_row (row_dict fieldnames row) acc
        = import_row
            (Spec.standard_row
               (Ops.pick [type; amount; description; date; category; details]
                  row)) acc).
      { apply import_row_ext. unfold header.
        assert (Hcell : forall i k, fieldnames !! i = Some k ->
                  exists s, row !! i = Some s
                            /\ getitem (row_dict fieldnames row) k
                               = Ok (VStr s)).
        { intros i k Hk.
          destruct (lookup_lt_is_Some_2 row i) as [s Hs].
          { apply lookup_lt_Some in Hk. lia. }
          exists s. split; [exact Hs |].
          now apply (row_dict_named fieldnames row i k s). }
        destruct (Hcell _ _ HT) as (sT & HsT & HgT).
        destruct (Hcell _ _ HA) as (sA & HsA & HgA).
        destruct (Hcell _ _ HD) as (sD & HsD & HgD).
        destruct (Hcell _ _ HDt) as (sDt & HsDt & HgDt).
        destruct (Hcell _ _ HC) as (sC & HsC & HgC).
        destruct (Hcell _ _ HDe) as (sDe & HsDe & HgDe).
        unfold Ops.pick, row. fold row. cbn [map].
        rewrite HsT, HsA, HsD, HsDt, HsC, HsDe.
        repeat (apply Forall_cons; split;
                [first [rewrite HgT | rewrite HgA | rewrite HgD
                       | rewrite HgDt | rewrite HgC | rewrite HgDe];
                 reflexivity |]).
        apply Forall_nil; exact I. }
      rewrite Hsame.
      destruct (import_row
                  (Spec.standard_row
                     (Ops.pick
                        [type; amount; description; date; category; details]
                        row)) acc);
        cbn [mbind result_bind]; [| reflexivity].
      apply IH.
Qed.

End Columns.

(** ** The further properties at sample states *)

Section FurtherInstances.
Import Whole.
Import FinanceManager.

(** The freelance income added to the sample manager. *)
Lemma add_appends_and_saves_witness :
  let st' :=
    Ops.appended "incomes" (Income.to_dict Sample.freelance) Sample.manager
      Sample.ledger (map Income.to_dict [Sample.salary; Sample.freelance]) in
  add_income Sample.freelance Sample.manager = (Ok (), st')
  /\ getitem (data st') "incomes"
     = Ok (VList (map Income.to_dict
                    [Sample.salary; Sample.freelance; Sample.freelance]))
  /\ disk st' !! "finance_data.json" = Some (Json (data st')).
Proof.
  pose proof (add_appends_and_saves Sample.manager Sample.ledger
                Sample.freelance Sample.software Sample.laptop eq_refl)
    as Hall.
  apply Forall_cons in Hall. destruct Hall as [Hincome _].
  destruct (Hincome (map Income.to_dict [Sample.salary; Sample.freelance])
              eq_refl) as (Hcall & Hitems & _ & Hfile & _).
  cbv zeta. split; [exact Hcall | split; [exact Hitems | exact Hfile]].
Defined.

(** A manager without collections refuses an income and stays as it is. *)
Lemma add_without_collection_fails_witness :
  add_income Sample.salary Cases.manager_without_collections
  = (Err (KeyError "incomes"), Cases.manager_without_collections).
Proof.
  pose proof (add_without_collection_fails Cases.manager_without_collections
                Sample.salary Sample.software Sample.laptop) as Hall.
  apply Forall_cons in Hall. destruct Hall as [[Hmissing _] _].
  exact (Hmissing [] eq_refl eq_refl).
Defined.

(** A first start, and a start after the sample ledger has been saved. *)
Lemma restart_restores_saved_ledger_witness :
  init "finance_data.json" (disk Cases.manager_saved_elsewhere)
  = {| data_file := "finance_data.json"; data := Ops.fresh_ledger;
       disk := disk Cases.manager_saved_elsewhere |}
  /\ init "finance_data.json" (disk (save_data Sample.manager))
     = save_data Sample.manager.
Proof.
  split.
  - apply (proj1 (restart_restores_saved_ledger "finance_data.json"
                    (disk Cases.manager_saved_elsewhere))).
    reflexivity.
  - apply (proj2 (proj2 (proj2
             (restart_restores_saved_ledger "finance_data.json"
                (disk (save_data Sample.manager))))));
      reflexivity.
Defined.

(** The export of a ledger whose second income lacks [is_target] stops
    with the header and the salary row written. *)
Lemma csv_export_failure_truncates_witness :
  _export_to_csv "penny_export.csv" Cases.manager_untargeted
  = (Err (KeyError "is_target"),
     write_file Cases.manager_untargeted "penny_export.csv"
       (Csv [header; Sample.salary_row])).
Proof.
  exact (csv_export_failure_truncates "penny_export.csv"
           Cases.manager_untargeted Sample.ledger_untargeted [Sample.salary]
           (VDict Sample.untargeted) [] (KeyError "is_target")
           eq_refl eq_refl eq_refl).
Defined.

(** A file that holds the list of the three names is imported, and the
    summary of the ledger it leaves raises. *)
Lemma import_accepts_unusable_ledgers_witness :
  let st' := save_data (set_data Cases.manager_with_names
                          (VList Cases.names)) in
  import_data "names.json" Cases.manager_with_names = (Ok (), st')
  /\ get_summary st' = (Err TypeError, st').
Proof.
  destruct (proj2 (import_accepts_unusable_ledgers "names.json"
                     Cases.manager_with_names (Json (VList Cases.names))
                     eq_refl eq_refl)
              Cases.names eq_refl) as (Himport & Hsummary & _).
  - intros k [<- | [<- | [<- | []]]]; cbn; tauto.
  - cbv zeta. split; [exact Himport | exact Hsummary].
Defined.

(** A remark in the [Details] cell turns the flag on. *)
Lemma csv_flags_are_substring_tests_witness :
  exists r,
    import_income (Spec.standard_row Cases.remarked_row) = Ok r
    /\ getitem r "frequency" = Ok (VStr "monthly")
    /\ getitem r "is_target" = Ok (VBool true).
Proof.
  eexists. split; [reflexivity |]. split; [reflexivity |].
  exact (proj1 (csv_flags_are_substring_tests Cases.remarked_row
                  Cases.remarked_details eq_refl)
           _ eq_refl).
Defined.

(** After the sample ledger has been through the tabular form, no
    contribution is possible. *)
Lemma contribute_after_tabular_import_witness :
  import_goal (Spec.standard_row (Spec.goal_row Sample.laptop))
  = Ok (Spec.reimported_goal Sample.laptop)
  /\ contribute_to_goal "4404" Sample.deposit Cases.manager_reimported
     = (Err (KeyError "id"), Cases.manager_reimported).
Proof.
  split; [reflexivity |].
  exact (contribute_after_tabular_import
           (Spec.standard_row (Spec.goal_row Sample.laptop))
           (Spec.reimported_goal Sample.laptop) []
           Cases.manager_reimported Cases.reimported_ledger "4404"
           Sample.deposit eq_refl eq_refl eq_refl).
Defined.

(** A contribution of 250 to a goal without [contributions]: the call
    raises, the goal stands at 600, the disk is as it was. *)
Lemma contribute_without_contributions_key_witness :
  let st' :=
    snd (contribute_to_goal "4406" Sample.deposit
           Cases.manager_without_contributions) in
  fst (contribute_to_goal "4406" Sample.deposit
         Cases.manager_without_contributions)
  = Err (KeyError "contributions")
  /\ data st'
     = VDict
         (dict_set "savings_goals"
            (VList [VDict (dict_set "current_amount" (VFloat 600%Z)
                             Cases.goal_without_contributions)])
            Cases.ledger_without_contributions)
  /\ disk st' = disk Cases.manager_without_contributions.
Proof.
  destruct (contribute_without_contributions_key
              Cases.manager_without_contributions
              Cases.ledger_without_contributions
              Cases.goal_without_contributions [] "4406" 350%Z Sample.deposit
              eq_refl eq_refl eq_refl eq_refl eq_refl) as [Hcall Hdisk].
  cbv zeta. rewrite Hcall in *. split; [reflexivity |].
  split; [reflexivity | exact Hdisk].
Defined.

(** A file with a row of an unknown type and an income row. *)
Lemma tabular_import_shape_witness :
  exists income,
    import_from_rows [header; Sample.transfer_row; Sample.salary_row]
    = Ok (VDict [("incomes", VList [income]); ("expenses", VList []);
                 ("savings_goals", VList [])]).
Proof.
  destruct (import_from_rows [header; Sample.transfer_row; Sample.salary_row])
    as [v|e] eqn:Hrows; [| discriminate Hrows].
  destruct (proj1 (tabular_import_shape
                     [Sample.transfer_row; Sample.salary_row]) v Hrows)
    as (incomes & expenses & goals & -> & Hi & He & Hg & _).
  destruct incomes as [|income [|]]; try discriminate Hi.
  destruct expenses; [| discriminate He].
  destruct goals; [| discriminate Hg].
  now exists income.
Defined.

(** The rebuilt sample ledger exports to the rows of the sample ledger. *)
Lemma second_export_equals_first_witness :
  _export_to_csv "again.csv" Cases.manager_reimported
  = (Ok (),
     write_file Cases.manager_reimported "again.csv"
       (Csv (Spec.rows [Sample.salary; Sample.freelance] [Sample.software]
               [Sample.laptop]))).
Proof.
  exact (second_export_equals_first "again.csv" Cases.manager_reimported
           [Sample.salary; Sample.freelance] [Sample.software]
           [Sample.laptop] eq_refl).
Defined.

(** Two laptop goals that differ in deadline and priority: the
    contribution under their common id goes to the first. *)
Lemma goals_with_one_id_credit_the_first_witness :
  exists g1 g2 st3,
    SavingsGoal.init "Laptop" Cases.price SavingsCategory.ELECTRONICS None 2 = Ok g1
    /\ SavingsGoal.init "Laptop" Cases.price SavingsCategory.ELECTRONICS
         (Some Cases.christmas) 5 = Ok g2
    /\ SavingsGoal.id g1 = SavingsGoal.id g2
    /\ contribute_to_goal (SavingsGoal.id g2) Sample.deposit
         (snd (add_savings_goal g2
                 (snd (add_savings_goal g1 Cases.manager_fresh))))
       = (Ok true, st3)
    /\ getitem (data st3) "savings_goals"
       = Ok (VList (map SavingsGoal.to_dict
                      [Spec.credited Sample.deposit g1; g2])).
Proof.
  destruct (SavingsGoal.init "Laptop" Cases.price SavingsCategory.ELECTRONICS
              None 2) as [g1|] eqn:Hfirst; [| discriminate Hfirst].
  destruct (SavingsGoal.init "Laptop" Cases.price SavingsCategory.ELECTRONICS
              (Some Cases.christmas) 5) as [g2|] eqn:Hsecond;
    [| discriminate Hsecond].
  destruct (goals_with_one_id_credit_the_first "Laptop" Cases.price
              SavingsCategory.ELECTRONICS None (Some Cases.christmas) 2 5
              g1 g2 Cases.manager_fresh Cases.fresh [] Sample.deposit
              Hfirst Hsecond eq_refl eq_refl)
    as (Hid & st3 & Hcall & Hgoals).
  - intros g [].
  - exists g1, g2, st3. repeat split; assumption.
Defined.

(** The salary row under a header in another order, with a column more. *)
Lemma import_reads_cells_by_name_witness :
  import_from_rows [Cases.shuffled_header; Cases.shuffled_salary_row]
  = import_from_rows [header; Sample.salary_row].
Proof.
  apply (import_reads_cells_by_name Cases.shuffled_header 1 3 4 0 5 6
           [Cases.shuffled_salary_row]); try reflexivity.
  - apply (bool_decide_unpack _). reflexivity.
  - apply Forall_cons. split; [right; cbn; lia | apply Forall_nil; exact I].
Defined.

End FurtherInstances.
